(** * Analysis-and-alerting engine: risk metrics, sentiment trend, alert states

    A shallow embedding of the analysis code of the stock analysis system
    and of its alert life cycle.

    - [RiskAnalysisAgent] embeds [calculate_max_drawdown],
      [calculate_annualized_volatility], [calculate_sharpe_ratio],
      [generate_risk_recommendations] and [execute_task] of
      risk_analysis_agent.py.
    - [EmotionalAnalysisAgent] embeds [analyze_sentiment_trend] of
      emotional_analysis_agent.py.
    - [AlertTypes] embeds the alert declarations of the front end
      (types/index.ts) and the alert page (Alerts.tsx); [AlertEngine] holds
      the evaluation and acknowledgement reducers, which live in the back end.
    - [NewsCategories], [KeyTopics] and [EmotionalTask] embed
      [categorize_news_sentiment], [extract_key_topics] and [execute_task]
      of emotional_analysis_agent.py; [AlertsPage] and [AlertRequests] the
      colours, tables and requests of Alerts.tsx and alertService.ts.

    - [RiskAnalysisFloat] and [EmotionalAnalysisFloat] embed
      [calculate_sharpe_ratio] and [analyze_sentiment_trend] once more, over
      the interface [FloatArith] of the float operations they use;
      [SentimentEngine] holds [analyze_news_sentiment], which
      [execute_task] calls and whose body is not in the sources.

    In [RiskAnalysisAgent] and [EmotionalAnalysisAgent] Python floats are
    idealised.  The risk agent takes square roots, so its numbers are real
    numbers ([R]); the sentiment agent only adds, divides and compares, so
    its numbers are rationals ([Q]) and its definitions evaluate.
    Overflow, NaN and binary rounding are outside these two models; the
    decimal rounding [round(x, 2)] is inside them.  Where a property turns
    on the exact value of a float, at a zero test or at the edge of a
    band, it is stated over [FloatArith] instead, which assumes nothing of
    the arithmetic and so covers Python's doubles. *)

From Stdlib Require Import Reals Lra Lia ZArith QArith Qround Qabs List String Ascii.
From Stdlib Require Import Permutation Sorted.
From Stdlib Require Lqa.
From stdpp Require Import gmap strings pretty.
Import ListNotations.

(* ================================================================== *)
(** * Python results: a value or a raised exception *)
(* ================================================================== *)

Inductive exn : Type :=
  | ZeroDivisionError
  | ValueError
  | InsufficientHistoryError
  | InvalidStateTransitionError.

Inductive result (A : Type) : Type :=
  | Ok (a : A)
  | Raise (e : exn).
Arguments Ok {A} a.
Arguments Raise {A} e.

#[global] Instance result_ret : MRet result := fun A a => Ok a.
#[global] Instance result_bind : MBind result := fun A B f m =>
  match m with
  | Ok a => f a
  | Raise e => Raise e
  end.

Definition returns_value {A : Type} (r : result A) : Prop :=
  exists a, r = Ok a.

Definition raises {A : Type} (r : result A) (e : exn) : Prop :=
  r = Raise e.

(* ================================================================== *)
(** * Real-number helpers: [round(x, 2)], checked division, [min] *)
(* ================================================================== *)

Module PyReal.
Local Open Scope R_scope.

(** Nearest integer, ties to the even one: the rule of Python's [round]. *)
Definition round_half_even (x : R) : Z :=
  let n := Zfloor x in
  let f := x - IZR n in
  if Rlt_dec f (1 / 2) then n
  else if Rgt_dec f (1 / 2) then (n + 1)%Z
  else if Z.even n then n else (n + 1)%Z.

(** [round(x, 2)]. *)
Definition round2 (x : R) : R := IZR (round_half_even (x * 100)) / 100.

(** [x / y], which raises on a zero divisor. *)
Definition pydiv (x y : R) : result R :=
  if Req_dec_T y 0 then Raise ZeroDivisionError else Ok (x / y).

(** [sum(l)]. *)
Definition pysum (l : list R) : R := fold_left Rplus l 0.

(** [min(l)], which raises on an empty list. *)
Definition pymin (l : list R) : result R :=
  match l with
  | [] => Raise ValueError
  | x :: xs => Ok (fold_left Rmin xs x)
  end.

End PyReal.

(* ================================================================== *)
(** * risk_analysis_agent.py *)
(* ================================================================== *)

Module RiskAnalysisAgent.
Import PyReal.
Local Open Scope R_scope.

(** One entry of [historical_data]; [close] is [day.get("close")]. *)
Record Day : Type := { close : option R }.

(** [stock_data]; a field is [None] when the key is absent. *)
Record StockData : Type := {
  symbol : option string;
  current_price : option R;
  historical_data : option (list Day)
}.

(** [[float(day.get("close", 0)) for day in historical_data if day.get("close")]]:
    an absent or zero close is falsy and dropped. *)
Fixpoint closing_prices (hist : list Day) : list R :=
  match hist with
  | [] => []
  | day :: rest =>
      match close day with
      | Some c => if Req_dec_T c 0 then closing_prices rest
                  else c :: closing_prices rest
      | None => closing_prices rest
      end
  end.

(** [[(prices[i] - prices[i-1]) / prices[i-1] for i in range(1, len(prices))]]. *)
Fixpoint daily_returns (prices : list R) : result (list R) :=
  match prices with
  | p :: ((q :: _) as rest) =>
      r ← pydiv (q - p) p;
      rs ← daily_returns rest;
      mret (r :: rs)
  | _ => mret []
  end.

(** The loop [for ret in returns: cumulative_returns.append(cumulative_returns[-1] * (1 + ret))],
    with [last] the current [cumulative_returns[-1]]. *)
Fixpoint cumulative_from (last : R) (returns : list R) : list R :=
  match returns with
  | [] => []
  | ret :: rest => let v := last * (1 + ret) in v :: cumulative_from v rest
  end.

Definition cumulative_returns (returns : list R) : list R :=
  1 :: cumulative_from 1 returns.

(** The loop [for val in cumulative_returns[1:]: running_max.append(max(running_max[-1], val))]. *)
Fixpoint running_from (last : R) (vals : list R) : list R :=
  match vals with
  | [] => []
  | val :: rest => let m := Rmax last val in m :: running_from m rest
  end.

Definition running_max (cumulative : list R) : list R :=
  match cumulative with
  | [] => []
  | c :: rest => c :: running_from c rest
  end.

(** [[(cumulative_returns[i] - running_max[i]) / running_max[i] for i in range(len(cumulative_returns))]];
    the two lists have the same length. *)
Fixpoint drawdowns (cumulative running : list R) : result (list R) :=
  match cumulative, running with
  | c :: cs, m :: ms =>
      d ← pydiv (c - m) m;
      ds ← drawdowns cs ms;
      mret (d :: ds)
  | _, _ => mret []
  end.

Definition history (stock_data : StockData) : list Day :=
  default [] (historical_data stock_data).

Definition calculate_max_drawdown (stock_data : StockData) : result R :=
  let hist := history stock_data in
  if Nat.ltb (length hist) 10 then mret 0
  else
    let prices := closing_prices hist in
    if Nat.ltb (length prices) 2 then mret 0
    else
      returns ← daily_returns prices;
      let cumulative := cumulative_returns returns in
      let running := running_max cumulative in
      dds ← drawdowns cumulative running;
      lowest ← pymin dds;
      mret (round2 (lowest * 100)).

Definition default_trading_days : Z := 252.

(** [round(volatility * (trading_days ** 0.5), 2)]. *)
Definition calculate_annualized_volatility (volatility : R) (trading_days : Z) : R :=
  round2 (volatility * sqrt (IZR trading_days)).

Definition default_risk_free_rate : R := 2 / 100.

(** [sum(returns) / len(returns)]. *)
Definition avg_return (returns : list R) : result R :=
  pydiv (pysum returns) (INR (length returns)).

(** [(sum((r - avg) ** 2 for r in returns) / len(returns)) ** 0.5]. *)
Definition std_return (returns : list R) (avg : R) : result R :=
  variance ← pydiv (pysum (map (fun r => (r - avg) ^ 2) returns)) (INR (length returns));
  mret (sqrt variance).

(** [std_return * (252 ** 0.5)]. *)
Definition annual_std (std : R) : R := std * sqrt 252.

(** The annualized standard deviation the Sharpe computation reaches for
    a list of prices: the value its zero test looks at. *)
Definition annual_std_of_prices (prices : list R) : result R :=
  returns ← daily_returns prices;
  avg ← avg_return returns;
  std ← std_return returns avg;
  mret (annual_std std).

Definition calculate_sharpe_ratio (stock_data : StockData) (risk_free_rate : R) : result R :=
  let hist := history stock_data in
  if Nat.ltb (length hist) 10 then mret 0
  else
    let prices := closing_prices hist in
    if Nat.ltb (length prices) 2 then mret 0
    else
      returns ← daily_returns prices;
      avg ← avg_return returns;
      std ← std_return returns avg;
      let annual_return := avg * 252 in
      let annual := annual_std std in
      if Req_dec_T annual 0 then mret 0
      else
        sharpe ← pydiv (annual_return - risk_free_rate) annual;
        mret (round2 sharpe).

(** The recommendation texts of [generate_risk_recommendations]. *)
Definition high_volatility_caution : string :=
  "⚠️ 高波动性：建议控制仓位，避免过度集中".
Definition large_drawdown_caution : string :=
  "⚠️ 大幅回撤风险：历史上曾有较大跌幅，需谨慎".
Definition high_beta_caution : string :=
  "⚠️ 高 Beta：该股票波动性高于市场平均水平，适合风险偏好较高的投资者".
Definition low_beta_note : string :=
  "✅ 低 Beta：该股票相对稳定，适合保守投资者".
Definition negative_sharpe_flag : string :=
  "⚠️ 负夏普比率：风险调整后收益为负，不建议持有".
Definition good_sharpe_note : string :=
  "✅ 良好的风险收益比：夏普比率 > 1.0，风险调整后收益较好".
Definition within_normal_range : string :=
  "✅ 风险指标在合理范围内".

(** [risk_metrics.get(key, fallback)]. *)
Definition metric (risk_metrics : gmap string R) (key : string) (fallback : R) : R :=
  default fallback (risk_metrics !! key).

Definition generate_risk_recommendations (risk_metrics : gmap string R) : list string :=
  let volatility := metric risk_metrics "volatility" 0 in
  let max_drawdown := metric risk_metrics "max_drawdown" 0 in
  let beta := metric risk_metrics "beta" 1 in
  let sharpe := metric risk_metrics "sharpe_ratio" 0 in
  let recommendations : list string := [] in
  let recommendations :=
    if Rgt_dec volatility 30 then recommendations ++ [high_volatility_caution]
    else recommendations in
  let recommendations :=
    if Rlt_dec max_drawdown (-30) then recommendations ++ [large_drawdown_caution]
    else recommendations in
  let recommendations :=
    if Rgt_dec beta (15 / 10) then recommendations ++ [high_beta_caution]
    else if Rlt_dec beta (5 / 10) then recommendations ++ [low_beta_note]
    else recommendations in
  let recommendations :=
    if Rlt_dec sharpe 0 then recommendations ++ [negative_sharpe_flag]
    else if Rgt_dec sharpe 1 then recommendations ++ [good_sharpe_note]
    else recommendations in
  match recommendations with
  | [] => [within_normal_range]
  | _ :: _ => recommendations
  end.

(** None of the six threshold tests of [generate_risk_recommendations]
    holds. *)
Definition no_rule_fires (risk_metrics : gmap string R) : Prop :=
  ~ metric risk_metrics "volatility" 0 > 30
  /\ ~ metric risk_metrics "max_drawdown" 0 < -30
  /\ ~ metric risk_metrics "beta" 1 > 15 / 10
  /\ ~ metric risk_metrics "beta" 1 < 5 / 10
  /\ ~ metric risk_metrics "sharpe_ratio" 0 < 0
  /\ ~ metric risk_metrics "sharpe_ratio" 0 > 1.

(** The report [execute_task] returns. *)
Record RiskReport : Type := {
  report_symbol : string;
  volatility_daily : R;
  volatility_annualized : R;
  report_beta : R;
  report_var : R;
  report_max_drawdown : R;
  report_sharpe_ratio : R;
  report_risk_score : R;
  report_risk_level : string;
  report_recommendations : list string;
  analysis_timestamp : string
}.

Section ExecuteTask.

(** Methods of the agent that [execute_task] calls and whose bodies are
    in risk_analysis_agent.py only. *)
Variable calculate_volatility : StockData -> R.
Variable calculate_beta : StockData -> gmap string R -> R.
Variable calculate_var : StockData -> R.
Variable calculate_risk_score : R -> R -> R -> R.
Variable assess_risk_level : R -> string.

(** [not stock_data]: the dict has no key. *)
Definition stock_data_empty (stock_data : StockData) : bool :=
  match symbol stock_data, current_price stock_data, historical_data stock_data with
  | None, None, None => true
  | _, _, _ => false
  end.

(** [execute_task]; [utcnow] is the clock reading, [market_data] is
    [task_data.get("market_data", {})]. *)
Definition execute_task (stock_data : StockData) (market_data : gmap string R)
    (utcnow : string) : result RiskReport :=
  if stock_data_empty stock_data then Raise ValueError
  else
    let volatility := calculate_volatility stock_data in
    let annualized_volatility :=
      calculate_annualized_volatility volatility default_trading_days in
    let beta := calculate_beta stock_data market_data in
    let var := calculate_var stock_data in
    max_drawdown ← calculate_max_drawdown stock_data;
    sharpe_ratio ← calculate_sharpe_ratio stock_data default_risk_free_rate;
    let risk_score := calculate_risk_score volatility beta var in
    let risk_level := assess_risk_level risk_score in
    let risk_metrics : gmap string R :=
      <["sharpe_ratio" := sharpe_ratio]>
        (<["beta" := beta]>
          (<["max_drawdown" := max_drawdown]>
            (<["volatility" := annualized_volatility]> ∅))) in
    let recommendations := generate_risk_recommendations risk_metrics in
    mret {| report_symbol := default ""%string (symbol stock_data);
            volatility_daily := volatility;
            volatility_annualized := annualized_volatility;
            report_beta := beta;
            report_var := var;
            report_max_drawdown := max_drawdown;
            report_sharpe_ratio := sharpe_ratio;
            report_risk_score := risk_score;
            report_risk_level := risk_level;
            report_recommendations := recommendations;
            analysis_timestamp := utcnow |}.

End ExecuteTask.

End RiskAnalysisAgent.

(* ================================================================== *)
(** * Rational-number helpers: [round(x, 2)], [sum], [{x:.2f}] *)
(* ================================================================== *)

Module PyRat.
Local Open Scope Q_scope.

(** Nearest integer, ties to the even one. *)
Definition round_half_even (x : Q) : Z :=
  let n := Qfloor x in
  match Qcompare (x - inject_Z n) (1 # 2) with
  | Lt => n
  | Gt => (n + 1)%Z
  | Eq => if Z.even n then n else (n + 1)%Z
  end.

(** [round(x, 2)], as hundredths. *)
Definition round2 (x : Q) : Q :=
  Qmake (round_half_even (x * 100)) 100.

(** [sum(l)]. *)
Definition pysum (l : list Q) : Q := fold_left Qplus l 0.

(** Two decimal digits of a number of hundredths below one. *)
Definition two_digits (n : Z) : string :=
  ((if (n <? 10)%Z then "0" else "") ++ pretty n)%string.

(** [f"{x:.2f}"] for a non-negative [x]. *)
Definition format_2f (x : Q) : string :=
  let hundredths := round_half_even (x * 100) in
  (pretty (hundredths / 100)%Z ++ "." ++ two_digits (hundredths mod 100)%Z)%string.

End PyRat.

(* ================================================================== *)
(** * emotional_analysis_agent.py *)
(* ================================================================== *)

Module EmotionalAnalysisAgent.
Import PyRat.
Local Open Scope Q_scope.

(** A value stored in a returned dict. *)
Inductive pyval : Type :=
  | PyStr (s : string)
  | PyInt (z : Z)
  | PyFloat (q : Q).

(** One entry of [news_data]; a field is [None] when the key is absent. *)
Record News : Type := {
  title : option string;
  published_at : option string;
  sentiment : option string;
  category : option string
}.

(** The sort key [x.get("published_at", "")]. *)
Definition sort_key (news : News) : string :=
  default ""%string (published_at news).

(** [sorted(news_data, key=...)]: ascending by key, and stable. *)
Fixpoint insert_by_key (news : News) (sorted_news : list News) : list News :=
  match sorted_news with
  | [] => [news]
  | other :: rest =>
      if String.leb (sort_key news) (sort_key other)
      then news :: other :: rest
      else other :: insert_by_key news rest
  end.

Fixpoint sorted (news_data : list News) : list News :=
  match news_data with
  | [] => []
  | news :: rest => insert_by_key news (sorted rest)
  end.

(** The branch of [avg_sentiment] that scores one article. *)
Definition article_score (news : News) : Q :=
  let label := default "neutral"%string (sentiment news) in
  if String.eqb label "positive" then 8 # 10
  else if String.eqb label "negative" then 2 # 10
  else 5 # 10.

(** [sum(scores) / len(scores) if scores else 0.5]. *)
Definition avg_sentiment (news_list : list News) : Q :=
  let scores := map article_score news_list in
  match scores with
  | [] => 5 # 10
  | _ :: _ => pysum scores / inject_Z (Z.of_nat (length scores))
  end.

Inductive Trend : Type := IMPROVING | DETERIORATING | STABLE.

Definition trend_name (t : Trend) : string :=
  match t with
  | IMPROVING => "IMPROVING"
  | DETERIORATING => "DETERIORATING"
  | STABLE => "STABLE"
  end.

(** The [if change > 0.1 ... elif change < -0.1 ... else] cascade. *)
Definition classify (change : Q) : Trend :=
  if Qlt_le_dec (1 # 10) change then IMPROVING
  else if Qlt_le_dec change (- (1 # 10)) then DETERIORATING
  else STABLE.

Definition first_half (news_data : list News) : list News :=
  let sorted_news := sorted news_data in
  take (length sorted_news / 2)%nat sorted_news.

Definition second_half (news_data : list News) : list News :=
  let sorted_news := sorted news_data in
  drop (length sorted_news / 2)%nat sorted_news.

(** [change = second_avg - first_avg]. *)
Definition sentiment_change (news_data : list News) : Q :=
  avg_sentiment (second_half news_data) - avg_sentiment (first_half news_data).

(** The f-string of the ["description"] entry. *)
Definition description (change : Q) : string :=
  ("情绪 " ++
   (if Qlt_le_dec 0 change then "改善"
    else if Qlt_le_dec change 0 then "恶化"
    else "稳定") ++
   "，变化 " ++ format_2f (Qabs change))%string.

Definition analyze_sentiment_trend (news_data : list News) : gmap string pyval :=
  match news_data with
  | [] => <["change" := PyInt 0]> (<["trend" := PyStr "STABLE"]> ∅)
  | _ :: _ =>
      let first_avg := avg_sentiment (first_half news_data) in
      let second_avg := avg_sentiment (second_half news_data) in
      let change := second_avg - first_avg in
      let trend := classify change in
      <["description" := PyStr (description change)]>
        (<["second_half_sentiment" := PyFloat (round2 second_avg)]>
          (<["first_half_sentiment" := PyFloat (round2 first_avg)]>
            (<["change" := PyFloat (round2 change)]>
              (<["trend" := PyStr (trend_name trend)]> ∅))))
  end.

End EmotionalAnalysisAgent.

(* ================================================================== *)
(** * Words of the specification about the sentiment trend *)
(* ================================================================== *)

Module SentimentSpec.
Import EmotionalAnalysisAgent.
Local Open Scope Q_scope.

(** The time an article was published, read off its [published_at]; an
    article without one counts as published at the empty time, which is
    before every other. *)
Definition publication_time (news : News) : string :=
  match published_at news with
  | Some time => time
  | None => ""%string
  end.

(** [a] is published no later than [b]: timestamps of one format are
    ordered as strings. *)
Definition chronological (a b : News) : Prop :=
  String.leb (publication_time a) (publication_time b) = true.

(** The mean of a list of scores: their sum over their number. *)
Definition mean (scores : list Q) : Q :=
  fold_right Qplus 0 scores / inject_Z (Z.of_nat (length scores)).

Definition article (label published : string) : News :=
  {| title := None; published_at := Some published;
     sentiment := Some label; category := None |}.

(** Four articles, given out of order, whose mood improves over time. *)
Definition improving_news : list News :=
  [article "positive" "2025-10-04"; article "negative" "2025-10-01";
   article "positive" "2025-10-03"; article "neutral" "2025-10-02"].

End SentimentSpec.

(* ================================================================== *)
(** * Alert declarations of the front end (types/index.ts, Alerts.tsx) *)
(* ================================================================== *)

Module AlertTypes.
Local Open Scope Q_scope.

Inductive AlertType : Type := PRICE_DROP | PRICE_RISE | VOLUME_SPIKE | NEWS_ALERT.

Inductive AlertStatus : Type := PENDING | TRIGGERED | ACKNOWLEDGED.

Definition AlertStatus_eqb (a b : AlertStatus) : bool :=
  match a, b with
  | PENDING, PENDING | TRIGGERED, TRIGGERED | ACKNOWLEDGED, ACKNOWLEDGED => true
  | _, _ => false
  end.

(** The string each status is serialized as. *)
Definition status_value (s : AlertStatus) : string :=
  match s with
  | PENDING => "pending"
  | TRIGGERED => "triggered"
  | ACKNOWLEDGED => "acknowledged"
  end.

(** One entry of [trigger_history]. *)
Record TriggerEvent : Type := {
  timestamp : string;
  price : Q;
  change_percent : Q;
  baseline_price : Q
}.

(** [interface Alert]; an optional field is [None] when absent. *)
Record Alert : Type := {
  id : Z;
  user_id : Z;
  stock_id : Z;
  alert_type : AlertType;
  threshold_value : option Q;
  current_value : option Q;
  trigger_count : option Z;
  trigger_history : option (list TriggerEvent);
  required_triggers : option Z;
  message : string;
  status : AlertStatus;
  triggered_at : option string;
  acknowledged_at : option string;
  created_at : string
}.

(** [record.trigger_count || 0]: an absent or zero count reads as 0. *)
Definition shown_count (record : Alert) : Z :=
  match trigger_count record with
  | Some c => if (c =? 0)%Z then 0%Z else c
  | None => 0%Z
  end.

(** [record.required_triggers || 5]: an absent or zero requirement reads as 5. *)
Definition shown_required (record : Alert) : Z :=
  match required_triggers record with
  | Some r => if (r =? 0)%Z then 5%Z else r
  | None => 5%Z
  end.

(** The colour of the count tag in the "Trigger Count" column. *)
Definition count_tag_color (record : Alert) : string :=
  let count := shown_count record in
  let required := shown_required record in
  if (required <=? count)%Z then "red"
  else if (0 <? count)%Z then "orange"
  else "default".

(** [(count / required) * 100]. *)
Definition count_percentage (record : Alert) : Q :=
  inject_Z (shown_count record) / inject_Z (shown_required record) * 100.

(** The colour of the percentage beside the tag, shown when [count > 0]. *)
Definition percentage_color (record : Alert) : option string :=
  if (0 <? shown_count record)%Z then
    Some (if Qle_bool 80 (count_percentage record) then "#ff4d4f"
          else if Qle_bool 50 (count_percentage record) then "#fa8c16"
          else "#8c8c8c")
  else None.

(** The acknowledge button is rendered for a record whose status is
    ['triggered'] only. *)
Definition acknowledge_button_shown (record : Alert) : bool :=
  AlertStatus_eqb (status record) TRIGGERED.

(** What [handleAcknowledge] shows, given how the request to
    [/alerts/{id}/acknowledge] ended; on success it also reloads the list. *)
Inductive Toast : Type :=
  | ToastSuccess (text : string)
  | ToastError (text : string).

Definition handleAcknowledge {A : Type} (response : result A) : Toast :=
  match response with
  | Ok _ => ToastSuccess "Alert acknowledged"
  | Raise _ => ToastError "Failed to acknowledge alert"
  end.

End AlertTypes.

(* ================================================================== *)
(** * The alert state machine of the back end *)
(* ================================================================== *)

Module AlertEngine.
Import AlertTypes.
Local Open Scope Q_scope.

(** Modelled from the spec: the defaults and the direction rules of the
    alert state machine, handed to the reducer as explicit configuration;
    the back end's alert settings are absent from the sources. *)
Record Config : Type := {
  (** does [changePercent] breach the threshold, for this alert type? *)
  breach_condition : AlertType -> Q -> Q -> bool;
  (** has the price crossed back past the baseline by the recovery margin? *)
  recovery_event : AlertType -> Q -> Q -> bool;
  default_threshold : Q;
  default_required_triggers : Z;
  (** the message of a triggered alert, from threshold and breach event *)
  breach_message : AlertType -> Q -> TriggerEvent -> string
}.

(** Modelled from the spec: the inputs of one evaluation cycle, the time,
    the current price when there is one, and the baseline price; the back
    end's scheduler is absent from the sources. *)
Record Cycle : Type := {
  cycle_time : string;
  cycle_price : option Q;
  cycle_baseline : Q
}.

(** Modelled from the spec: the result of [evaluateAlert],
    [{previousStatus, newStatus, triggerCount}], with the updated record;
    the back end's alert service is absent from the sources. *)
Record Transition : Type := {
  previousStatus : AlertStatus;
  newStatus : AlertStatus;
  triggerCount : Z;
  updated : Alert
}.

Definition count_of (alert : Alert) : Z := default 0%Z (trigger_count alert).

Definition history_of (alert : Alert) : list TriggerEvent :=
  default [] (trigger_history alert).

Definition set_counter (alert : Alert) (count : Z) (events : list TriggerEvent)
    (current : option Q) : Alert :=
  {| id := id alert; user_id := user_id alert; stock_id := stock_id alert;
     alert_type := alert_type alert; threshold_value := threshold_value alert;
     current_value := current;
     trigger_count := Some count;
     trigger_history := Some events;
     required_triggers := required_triggers alert;
     message := message alert; status := status alert;
     triggered_at := triggered_at alert;
     acknowledged_at := acknowledged_at alert;
     created_at := created_at alert |}.

Definition set_triggered (alert : Alert) (now text : string) : Alert :=
  {| id := id alert; user_id := user_id alert; stock_id := stock_id alert;
     alert_type := alert_type alert; threshold_value := threshold_value alert;
     current_value := current_value alert;
     trigger_count := trigger_count alert;
     trigger_history := trigger_history alert;
     required_triggers := required_triggers alert;
     message := text; status := TRIGGERED;
     triggered_at := Some now;
     acknowledged_at := acknowledged_at alert;
     created_at := created_at alert |}.

Definition set_acknowledged (alert : Alert) (now : string) : Alert :=
  {| id := id alert; user_id := user_id alert; stock_id := stock_id alert;
     alert_type := alert_type alert; threshold_value := threshold_value alert;
     current_value := current_value alert;
     trigger_count := trigger_count alert;
     trigger_history := trigger_history alert;
     required_triggers := required_triggers alert;
     message := message alert; status := ACKNOWLEDGED;
     triggered_at := triggered_at alert;
     acknowledged_at := Some now;
     created_at := created_at alert |}.

Section Reducer.
Variable config : Config.

Definition threshold_of (alert : Alert) : Q :=
  default (default_threshold config) (threshold_value alert).

Definition required_of (alert : Alert) : Z :=
  default (default_required_triggers config) (required_triggers alert).

(** Modelled from the spec: step 1 of the transition rule,
    [changePercent = (current - baseline) / baseline * 100]; the back end's
    alert service is absent from the sources. *)
Definition change_percent_of (current baseline : Q) : Q :=
  (current - baseline) / baseline * 100.

(** Modelled from the spec: steps 2 and 3 of the transition rule, the
    bookkeeping of one observation.  A breach appends its event to the
    history and increments the count; a miss leaves both alone, unless it
    is a recovery event, which resets the count to 0 and clears the
    history.  The back end's alert service is absent from the sources. *)
Definition observe (alert : Alert) (now : string) (current baseline : Q) : Alert :=
  let change := change_percent_of current baseline in
  if breach_condition config (alert_type alert) (threshold_of alert) change then
    let event := {| timestamp := now; price := current;
                    change_percent := change; baseline_price := baseline |} in
    set_counter alert (count_of alert + 1)%Z (history_of alert ++ [event]) (Some current)
  else if recovery_event config (alert_type alert) baseline current then
    set_counter alert 0%Z [] (current_value alert)
  else alert.

(** Modelled from the spec: the breach parameters a triggered alert's
    message is generated from, the last breach of the history or, without
    one, the observation itself; the back end's alert service is absent
    from the sources. *)
Definition last_event (alert : Alert) (now : string) (current baseline : Q) : TriggerEvent :=
  List.last (history_of alert)
    {| timestamp := now; price := current;
       change_percent := change_percent_of current baseline;
       baseline_price := baseline |}.

(** Modelled from the spec: the pure evaluate function of the alert state
    machine (transition rule, steps 1 to 4).  After the bookkeeping of the
    observation, an alert that is PENDING and whose count has reached the
    required count becomes TRIGGERED, with [triggeredAt] stamped and the
    message generated; the transition result is handed to the caller.  The
    back end's alert service is absent from the sources. *)
Definition evaluate (alert : Alert) (now : string) (current baseline : Q) : Transition :=
  let counted := observe alert now current baseline in
  let next :=
    if (required_of counted <=? count_of counted)%Z
       && AlertStatus_eqb (status counted) PENDING
    then set_triggered counted now
           (breach_message config (alert_type counted) (threshold_of counted)
              (last_event counted now current baseline))
    else counted in
  {| previousStatus := status alert;
     newStatus := status next;
     triggerCount := count_of next;
     updated := next |}.

(** Modelled from the spec: one scheduler cycle.  A cycle without a
    current price is skipped and mutates nothing.  The back end's
    scheduler entry point is absent from the sources. *)
Definition evaluate_cycle (alert : Alert) (cycle : Cycle) : Transition :=
  match cycle_price cycle with
  | Some current => evaluate alert (cycle_time cycle) current (cycle_baseline cycle)
  | None => {| previousStatus := status alert; newStatus := status alert;
               triggerCount := count_of alert; updated := alert |}
  end.

(** Modelled from the spec: the scheduler calling the evaluation once per
    interval.  The transition results of a sequence of cycles, each cycle
    starting from the alert the previous one produced. *)
Fixpoint run (alert : Alert) (cycles : list Cycle) : list Transition :=
  match cycles with
  | [] => []
  | cycle :: rest =>
      let t := evaluate_cycle alert cycle in
      t :: run (updated t) rest
  end.

(** The alert after a sequence of cycles. *)
Fixpoint final (alert : Alert) (cycles : list Cycle) : Alert :=
  match cycles with
  | [] => alert
  | cycle :: rest => final (updated (evaluate_cycle alert cycle)) rest
  end.

End Reducer.

(** A transition result that reports PENDING -> TRIGGERED. *)
Definition fires (t : Transition) : bool :=
  AlertStatus_eqb (previousStatus t) PENDING
  && AlertStatus_eqb (newStatus t) TRIGGERED.

(** How many results of a run report PENDING -> TRIGGERED. *)
Definition fire_count (ts : list Transition) : nat :=
  length (List.filter fires ts).

(** Modelled from the spec: [acknowledge()], valid only from TRIGGERED,
    which moves the alert to ACKNOWLEDGED and stamps [acknowledgedAt]; from
    any other state it raises InvalidStateTransitionError.  The back end's
    acknowledge endpoint is absent from the sources. *)
Definition acknowledge (alert : Alert) (now : string) : result Alert :=
  match status alert with
  | TRIGGERED => Ok (set_acknowledged alert now)
  | PENDING | ACKNOWLEDGED => Raise InvalidStateTransitionError
  end.

(** Modelled from the spec: a configuration for price alerts, absent from
    the sources.  A drop alert is breached by a change at or below its
    negative threshold, a rise alert by a change at or above its
    threshold; recovery is the price back at or past the baseline; five
    breaches are required by default. *)
Definition price_config : Config :=
  {| breach_condition := fun kind threshold change =>
       match kind with
       | PRICE_DROP => Qle_bool change threshold
       | PRICE_RISE => Qle_bool threshold change
       | VOLUME_SPIKE | NEWS_ALERT => false
       end;
     recovery_event := fun kind baseline current =>
       match kind with
       | PRICE_DROP => Qle_bool baseline current
       | PRICE_RISE => Qle_bool current baseline
       | VOLUME_SPIKE | NEWS_ALERT => false
       end;
     default_threshold := -5;
     default_required_triggers := 5;
     breach_message := fun kind threshold event =>
       match kind with
       | PRICE_DROP => "price dropped past threshold"
       | PRICE_RISE => "price rose past threshold"
       | VOLUME_SPIKE => "volume spike"
       | NEWS_ALERT => "news alert"
       end |}.

End AlertEngine.

(* ================================================================== *)
(** * Sample alerts *)
(* ================================================================== *)

Module AlertSamples.
Import AlertTypes AlertEngine.
Local Open Scope Q_scope.

(** A fresh drop alert: threshold -5 percent, three breaches required. *)
Definition drop_alert : Alert :=
  {| id := 1; user_id := 7; stock_id := 42;
     alert_type := PRICE_DROP;
     threshold_value := Some (-5);
     current_value := None;
     trigger_count := Some 0%Z;
     trigger_history := Some [];
     required_triggers := Some 3%Z;
     message := "";
     status := PENDING;
     triggered_at := None;
     acknowledged_at := None;
     created_at := "2025-10-29T09:00:00" |}.

Definition cycle_at (now : string) (current : Q) : Cycle :=
  {| cycle_time := now; cycle_price := Some current; cycle_baseline := 100 |}.

(** Prices 95, 94 and 93 against a baseline of 100: changes of -5, -6 and
    -7 percent, all breaching. *)
Definition three_breaches : list Cycle :=
  [cycle_at "2025-10-29T10:00:00" 95;
   cycle_at "2025-10-29T11:00:00" 94;
   cycle_at "2025-10-29T12:00:00" 93].

(** The drop alert once the three breaches have been evaluated. *)
Definition triggered_alert : Alert := final price_config drop_alert three_breaches.

End AlertSamples.

(* ================================================================== *)
(** * Sample inputs *)
(* ================================================================== *)

Module Samples.
Import RiskAnalysisAgent.
Local Open Scope R_scope.

Definition day_of_close (c : R) : Day := {| close := Some c |}.

(** A [stock_data] dict whose history has the given closes. *)
Definition stock_of_closes (closes : list R) : StockData :=
  {| symbol := Some "XPEV"%string;
     current_price := None;
     historical_data := Some (map day_of_close closes) |}.

(** Ten closes that rise every day. *)
Definition rising_closes : list R := [1; 2; 3; 4; 5; 6; 7; 8; 9; 10].

(** Ten closes that never move: no volatility at all. *)
Definition flat_closes : list R := [5; 5; 5; 5; 5; 5; 5; 5; 5; 5].

(** Eleven closes with a single step up, whose mean daily return is
    1/12600: annualized over 252 days it is exactly the default risk-free
    rate of 0.02. *)
Definition stepped_closes : list R :=
  [1260; 1261; 1261; 1261; 1261; 1261; 1261; 1261; 1261; 1261; 1261].

(** Three closes: a history below the ten-point guard. *)
Definition short_closes : list R := [10; 9; 8].

(** Ten closes that dip from 100 to 80 and then recover. *)
Definition dipping_closes : list R :=
  [100; 80; 90; 100; 110; 120; 130; 140; 150; 160].

(** Ten closes of which all but the first are negative. *)
Definition negative_closes : list R := [1; -1; -1; -1; -1; -1; -1; -1; -1; -1].

(** Risk metrics with a volatility above 30 and a negative Sharpe ratio. *)
Definition risky_metrics : gmap string R :=
  <["sharpe_ratio"%string := -1]> (<["volatility"%string := 35]> ∅).

(** Risk metrics on which no threshold rule fires. *)
Definition calm_metrics : gmap string R :=
  <["sharpe_ratio"%string := 1 / 2]>
    (<["beta"%string := 1]>
      (<["max_drawdown"%string := -10]>
        (<["volatility"%string := 20]> ∅))).

End Samples.

(* ================================================================== *)
(** * Edited histories *)
(* ================================================================== *)

Module RiskInputs.
Import RiskAnalysisAgent.
Local Open Scope R_scope.

(** The same [stock_data] with another history. *)
Definition with_history (stock_data : StockData) (hist : list Day) : StockData :=
  {| symbol := symbol stock_data;
     current_price := current_price stock_data;
     historical_data := Some hist |}.

(** [day.get("close")] is falsy: the key is absent or the close is 0. *)
Definition close_is_falsy (day : Day) : Prop :=
  close day = None \/ close day = Some 0.

End RiskInputs.

(* ================================================================== *)
(** * Alerts.tsx: colours and tables of the alert page *)
(* ================================================================== *)

Module AlertsPage.
Import AlertTypes.
Local Open Scope Q_scope.

Definition getAlertTypeColor (type : AlertType) : string :=
  match type with
  | PRICE_DROP => "red"
  | PRICE_RISE => "green"
  | VOLUME_SPIKE => "orange"
  | NEWS_ALERT => "blue"
  end.

Definition getStatusColor (status : AlertStatus) : string :=
  match status with
  | PENDING => "blue"
  | TRIGGERED => "red"
  | ACKNOWLEDGED => "green"
  end.

(** [alerts.filter(a => a.status === 'triggered')] and its siblings. *)
Definition triggeredAlerts (alerts : list Alert) : list Alert :=
  List.filter (fun a => AlertStatus_eqb (status a) TRIGGERED) alerts.

Definition pendingAlerts (alerts : list Alert) : list Alert :=
  List.filter (fun a => AlertStatus_eqb (status a) PENDING) alerts.

Definition acknowledgedAlerts (alerts : list Alert) : list Alert :=
  List.filter (fun a => AlertStatus_eqb (status a) ACKNOWLEDGED) alerts.

(** The card of triggered alerts is rendered only when there is one. *)
Definition triggered_card_shown (alerts : list Alert) : bool :=
  (0 <? length (triggeredAlerts alerts))%nat.

(** An alert of status [s] with a count of [count] against a requirement
    of [required]. *)
Definition page_alert (s : AlertStatus) (count required : Z) : Alert :=
  {| id := 1; user_id := 1; stock_id := 1;
     alert_type := PRICE_DROP;
     threshold_value := Some (-5);
     current_value := None;
     trigger_count := Some count;
     trigger_history := None;
     required_triggers := Some required;
     message := "";
     status := s;
     triggered_at := None;
     acknowledged_at := None;
     created_at := "2025-10-29T09:00:00" |}.

(** A page with one alert of each status. *)
Definition page_alerts : list Alert :=
  [page_alert PENDING 2 5; page_alert TRIGGERED 5 5; page_alert ACKNOWLEDGED 5 5].

End AlertsPage.

(* ================================================================== *)
(** * emotional_analysis_agent.py: sentiment by news category *)
(* ================================================================== *)

Module NewsCategories.
Import PyRat EmotionalAnalysisAgent.
Local Open Scope Q_scope.

(** What a call comes to: a returned value, or a KeyError with its key. *)
Inductive outcome (A : Type) : Type :=
  | Returned (a : A)
  | KeyError (key : string).
Arguments Returned {A} a.
Arguments KeyError {A} key.

(** [news.get("category", "general")]. *)
Definition category_of (news : News) : string :=
  default "general"%string (category news).

(** [news.get("sentiment", "neutral")]. *)
Definition label_of (news : News) : string :=
  default "neutral"%string (sentiment news).

(** [{"positive": 0, "negative": 0, "neutral": 0, "total": 0}]. *)
Definition fresh_counts : gmap string Z :=
  <["total"%string := 0%Z]>
    (<["neutral"%string := 0%Z]>
      (<["negative"%string := 0%Z]>
        (<["positive"%string := 0%Z]> ∅))).

(** [counts[key] += 1], which raises when the key is absent. *)
Definition increment (key : string) (counts : gmap string Z) : outcome (gmap string Z) :=
  match counts !! key with
  | Some v => Returned (<[key := (v + 1)%Z]> counts)
  | None => KeyError key
  end.

(** One turn of the first loop: the category's counts are created when
    absent, then [counts[sentiment] += 1] and [counts["total"] += 1]. *)
Definition count_article (categories : gmap string (gmap string Z)) (news : News)
    : outcome (gmap string (gmap string Z)) :=
  let counts := default fresh_counts (categories !! category_of news) in
  match increment (label_of news) counts with
  | KeyError key => KeyError key
  | Returned counted =>
      match increment "total" counted with
      | KeyError key => KeyError key
      | Returned totalled =>
          Returned (<[category_of news := totalled]> categories)
      end
  end.

(** The first loop, from the categories gathered so far. *)
Fixpoint count_articles (news_data : list News)
    (categories : gmap string (gmap string Z))
    : outcome (gmap string (gmap string Z)) :=
  match news_data with
  | [] => Returned categories
  | news :: rest =>
      match count_article categories news with
      | KeyError key => KeyError key
      | Returned counted => count_articles rest counted
      end
  end.

(** [(positive * 0.8 + negative * 0.2 + neutral * 0.5) / total]. *)
Definition avg_score (counts : gmap string Z) : Q :=
  (inject_Z (counts !!! "positive"%string) * (8 # 10)
   + inject_Z (counts !!! "negative"%string) * (2 # 10)
   + inject_Z (counts !!! "neutral"%string) * (5 # 10))
  / inject_Z (counts !!! "total"%string).

(** The label chosen by [if avg_score > 0.6 ... elif avg_score < 0.4 ... else]. *)
Definition overall_sentiment (score : Q) : string :=
  if Qlt_le_dec (6 # 10) score then "POSITIVE"
  else if Qlt_le_dec score (4 # 10) then "NEGATIVE"
  else "NEUTRAL".

(** One turn of the second loop.  The four counts read here are always
    present (see [counted_keys_present]), so reading them cannot raise. *)
Definition summarize (counts : gmap string Z) : gmap string pyval :=
  let data : gmap string pyval := PyInt <$> counts in
  if (0 <? counts !!! "total"%string)%Z then
    <["sentiment_score"%string := PyFloat (round2 (avg_score counts))]>
      (<["overall_sentiment"%string := PyStr (overall_sentiment (avg_score counts))]>
        data)
  else data.

Definition categorize_news_sentiment (news_data : list News)
    : outcome (gmap string (gmap string pyval)) :=
  match count_articles news_data ∅ with
  | KeyError key => KeyError key
  | Returned categories => Returned (summarize <$> categories)
  end.

(** The keys of a fresh count dict: the labels [counts[sentiment] += 1]
    accepts. *)
Definition accepted_label (label : string) : bool :=
  String.eqb label "positive" || String.eqb label "negative"
  || String.eqb label "neutral" || String.eqb label "total".

(** One of the three sentiment labels. *)
Definition sentiment_label (label : string) : bool :=
  String.eqb label "positive" || String.eqb label "negative"
  || String.eqb label "neutral".

(** The number of articles of a category, and of a category and label. *)
Definition in_category (c : string) (news_data : list News) : Z :=
  Z.of_nat (length (List.filter (fun news => String.eqb (category_of news) c) news_data)).

Definition in_category_with (c label : string) (news_data : list News) : Z :=
  Z.of_nat (length (List.filter
    (fun news => String.eqb (category_of news) c && String.eqb (label_of news) label)
    news_data)).

(** The keys of a count dict are the four accepted labels, no more. *)
Definition four_keys (counts : gmap string Z) : Prop :=
  forall key, is_Some (counts !! key) <-> accepted_label key = true.

Definition all_four_keys (categories : gmap string (gmap string Z)) : Prop :=
  forall c counts, categories !! c = Some counts -> four_keys counts.

(** The count under [key] for category [c]; 0 when the category is new. *)
Definition tally (categories : gmap string (gmap string Z)) (c key : string) : Z :=
  match categories !! c with
  | Some counts => counts !!! key
  | None => 0%Z
  end.

(** 1 for a hit, 0 for a miss. *)
Definition bump (hit : bool) : Z := if hit then 1%Z else 0%Z.

Definition filed (label topic : string) : News :=
  {| title := None; published_at := None;
     sentiment := Some label; category := Some topic |}.

(** Two earnings articles and one product article. *)
Definition filed_news : list News :=
  [filed "positive" "earnings"; filed "negative" "product";
   filed "positive" "earnings"].

End NewsCategories.

(* ================================================================== *)
(** * emotional_analysis_agent.py: key topics of the news titles *)
(* ================================================================== *)

Module KeyTopics.
Import EmotionalAnalysisAgent.

(** A byte of the form 10xxxxxx continues a UTF-8 character. *)
Definition is_continuation (b : ascii) : bool :=
  let n := Ascii.N_of_ascii b in (128 <=? n)%N && (n <? 192)%N.

(** [len(w)]: the number of characters of a UTF-8 text. *)
Fixpoint len (w : string) : nat :=
  match w with
  | EmptyString => 0
  | String b rest => (if is_continuation b then 0 else 1) + len rest
  end.

Definition stop_words : list string :=
  ["the"; "a"; "an"; "and"; "or"; "but"; "in"; "on"; "at"; "to"; "for";
   "of"; "with"; "by"]%string.

(** [w not in stop_words and len(w) > 3]. *)
Definition kept (w : string) : bool :=
  negb (existsb (String.eqb w) stop_words) && (3 <? len w)%nat.

(** [counts[w] += 1] on a Counter, which keeps its keys in the order they
    were first seen. *)
Fixpoint add_word (w : string) (counts : list (string * nat)) : list (string * nat) :=
  match counts with
  | [] => [(w, 1%nat)]
  | (w', n) :: rest =>
      if String.eqb w w' then (w', S n) :: rest
      else (w', n) :: add_word w rest
  end.

(** [Counter(words)]. *)
Definition Counter (words : list string) : list (string * nat) :=
  fold_left (fun counts w => add_word w counts) words [].

(** The stable sort by decreasing count behind [most_common]: of two
    entries with the same count the one seen first stays first. *)
Fixpoint insert_by_count (entry : string * nat) (entries : list (string * nat))
    : list (string * nat) :=
  match entries with
  | [] => [entry]
  | other :: rest =>
      if (snd other <=? snd entry)%nat then entry :: other :: rest
      else other :: insert_by_count entry rest
  end.

Fixpoint sort_by_count (entries : list (string * nat)) : list (string * nat) :=
  match entries with
  | [] => []
  | entry :: rest => insert_by_count entry (sort_by_count rest)
  end.

(** [counts.most_common(n)]. *)
Definition most_common (n : nat) (counts : list (string * nat)) : list (string * nat) :=
  take n (sort_by_count counts).

(** How often [w] occurs among [words]. *)
Definition frequency (w : string) (words : list string) : nat :=
  length (List.filter (String.eqb w) words).

(** The count a Counter holds for [w]; 0 without an entry. *)
Definition entry_count (w : string) (counts : list (string * nat)) : nat :=
  match List.find (fun entry => String.eqb w (fst entry)) counts with
  | Some entry => snd entry
  | None => 0
  end.

(** The words a Counter has an entry for, in its order. *)
Definition keys (counts : list (string * nat)) : list string := map fst counts.

(** The entry [a] has at least the count of [b]. *)
Definition more_common (a b : string * nat) : Prop := (snd b <= snd a)%nat.

Section Builtins.

(** [str.lower] and [str.split] of the Python library. *)
Variable lower : string -> string.
Variable split : string -> list string.

(** [[w for w in title.lower().split() if w not in stop_words and len(w) > 3]]. *)
Definition title_words (news : News) : list string :=
  List.filter kept (split (lower (default ""%string (title news)))).

(** [all_words] after the loop over the news. *)
Definition all_words (news_data : list News) : list string :=
  flat_map title_words news_data.

Definition extract_key_topics (news_data : list News) : list string :=
  map fst (most_common 5 (Counter (all_words news_data))).

End Builtins.

(** A splitter on single spaces, and no lowering: enough for titles in
    lower case with single spaces. *)
Fixpoint split_on_space (current text : string) : list string :=
  match text with
  | EmptyString => if String.eqb current "" then [] else [current]
  | String b rest =>
      if Ascii.eqb b " "%char
      then (if String.eqb current "" then [] else [current]) ++ split_on_space "" rest
      else split_on_space (current ++ String b EmptyString) rest
  end.

Definition titled (text : string) : News :=
  {| title := Some text; published_at := None; sentiment := None; category := None |}.

Definition titled_news : list News :=
  [titled "tesla earnings beat the forecast";
   titled "tesla recall widens";
   titled "earnings season opens with tesla"].

End KeyTopics.

(* ================================================================== *)
(** * emotional_analysis_agent.py: the task of the agent *)
(* ================================================================== *)

Module EmotionalTask.
Import EmotionalAnalysisAgent NewsCategories KeyTopics.

Section ExecuteTask.

(** Results of the methods of the agent whose bodies are in
    emotional_analysis_agent.py only, and those methods; [lower] and
    [split] are [str.lower] and [str.split]. *)
Variables NewsSentiment MarketSentiment FearGreed Signal StockInfo : Type.
Variable analyze_news_sentiment : list News -> NewsSentiment.
Variable analyze_market_sentiment : StockInfo -> MarketSentiment.
Variable calculate_fear_greed_index : NewsSentiment -> MarketSentiment -> FearGreed.
Variable generate_emotional_signal : FearGreed -> Signal.
Variable symbol_of : StockInfo -> string.
Variable lower : string -> string.
Variable split : string -> list string.

(** The dict [execute_task] returns. *)
Record EmotionalReport : Type := {
  report_symbol : string;
  news_sentiment : NewsSentiment;
  market_sentiment : MarketSentiment;
  fear_greed_index : FearGreed;
  emotional_signal : Signal;
  sentiment_trend : gmap string pyval;
  categorized_sentiment : gmap string (gmap string pyval);
  key_topics : list string;
  analysis_timestamp : string
}.

(** [execute_task]; [news_data] is [task_data.get("news_data", [])],
    [stock_data] is [task_data.get("stock_data", {})] and [utcnow] the
    clock reading. *)
Definition execute_task (news_data : option (list News)) (stock_data : StockInfo)
    (utcnow : string) : outcome EmotionalReport :=
  let news_data := default [] news_data in
  let sentiment_analysis := analyze_news_sentiment news_data in
  let market := analyze_market_sentiment stock_data in
  let index := calculate_fear_greed_index sentiment_analysis market in
  let signal := generate_emotional_signal index in
  let trend := analyze_sentiment_trend news_data in
  match categorize_news_sentiment news_data with
  | KeyError key => KeyError key
  | Returned categorized =>
      let topics := extract_key_topics lower split news_data in
      Returned {| report_symbol := symbol_of stock_data;
                  news_sentiment := sentiment_analysis;
                  market_sentiment := market;
                  fear_greed_index := index;
                  emotional_signal := signal;
                  sentiment_trend := trend;
                  categorized_sentiment := categorized;
                  key_topics := topics;
                  analysis_timestamp := utcnow |}
  end.

End ExecuteTask.

(** An article labelled neither positive, negative nor neutral. *)
Definition mixed_news : list News :=
  [filed "positive" "earnings"; filed "mixed" "earnings"].

End EmotionalTask.

(* ================================================================== *)
(** * Alerts.tsx and alertService.ts: the requests about alerts *)
(* ================================================================== *)

Module AlertRequests.

Inductive Method : Type := GET | POST | PUT | DELETE.

Record Request : Type := { method : Method; url : string }.

(** [`/alerts/${alertId}`] followed by [suffix]; an alert id is an
    integer, written in decimal. *)
Definition alert_url (alertId : Z) (suffix : string) : string :=
  ("/alerts/" ++ pretty alertId ++ suffix)%string.

(** The requests of the alert page (Alerts.tsx). *)
Definition loadAlerts_request : Request :=
  {| method := GET; url := "/alerts" |}.
Definition handleAcknowledge_request (alertId : Z) : Request :=
  {| method := PUT; url := alert_url alertId "/acknowledge" |}.
Definition handleDelete_request (alertId : Z) : Request :=
  {| method := DELETE; url := alert_url alertId "" |}.
Definition handleAnalyze_request (alertId : Z) : Request :=
  {| method := POST; url := alert_url alertId "/analyze" |}.

(** The requests of the alert service (alertService.ts). *)
Definition getAlerts_request : Request :=
  {| method := GET; url := "/alerts" |}.
Definition getActiveAlerts_request : Request :=
  {| method := GET; url := "/alerts/active" |}.
Definition getAlertSummary_request : Request :=
  {| method := GET; url := "/alerts/summary" |}.
Definition acknowledgeAlert_request (alertId : Z) : Request :=
  {| method := POST; url := alert_url alertId "/acknowledge" |}.
Definition updateAlertThreshold_request (alertId : Z) : Request :=
  {| method := PUT; url := alert_url alertId "/threshold" |}.

End AlertRequests.

(* ================================================================== *)
(** * News lists used below *)
(* ================================================================== *)

Module NewsSamples.
Import EmotionalAnalysisAgent SentimentSpec.

(** Every article carries the label [label] (an absent label counts as
    ["neutral"], as in [news.get("sentiment", "neutral")]). *)
Definition all_labelled (label : string) (news_data : list News) : Prop :=
  Forall (fun news => default "neutral"%string (sentiment news) = label) news_data.

(** Three positive articles on three days. *)
Definition cheerful_news : list News :=
  [article "positive" "2025-10-03"; article "positive" "2025-10-01";
   article "positive" "2025-10-02"].

(** Two articles published at the same time, in both orders. *)
Definition same_day_up : list News :=
  [article "negative" "2025-10-01"; article "positive" "2025-10-01"].
Definition same_day_down : list News :=
  [article "positive" "2025-10-01"; article "negative" "2025-10-01"].

End NewsSamples.

(* ================================================================== *)
(** * Float arithmetic as an interface *)
(* ================================================================== *)

Module FloatArith.

(** The float operations the two agents use.  Nothing is assumed of
    them: what is proved for every [Arith] holds of Python's doubles,
    binary rounding included, as it holds of exact numbers. *)
Record Arith : Type := {
  num : Type;
  literal : Q -> num;            (* the float a decimal literal denotes *)
  of_int : Z -> num;             (* an [int] operand, converted *)
  fadd : num -> num -> num;      (* [x + y] *)
  fsub : num -> num -> num;      (* [x - y] *)
  fmul : num -> num -> num;      (* [x * y] *)
  fdiv : num -> num -> num;      (* [x / y] for a non-zero [y] *)
  fneg : num -> num;             (* [-x] *)
  is_zero : num -> bool;         (* [x == 0], which is also [not x] *)
  flt : num -> num -> bool;      (* [x < y] *)
  fround2 : num -> num           (* [round(x, 2)] *)
}.

(** [x ** 2] and [x ** 0.5]. *)
Record Powers (A : Arith) : Type := {
  fsquare : num A -> num A;
  froot : num A -> num A
}.
Arguments fsquare {A} _ _.
Arguments froot {A} _ _.

(** [abs(x)] and [f"{x:.2f}"]. *)
Record Printing (A : Arith) : Type := {
  fabs : num A -> num A;
  fformat_2f : num A -> string
}.
Arguments fabs {A} _ _.
Arguments fformat_2f {A} _ _.

(** Exact real arithmetic: the arithmetic of [RiskAnalysisAgent]. *)
Definition real_arith : Arith :=
  {| num := R;
     literal := Q2R;
     of_int := IZR;
     fadd := Rplus;
     fsub := Rminus;
     fmul := Rmult;
     fdiv := Rdiv;
     fneg := Ropp;
     is_zero := fun x => if Req_dec_T x 0 then true else false;
     flt := fun x y => if Rlt_dec x y then true else false;
     fround2 := PyReal.round2 |}.

Definition real_powers : Powers real_arith :=
  Build_Powers real_arith (fun x : R => (x ^ 2)%R) sqrt.

(** Exact rational arithmetic: the arithmetic of
    [EmotionalAnalysisAgent]. *)
Definition rational_arith : Arith :=
  {| num := Q;
     literal := fun q => q;
     of_int := inject_Z;
     fadd := Qplus;
     fsub := Qminus;
     fmul := Qmult;
     fdiv := Qdiv;
     fneg := Qopp;
     is_zero := fun x => Qeq_bool x 0;
     flt := fun x y => if Qlt_le_dec x y then true else false;
     fround2 := PyRat.round2 |}.

Definition rational_printing : Printing rational_arith :=
  Build_Printing rational_arith Qabs PyRat.format_2f.

End FloatArith.

(* ================================================================== *)
(** * risk_analysis_agent.py: the Sharpe ratio over any float arithmetic *)
(* ================================================================== *)

Module RiskAnalysisFloat.
Import FloatArith.

Section Arithmetic.

Variable A : Arith.
Variable P : Powers A.

(** [x / y] for floats, which raises on a zero divisor. *)
Definition pydiv (x y : num A) : result (num A) :=
  if is_zero A y then Raise ZeroDivisionError else Ok (fdiv A x y).

(** [x / len(l)]: the divisor is an [int], zero for the empty list only. *)
Definition pydiv_len (x : num A) (n : nat) : result (num A) :=
  if Nat.eqb n 0 then Raise ZeroDivisionError
  else Ok (fdiv A x (of_int A (Z.of_nat n))).

(** [sum(l)], which starts from the [int] 0. *)
Definition pysum (l : list (num A)) : num A :=
  fold_left (fadd A) l (of_int A 0).

(** [[float(day.get("close", 0)) for day in historical_data if day.get("close")]],
    a day being given by its [day.get("close")]: an absent or zero close
    is falsy and dropped. *)
Fixpoint closing_prices (hist : list (option (num A))) : list (num A) :=
  match hist with
  | [] => []
  | day :: rest =>
      match day with
      | Some c => if is_zero A c then closing_prices rest
                  else c :: closing_prices rest
      | None => closing_prices rest
      end
  end.

(** [[(prices[i] - prices[i-1]) / prices[i-1] for i in range(1, len(prices))]]. *)
Fixpoint daily_returns (prices : list (num A)) : result (list (num A)) :=
  match prices with
  | p :: ((q :: _) as rest) =>
      r ← pydiv (fsub A q p) p;
      rs ← daily_returns rest;
      mret (r :: rs)
  | _ => mret []
  end.

(** [sum(returns) / len(returns)]. *)
Definition avg_return (returns : list (num A)) : result (num A) :=
  pydiv_len (pysum returns) (length returns).

(** [(sum((r - avg_return) ** 2 for r in returns) / len(returns)) ** 0.5]. *)
Definition std_return (returns : list (num A)) (avg : num A) : result (num A) :=
  variance ← pydiv_len (pysum (map (fun r => fsquare P (fsub A r avg)) returns))
                       (length returns);
  mret (froot P variance).

(** [std_return * (252 ** 0.5)]. *)
Definition annual_std (std : num A) : num A :=
  fmul A std (froot P (of_int A 252)).

(** The [annual_std] the computation reaches for a list of prices: the
    float its test [annual_std == 0] looks at. *)
Definition annual_std_of_prices (prices : list (num A)) : result (num A) :=
  returns ← daily_returns prices;
  avg ← avg_return returns;
  std ← std_return returns avg;
  mret (annual_std std).

(** [calculate_sharpe_ratio]; [historical_data] is
    [stock_data.get("historical_data")], [None] when the key is absent. *)
Definition calculate_sharpe_ratio (historical_data : option (list (option (num A))))
    (risk_free_rate : num A) : result (num A) :=
  let hist := default [] historical_data in
  if Nat.ltb (length hist) 10 then mret (literal A 0)
  else
    let prices := closing_prices hist in
    if Nat.ltb (length prices) 2 then mret (literal A 0)
    else
      returns ← daily_returns prices;
      avg ← avg_return returns;
      std ← std_return returns avg;
      let annual_return := fmul A avg (of_int A 252) in
      let annual := annual_std std in
      if is_zero A annual then mret (literal A 0)
      else
        sharpe ← pydiv (fsub A annual_return risk_free_rate) annual;
        mret (fround2 A sharpe).

End Arithmetic.

(** The closes of a [stock_data] of [RiskAnalysisAgent], day by day. *)
Definition closes_of (stock_data : RiskAnalysisAgent.StockData)
    : option (list (option R)) :=
  option_map (map RiskAnalysisAgent.close)
             (RiskAnalysisAgent.historical_data stock_data).

End RiskAnalysisFloat.

(* ================================================================== *)
(** * emotional_analysis_agent.py: the trend over any float arithmetic *)
(* ================================================================== *)

Module EmotionalAnalysisFloat.
Import FloatArith.
Import EmotionalAnalysisAgent(News, title, published_at, sentiment, category,
  sorted, first_half, second_half, Trend, IMPROVING, DETERIORATING, STABLE,
  trend_name).

Section Arithmetic.

Variable A : Arith.
Variable Pr : Printing A.

(** A value stored in the returned dict. *)
Inductive value : Type :=
  | VStr (s : string)
  | VInt (z : Z)
  | VFloat (x : num A).

(** [sum(l)], which starts from the [int] 0. *)
Definition pysum (l : list (num A)) : num A :=
  fold_left (fadd A) l (of_int A 0).

(** The branch of [avg_sentiment] that scores one article. *)
Definition article_score (news : News) : num A :=
  let label := default "neutral"%string (sentiment news) in
  if String.eqb label "positive" then literal A (8 # 10)
  else if String.eqb label "negative" then literal A (2 # 10)
  else literal A (5 # 10).

(** [sum(scores) / len(scores) if scores else 0.5]. *)
Definition avg_sentiment (news_list : list News) : num A :=
  let scores := map article_score news_list in
  match scores with
  | [] => literal A (5 # 10)
  | _ :: _ => fdiv A (pysum scores) (of_int A (Z.of_nat (length scores)))
  end.

(** The [if change > 0.1 ... elif change < -0.1 ... else] cascade. *)
Definition classify (change : num A) : Trend :=
  if flt A (literal A (1 # 10)) change then IMPROVING
  else if flt A change (fneg A (literal A (1 # 10))) then DETERIORATING
  else STABLE.

(** [change = second_avg - first_avg]. *)
Definition sentiment_change (news_data : list News) : num A :=
  fsub A (avg_sentiment (second_half news_data))
         (avg_sentiment (first_half news_data)).

(** The f-string of the ["description"] entry. *)
Definition description (change : num A) : string :=
  ("情绪 " ++
   (if flt A (of_int A 0) change then "改善"
    else if flt A change (of_int A 0) then "恶化"
    else "稳定") ++
   "，变化 " ++ fformat_2f Pr (fabs Pr change))%string.

Definition analyze_sentiment_trend (news_data : list News) : gmap string value :=
  match news_data with
  | [] => <["change"%string := VInt 0]> (<["trend"%string := VStr "STABLE"]> ∅)
  | _ :: _ =>
      let first_avg := avg_sentiment (first_half news_data) in
      let second_avg := avg_sentiment (second_half news_data) in
      let change := fsub A second_avg first_avg in
      let trend := classify change in
      <["description"%string := VStr (description change)]>
        (<["second_half_sentiment"%string := VFloat (fround2 A second_avg)]>
          (<["first_half_sentiment"%string := VFloat (fround2 A first_avg)]>
            (<["change"%string := VFloat (fround2 A change)]>
              (<["trend"%string := VStr (trend_name trend)]> ∅))))
  end.

End Arithmetic.

Arguments VStr {A} s.
Arguments VInt {A} z.
Arguments VFloat {A} x.

End EmotionalAnalysisFloat.

(* ================================================================== *)
(** * The Sentiment Scoring Engine on a news list *)
(* ================================================================== *)

Module SentimentEngine.
Import EmotionalAnalysisAgent(News, title, published_at, sentiment, category).
Local Open Scope Q_scope.

(** Modelled from the spec: the label of a sentiment result. *)
Inductive Label : Type := POSITIVE | NEGATIVE | NEUTRAL.

(** Modelled from the spec: the result of the engine on a news list, as
    in the scenario [{score:0.5, label:NEUTRAL, insufficientData:true}]. *)
Record NewsSentiment : Type := {
  score : Q;
  label : Label;
  insufficientData : bool
}.

Section Engine.

(** Modelled from the spec: the external classifier [classifySentiment],
    consumed when an article carries no label. *)
Variable classifySentiment : News -> Q.

(** Modelled from the spec: the label of a measured score, on which the
    spec fixes no thresholds. *)
Variable label_of_score : Q -> Label.

(** Modelled from the spec: per-article numeric mapping,
    positive -> 0.8, negative -> 0.2, neutral -> 0.5, or the score the
    classifier supplies. *)
Definition per_article_score (news : News) : Q :=
  match sentiment news with
  | Some l =>
      if String.eqb l "positive" then 8 # 10
      else if String.eqb l "negative" then 2 # 10
      else 5 # 10
  | None => classifySentiment news
  end.

(** Modelled from the spec: [analyze_news_sentiment], which
    [execute_task] calls and whose body is not in the sources.  The
    aggregate is the mean of the per-article scores; an empty news list
    gives the neutral defaults with the insufficient-data flag. *)
Definition analyze_news_sentiment (news_data : list News) : result NewsSentiment :=
  match news_data with
  | [] => Ok {| score := 5 # 10; label := NEUTRAL; insufficientData := true |}
  | _ :: _ =>
      let measured := SentimentSpec.mean (map per_article_score news_data) in
      Ok {| score := measured;
            label := label_of_score measured;
            insufficientData := false |}
  end.

End Engine.

End SentimentEngine.

(* ================================================================== *)
(** * Facts about the real-number helpers *)
(* ================================================================== *)

Module PyRealFacts.
Import PyReal.
Local Open Scope R_scope.

Lemma round_half_even_near (x : R) :
  - (1 / 2) <= IZR (round_half_even x) - x <= 1 / 2.
Proof.
  unfold round_half_even.
  pose proof (Zfloor_bound x) as [Hlo Hhi].
  destruct (Rlt_dec (x - IZR (Zfloor x)) (1 / 2)) as [Hlt | Hnlt].
  - lra.
  - destruct (Rgt_dec (x - IZR (Zfloor x)) (1 / 2)) as [Hgt | Hngt].
    + rewrite plus_IZR. lra.
    + destruct (Z.even (Zfloor x)); [| rewrite plus_IZR]; lra.
Qed.

Lemma round_half_even_ge (x : R) (a : Z) :
  IZR a <= x -> (a <= round_half_even x)%Z.
Proof.
  intros Hax.
  pose proof (round_half_even_near x) as [Hlo _].
  assert (Hlt : IZR (a - 1) < IZR (round_half_even x)).
  { rewrite minus_IZR. lra. }
  apply lt_IZR in Hlt. lia.
Qed.

Lemma round_half_even_le (x : R) (b : Z) :
  x <= IZR b -> (round_half_even x <= b)%Z.
Proof.
  intros Hxb.
  pose proof (round_half_even_near x) as [_ Hhi].
  assert (Hlt : IZR (round_half_even x) < IZR (b + 1)).
  { rewrite plus_IZR. lra. }
  apply lt_IZR in Hlt. lia.
Qed.

Lemma round_half_even_IZR (z : Z) : round_half_even (IZR z) = z.
Proof.
  apply Z.le_antisymm.
  - apply round_half_even_le. lra.
  - apply round_half_even_ge. lra.
Qed.

Lemma round2_near (x : R) : Rabs (round2 x - x) <= 1 / 200.
Proof.
  unfold round2.
  pose proof (round_half_even_near (x * 100)) as [Hlo Hhi].
  apply Rabs_le. lra.
Qed.

Lemma round2_zero : round2 0 = 0.
Proof.
  unfold round2. replace (0 * 100) with (IZR 0) by (simpl; lra).
  rewrite round_half_even_IZR. simpl. lra.
Qed.

Lemma round2_between (x : R) (a b : Z) :
  IZR a <= x <= IZR b -> IZR a <= round2 x <= IZR b.
Proof.
  intros [Hax Hxb]. unfold round2.
  assert (Hlo : (a * 100 <= round_half_even (x * 100))%Z).
  { apply round_half_even_ge. rewrite mult_IZR. lra. }
  assert (Hhi : (round_half_even (x * 100) <= b * 100)%Z).
  { apply round_half_even_le. rewrite mult_IZR. lra. }
  apply IZR_le in Hlo, Hhi. rewrite mult_IZR in Hlo, Hhi. lra.
Qed.

Lemma pydiv_ok (x y : R) : y <> 0 -> pydiv x y = Ok (x / y).
Proof.
  intros Hy. unfold pydiv. destruct (Req_dec_T y 0); [contradiction | reflexivity].
Qed.

Lemma fold_left_Rmin_In (xs : list R) (x : R) :
  In (fold_left Rmin xs x) (x :: xs).
Proof.
  revert x. induction xs as [| y ys IH]; intros x; simpl.
  - left. reflexivity.
  - destruct (IH (Rmin x y)) as [Heq | Hin].
    + rewrite <- Heq. unfold Rmin. destruct (Rle_dec x y); auto.
    + right. right. exact Hin.
Qed.

Lemma pymin_In (l : list R) :
  l <> [] -> exists m, pymin l = Ok m /\ In m l.
Proof.
  destruct l as [| x xs]; [congruence |]. intros _.
  exists (fold_left Rmin xs x). split; [reflexivity | apply fold_left_Rmin_In].
Qed.

Lemma pysum_from (l : list R) (a : R) :
  fold_left Rplus l a = a + fold_left Rplus l 0.
Proof.
  revert a. induction l as [| x xs IH]; intros a; simpl.
  - lra.
  - rewrite (IH (a + x)), (IH (0 + x)). lra.
Qed.

Lemma pysum_cons (x : R) (l : list R) : pysum (x :: l) = x + pysum l.
Proof. unfold pysum. simpl. rewrite pysum_from. lra. Qed.

End PyRealFacts.

(* ================================================================== *)
(** * Facts about the risk agent *)
(* ================================================================== *)

Module RiskFacts.
Import PyReal PyRealFacts RiskAnalysisAgent.
Local Open Scope R_scope.

Lemma closing_prices_nonzero (hist : list Day) :
  Forall (fun p => p <> 0) (closing_prices hist).
Proof.
  induction hist as [| day rest IH]; simpl; [constructor |].
  destruct (close day) as [c |]; [| exact IH].
  destruct (Req_dec_T c 0); [exact IH | constructor; assumption].
Qed.

Lemma positive_nonzero (prices : list R) :
  Forall (fun p => 0 < p) prices -> Forall (fun p => p <> 0) prices.
Proof. intros H. eapply Forall_impl; [exact H |]. intros p Hp. simpl in Hp. lra. Qed.

(** The returns of a series without a zero: one per consecutive pair,
    above -1 when the prices are positive, above 0 when they also rise. *)
Lemma daily_returns_spec (prices : list R) :
  Forall (fun p => p <> 0) prices ->
  exists rs, daily_returns prices = Ok rs
    /\ length rs = pred (length prices)
    /\ (Forall (fun p => 0 < p) prices -> Forall (fun r => -1 < r) rs)
    /\ (Forall (fun p => 0 < p) prices -> Sorted Rlt prices ->
        Forall (fun r => 0 < r) rs).
Proof.
  induction prices as [| p tl IH]; intros Hnz.
  - exists []. repeat split; constructor.
  - destruct tl as [| q tl'].
    + exists []. repeat split; constructor.
    + inversion Hnz as [| ? ? Hp Htl]; subst.
      destruct (IH Htl) as (rs & Hrs & Hlen & Hpos & Hinc).
      exists ((q - p) / p :: rs).
      change (daily_returns (p :: q :: tl'))
        with (r ← pydiv (q - p) p; rs ← daily_returns (q :: tl'); mret (r :: rs)).
      rewrite (pydiv_ok _ _ Hp), Hrs. simpl in Hlen |- *.
      split; [reflexivity |]. split; [congruence |]. split.
      * intros Hall. inversion Hall as [| ? ? Hp0 Hall']; subst.
        constructor; [| exact (Hpos Hall')].
        inversion Hall' as [| ? ? Hq0 _]; subst.
        assert (0 < q / p) by (apply Rdiv_lt_0_compat; assumption).
        replace ((q - p) / p) with (q / p - 1) by (field; lra). lra.
      * intros Hall Hsorted. inversion Hall as [| ? ? Hp0 Hall']; subst.
        inversion Hsorted as [| ? ? Hsorted' Hhd]; subst.
        constructor; [| exact (Hinc Hall' Hsorted')].
        inversion Hhd; subst. apply Rdiv_lt_0_compat; lra.
Qed.

Lemma cumulative_from_positive (returns : list R) (last : R) :
  0 < last -> Forall (fun r => -1 < r) returns ->
  Forall (fun c => 0 < c) (cumulative_from last returns).
Proof.
  revert last. induction returns as [| r rest IH]; intros last Hlast Hall; simpl.
  - constructor.
  - inversion Hall as [| ? ? Hr Hrest]; subst.
    assert (0 < last * (1 + r)) by (apply Rmult_lt_0_compat; lra).
    constructor; [assumption | apply IH; assumption].
Qed.

Lemma cumulative_from_length (returns : list R) (last : R) :
  length (cumulative_from last returns) = length returns.
Proof.
  revert last. induction returns as [| r rest IH]; intros last; simpl; congruence.
Qed.

(** Each running maximum is at least the value beside it, and at least 1. *)
Lemma running_from_spec (vals : list R) (m : R) :
  1 <= m ->
  Forall2 (fun c r => c <= r /\ 1 <= r) vals (running_from m vals).
Proof.
  revert m. induction vals as [| v rest IH]; intros m Hm; simpl.
  - constructor.
  - pose proof (Rmax_l m v). pose proof (Rmax_r m v).
    constructor; [split; lra | apply IH; lra].
Qed.

Lemma running_max_spec (returns : list R) :
  Forall2 (fun c r => c <= r /\ 1 <= r)
    (cumulative_returns returns) (running_max (cumulative_returns returns)).
Proof.
  unfold cumulative_returns, running_max.
  constructor; [split; lra | apply running_from_spec; lra].
Qed.

(** On a curve that only rises the running maximum is the curve itself. *)
Lemma running_from_rising (returns : list R) (last : R) :
  0 < last -> Forall (fun r => 0 < r) returns ->
  running_from last (cumulative_from last returns) = cumulative_from last returns.
Proof.
  revert last. induction returns as [| r rest IH]; intros last Hlast Hall; simpl.
  - reflexivity.
  - inversion Hall as [| ? ? Hr Hrest]; subst.
    assert (Hv : last <= last * (1 + r)) by nra.
    rewrite (Rmax_right _ _ Hv). f_equal. apply IH; [nra | assumption].
Qed.

Lemma drawdowns_spec (cumulative running : list R) :
  Forall2 (fun c r => c <= r /\ 1 <= r) cumulative running ->
  exists ds, drawdowns cumulative running = Ok ds
    /\ length ds = length cumulative
    /\ Forall (fun d => d <= 0) ds
    /\ (Forall (fun c => 0 < c) cumulative -> Forall (fun d => -1 < d) ds)
    /\ (cumulative = running -> Forall (fun d => d = 0) ds).
Proof.
  induction 1 as [| c m cs ms [Hcm Hm] Hrest IH].
  - exists []. repeat split; constructor.
  - destruct IH as (ds & Hds & Hlen & Hle & Hgt & Hzero).
    exists ((c - m) / m :: ds). simpl.
    rewrite pydiv_ok by lra. simpl. rewrite Hds. simpl.
    split; [reflexivity |]. split; [congruence |].
    assert (Hinv : 0 < / m) by (apply Rinv_0_lt_compat; lra).
    split; [| split].
    + constructor; [| exact Hle]. unfold Rdiv. nra.
    + intros Hall. inversion Hall as [| ? ? Hc Hcs]; subst.
      constructor; [| exact (Hgt Hcs)].
      assert (0 < c / m) by (apply Rdiv_lt_0_compat; lra).
      replace ((c - m) / m) with (c / m - 1) by (field; lra). lra.
    + intros Heq. inversion Heq; subst.
      constructor; [| apply Hzero; reflexivity].
      unfold Rdiv. rewrite Rminus_diag. lra.
Qed.

(** The part of [calculate_max_drawdown] past its two guards: it returns
    the rounded percentage of a lowest drawdown that is never above 0,
    stays above -1 on positive prices, and is 0 on rising positive prices. *)
Lemma drawdown_of_prices (prices : list R) :
  Forall (fun p => p <> 0) prices ->
  exists lowest,
    (returns ← daily_returns prices;
     dds ← drawdowns (cumulative_returns returns)
             (running_max (cumulative_returns returns));
     lowest ← pymin dds;
     mret (round2 (lowest * 100))) = Ok (round2 (lowest * 100))
    /\ lowest <= 0
    /\ (Forall (fun p => 0 < p) prices -> -1 < lowest)
    /\ (Forall (fun p => 0 < p) prices -> Sorted Rlt prices -> lowest = 0).
Proof.
  intros Hnz.
  destruct (daily_returns_spec prices Hnz) as (rs & Hrs & _ & Hpos & Hinc).
  destruct (drawdowns_spec _ _ (running_max_spec rs))
    as (ds & Hds & Hlen & Hle & Hgt & Hzero).
  assert (Hne : ds <> []).
  { intros ->. simpl in Hlen. discriminate. }
  destruct (pymin_In ds Hne) as (lowest & Hmin & Hin).
  exists lowest. rewrite Hrs. cbn [mbind result_bind].
  rewrite Hds. cbn [mbind result_bind]. rewrite Hmin.
  split; [reflexivity |]. split; [| split].
  - rewrite Forall_forall in Hle. apply Hle. apply list_elem_of_In. exact Hin.
  - intros Hall.
    assert (Hcum : Forall (fun c => 0 < c) (cumulative_returns rs)).
    { constructor; [lra |]. apply cumulative_from_positive; [lra | auto]. }
    specialize (Hgt Hcum). rewrite Forall_forall in Hgt.
    apply Hgt. apply list_elem_of_In. exact Hin.
  - intros Hall Hsorted.
    assert (Hsame : cumulative_returns rs = running_max (cumulative_returns rs)).
    { unfold cumulative_returns, running_max.
      rewrite running_from_rising; [reflexivity | lra | auto]. }
    specialize (Hzero Hsame). rewrite Forall_forall in Hzero.
    apply Hzero. apply list_elem_of_In. exact Hin.
Qed.

(** [calculate_max_drawdown] raises on no input. *)
Lemma calculate_max_drawdown_total (stock_data : StockData) :
  returns_value (calculate_max_drawdown stock_data).
Proof.
  unfold calculate_max_drawdown.
  destruct (Nat.ltb _ 10); [eexists; reflexivity |].
  destruct (Nat.ltb _ 2); [eexists; reflexivity |].
  destruct (drawdown_of_prices _ (closing_prices_nonzero (history stock_data)))
    as (lowest & Heq & _).
  eexists. exact Heq.
Qed.

End RiskFacts.

(* ================================================================== *)
(** * Facts about the Sharpe ratio *)
(* ================================================================== *)

Module SharpeFacts.
Import PyReal PyRealFacts RiskAnalysisAgent RiskFacts Samples.
Local Open Scope R_scope.

Lemma closing_prices_of_closes (closes : list R) :
  Forall (fun c => c <> 0) closes ->
  closing_prices (map day_of_close closes) = closes.
Proof.
  induction 1 as [| c rest Hc _ IH]; simpl; [reflexivity |].
  destruct (Req_dec_T c 0); [contradiction | f_equal; exact IH].
Qed.

Lemma history_of_closes (closes : list R) :
  history (stock_of_closes closes) = map day_of_close closes.
Proof. reflexivity. Qed.

(** The mean and the deviation of a non-empty list of returns are defined. *)
Lemma avg_return_ok (returns : list R) :
  returns <> [] ->
  avg_return returns = Ok (pysum returns / INR (length returns)).
Proof.
  intros Hne. unfold avg_return. apply pydiv_ok.
  apply not_0_INR. destruct returns; [congruence | discriminate].
Qed.

Lemma std_return_ok (returns : list R) (avg : R) :
  returns <> [] ->
  std_return returns avg =
    Ok (sqrt (pysum (map (fun r => (r - avg) ^ 2) returns) / INR (length returns))).
Proof.
  intros Hne. unfold std_return. rewrite pydiv_ok; [reflexivity |].
  apply not_0_INR. destruct returns; [congruence | discriminate].
Qed.

(** What [calculate_sharpe_ratio] computes past its two guards. *)
Lemma sharpe_past_guards (stock_data : StockData) (risk_free_rate : R)
    (returns : list R) :
  Nat.ltb (length (history stock_data)) 10 = false ->
  Nat.ltb (length (closing_prices (history stock_data))) 2 = false ->
  daily_returns (closing_prices (history stock_data)) = Ok returns ->
  returns <> [] ->
  let avg := pysum returns / INR (length returns) in
  let std := sqrt (pysum (map (fun r => (r - avg) ^ 2) returns) / INR (length returns)) in
  calculate_sharpe_ratio stock_data risk_free_rate =
    if Req_dec_T (annual_std std) 0 then Ok 0
    else Ok (round2 ((avg * 252 - risk_free_rate) / annual_std std)).
Proof.
  intros Hlong Htwo Hrs Hne avg std. unfold calculate_sharpe_ratio.
  rewrite Hlong, Htwo, Hrs. cbn [mbind result_bind].
  rewrite (avg_return_ok _ Hne). cbn [mbind result_bind].
  rewrite (std_return_ok _ _ Hne). cbn [mbind result_bind].
  fold avg. fold std.
  destruct (Req_dec_T (annual_std std) 0) as [Hz | Hnz]; [reflexivity |].
  rewrite (pydiv_ok _ _ Hnz). reflexivity.
Qed.

(** [calculate_sharpe_ratio] raises on no input. *)
Lemma calculate_sharpe_ratio_total (stock_data : StockData) (risk_free_rate : R) :
  returns_value (calculate_sharpe_ratio stock_data risk_free_rate).
Proof.
  destruct (Nat.ltb (length (history stock_data)) 10) eqn:Hlong.
  { unfold calculate_sharpe_ratio. rewrite Hlong. eexists; reflexivity. }
  destruct (Nat.ltb (length (closing_prices (history stock_data))) 2) eqn:Htwo.
  { unfold calculate_sharpe_ratio. rewrite Hlong, Htwo. eexists; reflexivity. }
  destruct (daily_returns_spec _ (closing_prices_nonzero (history stock_data)))
    as (rs & Hrs & Hlen & _).
  assert (Hne : rs <> []).
  { apply Nat.ltb_ge in Htwo. intros ->. simpl in Hlen. lia. }
  rewrite (sharpe_past_guards _ _ rs Hlong Htwo Hrs Hne).
  destruct (Req_dec_T _ 0); eexists; reflexivity.
Qed.

(** When the annualized deviation the computation reaches is 0, the
    result is 0. *)
Lemma sharpe_zero_volatility (stock_data : StockData) (risk_free_rate : R) :
  annual_std_of_prices (closing_prices (history stock_data)) = Ok 0 ->
  calculate_sharpe_ratio stock_data risk_free_rate = Ok 0.
Proof.
  intros Hzero. unfold calculate_sharpe_ratio.
  destruct (Nat.ltb _ 10); [reflexivity |].
  destruct (Nat.ltb _ 2); [reflexivity |].
  unfold annual_std_of_prices in Hzero.
  destruct (daily_returns _) as [rs | e]; cbn [mbind result_bind] in *; [| discriminate].
  destruct (avg_return rs) as [avg | e]; cbn [mbind result_bind] in *; [| discriminate].
  destruct (std_return rs avg) as [std | e]; cbn [mbind result_bind] in *; [| discriminate].
  injection Hzero as Hzero.
  destruct (Req_dec_T (annual_std std) 0); [reflexivity | contradiction].
Qed.

End SharpeFacts.

(* ================================================================== *)
(** * Maximum drawdown *)
(* ================================================================== *)

Module DrawdownClaims.
Import PyReal PyRealFacts RiskAnalysisAgent RiskFacts SharpeFacts Samples.
Local Open Scope R_scope.

(** C3.  For every stock data whose kept closing prices are positive,
    [calculate_max_drawdown] returns a percentage between -100 and 0, and
    when those prices rise strictly from day to day it returns exactly 0. *)
Theorem max_drawdown_range (stock_data : StockData) :
  Forall (fun p => 0 < p) (closing_prices (history stock_data)) ->
  (exists v, calculate_max_drawdown stock_data = Ok v /\ -100 <= v <= 0)
  /\ (Sorted Rlt (closing_prices (history stock_data)) ->
      calculate_max_drawdown stock_data = Ok 0).
Proof.
  intros Hpos. unfold calculate_max_drawdown.
  destruct (Nat.ltb _ 10).
  { split; [exists 0; split; [reflexivity | lra] | reflexivity]. }
  destruct (Nat.ltb _ 2).
  { split; [exists 0; split; [reflexivity | lra] | reflexivity]. }
  destruct (drawdown_of_prices _ (closing_prices_nonzero (history stock_data)))
    as (lowest & Heq & Hle & Hgt & Hzero).
  rewrite Heq. split.
  - exists (round2 (lowest * 100)). split; [reflexivity |].
    specialize (Hgt Hpos).
    apply (round2_between (lowest * 100) (-100) 0). lra.
  - intros Hsorted. rewrite (Hzero Hpos Hsorted).
    replace (0 * 100) with 0 by lra. rewrite round2_zero. reflexivity.
Qed.

Lemma max_drawdown_range_witness :
  Forall (fun p => 0 < p) (closing_prices (history (stock_of_closes rising_closes)))
  /\ Sorted Rlt (closing_prices (history (stock_of_closes rising_closes)))
  /\ calculate_max_drawdown (stock_of_closes rising_closes) = Ok 0.
Proof.
  assert (Hclosing :
    closing_prices (history (stock_of_closes rising_closes)) = rising_closes).
  { rewrite history_of_closes. apply closing_prices_of_closes.
    unfold rising_closes. repeat constructor; lra. }
  assert (Hpos : Forall (fun p => 0 < p)
                   (closing_prices (history (stock_of_closes rising_closes)))).
  { rewrite Hclosing. unfold rising_closes. repeat constructor; lra. }
  assert (Hsorted : Sorted Rlt
                      (closing_prices (history (stock_of_closes rising_closes)))).
  { rewrite Hclosing. unfold rising_closes. repeat constructor; lra. }
  split; [exact Hpos |]. split; [exact Hsorted |].
  exact (proj2 (max_drawdown_range (stock_of_closes rising_closes) Hpos) Hsorted).
Defined.

End DrawdownClaims.

(* ================================================================== *)
(** * Evaluating the risk agent on sample inputs *)
(* ================================================================== *)

Module RiskEvaluation.
Import PyReal PyRealFacts RiskAnalysisAgent RiskFacts SharpeFacts Samples.
Local Open Scope R_scope.

Ltac eval_bind := cbn [mbind result_bind mret result_ret].

(** Two lists of numbers are equal entry by entry. *)
Ltac each_entry :=
  try apply (f_equal (@Ok (list R)));
  repeat (apply (f_equal2 (@cons R)); [lra |]);
  reflexivity.

Ltac order_max :=
  repeat match goal with
  | |- context [Rmax ?a ?b] =>
      first [rewrite (Rmax_left a b) by lra | rewrite (Rmax_right a b) by lra]
  end.

Ltac order_min :=
  repeat match goal with
  | |- context [Rmin ?a ?b] =>
      first [rewrite (Rmin_right a b) by lra | rewrite (Rmin_left a b) by lra]
  end.

Lemma round2_hundredths (x : R) (z : Z) :
  x * 100 = IZR z -> round2 x = IZR z / 100.
Proof. intros H. unfold round2. rewrite H, round_half_even_IZR. reflexivity. Qed.

(** A number in the lower half of [n, n + 1) rounds to [n]. *)
Lemma round_half_even_lower_half (x : R) (n : Z) :
  IZR n <= x < IZR n + 1 / 2 -> round_half_even x = n.
Proof.
  intros [Hlo Hhi].
  pose proof (round_half_even_near x) as [_ Hnear].
  apply Z.le_antisymm; [| apply round_half_even_ge; exact Hlo].
  assert (Hlt : IZR (round_half_even x) < IZR (n + 1)).
  { rewrite plus_IZR. lra. }
  apply lt_IZR in Hlt. lia.
Qed.

Lemma sqrt_252_bounds : 158745 / 10000 < sqrt 252 < 158746 / 10000.
Proof.
  split.
  - rewrite <- (sqrt_square (158745 / 10000)) by lra.
    apply sqrt_lt_1_alt. lra.
  - rewrite <- (sqrt_square (158746 / 10000)) by lra.
    apply sqrt_lt_1_alt. lra.
Qed.

Lemma annualized_volatility_of_one :
  calculate_annualized_volatility 1 default_trading_days = 1587 / 100.
Proof.
  unfold calculate_annualized_volatility, default_trading_days, round2.
  pose proof sqrt_252_bounds as [Hlo Hhi].
  rewrite (round_half_even_lower_half _ 1587); [reflexivity | lra].
Qed.

(** Past its guards, on closes none of which is zero. *)
Lemma drawdown_past_guards (closes : list R) :
  Forall (fun c => c <> 0) closes ->
  Nat.ltb (length closes) 10 = false ->
  calculate_max_drawdown (stock_of_closes closes) =
    (returns ← daily_returns closes;
     dds ← drawdowns (cumulative_returns returns)
             (running_max (cumulative_returns returns));
     lowest ← pymin dds;
     mret (round2 (lowest * 100))).
Proof.
  intros Hnz Hlong. unfold calculate_max_drawdown.
  rewrite history_of_closes, (closing_prices_of_closes _ Hnz), length_map, Hlong.
  destruct (Nat.ltb (length closes) 2) eqn:Htwo; [| reflexivity].
  apply Nat.ltb_lt in Htwo. apply Nat.ltb_ge in Hlong. lia.
Qed.

(** A dip from 100 to 80 is a maximum drawdown of 20 percent. *)
Example dipping_closes_drawdown :
  calculate_max_drawdown (stock_of_closes dipping_closes) = Ok (-20).
Proof.
  rewrite drawdown_past_guards
    by (unfold dipping_closes; first [reflexivity | repeat constructor; lra]).
  assert (Hrs : daily_returns dipping_closes
                = Ok [-1 / 5; 1 / 8; 1 / 9; 1 / 10; 1 / 11; 1 / 12; 1 / 13;
                      1 / 14; 1 / 15]).
  { unfold dipping_closes. cbn [daily_returns]. rewrite !pydiv_ok by lra.
    eval_bind. each_entry. }
  rewrite Hrs. eval_bind.
  assert (Hcum : cumulative_returns
                   [-1 / 5; 1 / 8; 1 / 9; 1 / 10; 1 / 11; 1 / 12; 1 / 13;
                    1 / 14; 1 / 15]
                 = [1; 8 / 10; 9 / 10; 1; 11 / 10; 12 / 10; 13 / 10; 14 / 10;
                    15 / 10; 16 / 10]).
  { unfold cumulative_returns. cbn [cumulative_from]. each_entry. }
  rewrite Hcum.
  assert (Hrun : running_max
                   [1; 8 / 10; 9 / 10; 1; 11 / 10; 12 / 10; 13 / 10; 14 / 10;
                    15 / 10; 16 / 10]
                 = [1; 1; 1; 1; 11 / 10; 12 / 10; 13 / 10; 14 / 10;
                    15 / 10; 16 / 10]).
  { cbn [running_max running_from]. order_max. reflexivity. }
  rewrite Hrun. cbn [drawdowns]. rewrite !pydiv_ok by lra. eval_bind.
  cbn [pymin fold_left].
  replace ((1 - 1) / 1) with 0 by lra.
  replace ((8 / 10 - 1) / 1) with (-2 / 10) by lra.
  replace ((9 / 10 - 1) / 1) with (-1 / 10) by lra.
  replace ((11 / 10 - 11 / 10) / (11 / 10)) with 0 by lra.
  replace ((12 / 10 - 12 / 10) / (12 / 10)) with 0 by lra.
  replace ((13 / 10 - 13 / 10) / (13 / 10)) with 0 by lra.
  replace ((14 / 10 - 14 / 10) / (14 / 10)) with 0 by lra.
  replace ((15 / 10 - 15 / 10) / (15 / 10)) with 0 by lra.
  replace ((16 / 10 - 16 / 10) / (16 / 10)) with 0 by lra.
  order_min. eval_bind. f_equal.
  rewrite (round2_hundredths _ (-2000)); lra.
Qed.

(** A history with negative closes leaves the range: the curve of
    compounded returns goes below zero under a running maximum of 1. *)
Example negative_closes_drawdown :
  calculate_max_drawdown (stock_of_closes negative_closes) = Ok (-200).
Proof.
  rewrite drawdown_past_guards
    by (unfold negative_closes; first [reflexivity | repeat constructor; lra]).
  assert (Hrs : daily_returns negative_closes = Ok [-2; 0; 0; 0; 0; 0; 0; 0; 0]).
  { unfold negative_closes. cbn [daily_returns]. rewrite !pydiv_ok by lra.
    eval_bind. each_entry. }
  rewrite Hrs. eval_bind.
  assert (Hcum : cumulative_returns [-2; 0; 0; 0; 0; 0; 0; 0; 0]
                 = [1; -1; -1; -1; -1; -1; -1; -1; -1; -1]).
  { unfold cumulative_returns. cbn [cumulative_from]. each_entry. }
  rewrite Hcum.
  assert (Hrun : running_max [1; -1; -1; -1; -1; -1; -1; -1; -1; -1]
                 = [1; 1; 1; 1; 1; 1; 1; 1; 1; 1]).
  { cbn [running_max running_from]. rewrite !Rmax_left by lra. reflexivity. }
  rewrite Hrun. cbn [drawdowns]. rewrite !pydiv_ok by lra. eval_bind.
  cbn [pymin fold_left].
  replace ((1 - 1) / 1) with 0 by lra. replace ((-1 - 1) / 1) with (-2) by lra.
  order_min. eval_bind. f_equal.
  rewrite (round2_hundredths _ (-20000)); lra.
Qed.

Lemma annual_std_of_prices_ok (prices returns : list R) :
  daily_returns prices = Ok returns ->
  returns <> [] ->
  annual_std_of_prices prices =
    Ok (annual_std
          (sqrt (pysum (map (fun r => (r - pysum returns / INR (length returns)) ^ 2)
                          returns)
                 / INR (length returns)))).
Proof.
  intros Hrs Hne. unfold annual_std_of_prices. rewrite Hrs. eval_bind.
  rewrite (avg_return_ok _ Hne). eval_bind.
  rewrite (std_return_ok _ _ Hne). reflexivity.
Qed.

Lemma flat_returns :
  daily_returns flat_closes = Ok [0; 0; 0; 0; 0; 0; 0; 0; 0].
Proof.
  unfold flat_closes. cbn [daily_returns]. rewrite !pydiv_ok by lra.
  eval_bind. each_entry.
Qed.

Lemma stepped_returns :
  daily_returns stepped_closes = Ok [1 / 1260; 0; 0; 0; 0; 0; 0; 0; 0; 0].
Proof.
  unfold stepped_closes. cbn [daily_returns]. rewrite !pydiv_ok by lra.
  eval_bind. each_entry.
Qed.

Lemma flat_closing_prices :
  closing_prices (history (stock_of_closes flat_closes)) = flat_closes.
Proof.
  rewrite history_of_closes. apply closing_prices_of_closes.
  unfold flat_closes. repeat constructor; lra.
Qed.

Lemma stepped_closing_prices :
  closing_prices (history (stock_of_closes stepped_closes)) = stepped_closes.
Proof.
  rewrite history_of_closes. apply closing_prices_of_closes.
  unfold stepped_closes. repeat constructor; lra.
Qed.

(** Closes that never move have an annualized deviation of 0. *)
Lemma flat_annual_std :
  annual_std_of_prices (closing_prices (history (stock_of_closes flat_closes))) = Ok 0.
Proof.
  rewrite flat_closing_prices.
  rewrite (annual_std_of_prices_ok _ _ flat_returns) by discriminate.
  f_equal. unfold annual_std, pysum. cbn [map fold_left length INR pow].
  match goal with |- sqrt ?v * _ = 0 => replace v with 0 by lra end.
  rewrite sqrt_0. lra.
Qed.

(** The stepped closes do move: their annualized deviation is not 0. *)
Lemma stepped_annual_std :
  exists s, annual_std_of_prices
              (closing_prices (history (stock_of_closes stepped_closes))) = Ok s
            /\ s <> 0.
Proof.
  rewrite stepped_closing_prices.
  rewrite (annual_std_of_prices_ok _ _ stepped_returns) by discriminate.
  eexists. split; [reflexivity |].
  unfold annual_std, pysum. cbn [map fold_left length INR pow].
  match goal with |- sqrt ?v * _ <> 0 => assert (Hv : 0 < v) by lra end.
  apply sqrt_lt_R0 in Hv.
  pose proof sqrt_252_bounds as [Hlo _]. nra.
Qed.

(** Their Sharpe ratio is nonetheless computed to be 0: the annualized
    mean return equals the risk-free rate. *)
Lemma stepped_sharpe :
  calculate_sharpe_ratio (stock_of_closes stepped_closes) default_risk_free_rate = Ok 0.
Proof.
  assert (Hrs : daily_returns (closing_prices (history (stock_of_closes stepped_closes)))
                = Ok [1 / 1260; 0; 0; 0; 0; 0; 0; 0; 0; 0]).
  { rewrite stepped_closing_prices. exact stepped_returns. }
  assert (Hlong : Nat.ltb (length (history (stock_of_closes stepped_closes))) 10 = false)
    by reflexivity.
  assert (Htwo : Nat.ltb (length (closing_prices
                    (history (stock_of_closes stepped_closes)))) 2 = false)
    by (rewrite stepped_closing_prices; reflexivity).
  rewrite (sharpe_past_guards _ _ _ Hlong Htwo Hrs) by discriminate.
  destruct (Req_dec_T _ 0); [reflexivity |]. f_equal.
  unfold default_risk_free_rate, pysum. cbn [fold_left length INR].
  match goal with |- round2 (?num / _) = 0 => replace num with 0 by lra end.
  unfold Rdiv. rewrite Rmult_0_l. apply round2_zero.
Qed.

End RiskEvaluation.

(* ================================================================== *)
(** * Volatility, Sharpe ratio, short histories, recommendations *)
(* ================================================================== *)

Module RiskClaims.
Import PyReal PyRealFacts RiskAnalysisAgent RiskFacts SharpeFacts Samples RiskEvaluation.
Local Open Scope R_scope.

(** C4, as the claim states it, fails: for a daily volatility of 1 the
    annualized volatility returned is 15.87, more than four thousandths
    away from [1 * sqrt 252]; no floating tolerance is that wide. *)
Lemma annualized_volatility_off_by_rounding :
  Rabs (calculate_annualized_volatility 1 default_trading_days - 1 * sqrt 252)
  > 4 / 1000.
Proof.
  rewrite annualized_volatility_of_one.
  pose proof sqrt_252_bounds as [Hlo Hhi].
  rewrite Rabs_left by lra. lra.
Qed.

(** C4, amended.  The annualized volatility is the daily volatility times
    the square root of 252, rounded to two decimals, so the two differ by
    at most 0.005; and this is the pair [execute_task] reports, which
    raises for an empty [stock_data] only. *)
Theorem annualized_volatility_rounded :
  (forall volatility : R,
     calculate_annualized_volatility volatility default_trading_days
       = round2 (volatility * sqrt 252)
     /\ Rabs (calculate_annualized_volatility volatility default_trading_days
              - volatility * sqrt 252) <= 1 / 200)
  /\ (forall calculate_volatility calculate_beta calculate_var
             calculate_risk_score assess_risk_level stock_data market_data utcnow,
        match execute_task calculate_volatility calculate_beta calculate_var
                calculate_risk_score assess_risk_level
                stock_data market_data utcnow with
        | Ok report =>
            volatility_daily report = calculate_volatility stock_data
            /\ volatility_annualized report
               = round2 (volatility_daily report * sqrt 252)
        | Raise _ => stock_data_empty stock_data = true
        end).
Proof.
  split.
  - intros volatility. split; [reflexivity |].
    unfold calculate_annualized_volatility, default_trading_days.
    apply round2_near.
  - intros cv cb cvar crs arl stock_data market_data utcnow.
    unfold execute_task.
    destruct (stock_data_empty stock_data); [reflexivity |].
    destruct (calculate_max_drawdown_total stock_data) as [dd Hdd].
    destruct (calculate_sharpe_ratio_total stock_data default_risk_free_rate)
      as [sh Hsh].
    rewrite Hdd. eval_bind. rewrite Hsh. eval_bind.
    split; reflexivity.
Qed.

(** C5, as the claim states it, fails: the value returned at zero
    volatility is 0.0, which a computed ratio can be as well.  The flat
    closes have zero annualized volatility, the stepped closes have not,
    and both get a Sharpe ratio of 0.0. *)
Lemma sharpe_zero_is_no_sentinel :
  annual_std_of_prices (closing_prices (history (stock_of_closes flat_closes))) = Ok 0
  /\ (exists s, annual_std_of_prices
                  (closing_prices (history (stock_of_closes stepped_closes))) = Ok s
                /\ s <> 0)
  /\ calculate_sharpe_ratio (stock_of_closes flat_closes) default_risk_free_rate
     = calculate_sharpe_ratio (stock_of_closes stepped_closes) default_risk_free_rate.
Proof.
  split; [exact flat_annual_std |]. split; [exact stepped_annual_std |].
  rewrite stepped_sharpe.
  apply sharpe_zero_volatility. exact flat_annual_std.
Qed.

(** C6, as the claim states it, fails: on a history of three points both
    computations return 0.0 and neither raises InsufficientHistoryError. *)
Lemma short_history_returns_zero :
  (length (history (stock_of_closes short_closes)) < 10)%nat
  /\ calculate_max_drawdown (stock_of_closes short_closes) = Ok 0
  /\ calculate_sharpe_ratio (stock_of_closes short_closes) default_risk_free_rate = Ok 0
  /\ ~ raises (calculate_max_drawdown (stock_of_closes short_closes))
         InsufficientHistoryError
  /\ ~ raises (calculate_sharpe_ratio (stock_of_closes short_closes)
                 default_risk_free_rate)
         InsufficientHistoryError.
Proof.
  assert (Hdd : calculate_max_drawdown (stock_of_closes short_closes) = Ok 0)
    by reflexivity.
  assert (Hsh : calculate_sharpe_ratio (stock_of_closes short_closes)
                  default_risk_free_rate = Ok 0)
    by reflexivity.
  split; [simpl; lia |]. split; [exact Hdd |]. split; [exact Hsh |].
  unfold raises. rewrite Hdd, Hsh. split; discriminate.
Qed.

(** C6, amended.  For every input whose history has fewer than ten
    points, the maximum drawdown and the Sharpe ratio are both returned
    as 0.0, and no error is raised. *)
Theorem short_history_zeroed (stock_data : StockData) (risk_free_rate : R) :
  (length (history stock_data) < 10)%nat ->
  calculate_max_drawdown stock_data = Ok 0
  /\ calculate_sharpe_ratio stock_data risk_free_rate = Ok 0.
Proof.
  intros Hshort. apply Nat.ltb_lt in Hshort.
  unfold calculate_max_drawdown, calculate_sharpe_ratio.
  rewrite Hshort. split; reflexivity.
Qed.

Lemma short_history_zeroed_witness :
  (length (history (stock_of_closes short_closes)) < 10)%nat
  /\ calculate_max_drawdown (stock_of_closes short_closes) = Ok 0
  /\ calculate_sharpe_ratio (stock_of_closes short_closes) default_risk_free_rate = Ok 0.
Proof.
  assert (Hshort : (length (history (stock_of_closes short_closes)) < 10)%nat)
    by (simpl; lia).
  split; [exact Hshort |].
  exact (short_history_zeroed (stock_of_closes short_closes)
           default_risk_free_rate Hshort).
Defined.

End RiskClaims.

(* ================================================================== *)
(** * Risk recommendations *)
(* ================================================================== *)

Module RecommendationClaims.
Import RiskAnalysisAgent Samples.
Local Open Scope R_scope.

Ltac split_rules :=
  repeat match goal with
  | |- context [Rgt_dec ?a ?b] => destruct (Rgt_dec a b)
  | |- context [Rlt_dec ?a ?b] => destruct (Rlt_dec a b)
  end.

(** C9.  For every risk-metrics dict the list of recommendations is not
    empty; it holds the high-volatility caution when the volatility is
    above 30 and the negative-Sharpe flag when the Sharpe ratio is below 0;
    and when no threshold rule fires it is the single recommendation that
    the risk metrics are within the normal range. *)
Theorem recommendations_rules (risk_metrics : gmap string R) :
  generate_risk_recommendations risk_metrics <> []
  /\ (metric risk_metrics "volatility" 0 > 30 ->
      In high_volatility_caution (generate_risk_recommendations risk_metrics))
  /\ (metric risk_metrics "sharpe_ratio" 0 < 0 ->
      In negative_sharpe_flag (generate_risk_recommendations risk_metrics))
  /\ (no_rule_fires risk_metrics ->
      generate_risk_recommendations risk_metrics = [within_normal_range]).
Proof.
  unfold no_rule_fires, generate_risk_recommendations.
  split; [| split; [| split]].
  - split_rules; discriminate.
  - intros Hvol. split_rules; try contradiction; simpl; auto.
  - intros Hsharpe. split_rules; try contradiction; simpl; auto 10.
  - intros (H1 & H2 & H3 & H4 & H5 & H6).
    split_rules; try contradiction; reflexivity.
Qed.

Lemma recommendations_rules_witness :
  (metric risky_metrics "volatility" 0 > 30
   /\ In high_volatility_caution (generate_risk_recommendations risky_metrics))
  /\ (metric risky_metrics "sharpe_ratio" 0 < 0
      /\ In negative_sharpe_flag (generate_risk_recommendations risky_metrics))
  /\ (no_rule_fires calm_metrics
      /\ generate_risk_recommendations calm_metrics = [within_normal_range]).
Proof.
  assert (Hvol : metric risky_metrics "volatility" 0 = 35).
  { unfold metric, risky_metrics. rewrite lookup_insert_ne by discriminate.
    rewrite lookup_insert_eq. reflexivity. }
  assert (Hsharpe : metric risky_metrics "sharpe_ratio" 0 = -1).
  { unfold metric, risky_metrics. rewrite lookup_insert_eq. reflexivity. }
  assert (Hcalm : no_rule_fires calm_metrics).
  { unfold no_rule_fires, metric, calm_metrics.
    repeat (rewrite lookup_insert_eq || rewrite lookup_insert_ne by discriminate).
    simpl. repeat split; lra. }
  destruct (recommendations_rules risky_metrics) as (_ & Hhigh & Hneg & _).
  destruct (recommendations_rules calm_metrics) as (_ & _ & _ & Hnormal).
  split; [split; [rewrite Hvol; lra | apply Hhigh; rewrite Hvol; lra] |].
  split; [split; [rewrite Hsharpe; lra | apply Hneg; rewrite Hsharpe; lra] |].
  split; [exact Hcalm | exact (Hnormal Hcalm)].
Defined.

End RecommendationClaims.

(* ================================================================== *)
(** * Facts about the sentiment agent *)
(* ================================================================== *)

Module SentimentFacts.
Import PyRat EmotionalAnalysisAgent SentimentSpec.
Local Open Scope Q_scope.

Lemma insert_by_key_perm (news : News) (l : list News) :
  Permutation (news :: l) (insert_by_key news l).
Proof.
  induction l as [| other rest IH]; simpl.
  - apply Permutation_refl.
  - destruct (String.leb (sort_key news) (sort_key other)).
    + apply Permutation_refl.
    + apply perm_trans with (other :: news :: rest).
      * apply perm_swap.
      * apply perm_skip. exact IH.
Qed.

Lemma sorted_perm (news_data : list News) :
  Permutation news_data (sorted news_data).
Proof.
  induction news_data as [| news rest IH]; simpl.
  - apply perm_nil.
  - apply perm_trans with (news :: sorted rest).
    + apply perm_skip. exact IH.
    + apply insert_by_key_perm.
Qed.

Lemma insert_by_key_head (news bound : News) (l : list News) :
  chronological bound news -> HdRel chronological bound l ->
  HdRel chronological bound (insert_by_key news l).
Proof.
  intros Hnews Hhd. destruct l as [| other rest]; simpl.
  - constructor. exact Hnews.
  - destruct (String.leb (sort_key news) (sort_key other)).
    + constructor. exact Hnews.
    + inversion Hhd; subst. constructor. assumption.
Qed.

Lemma insert_by_key_sorted (news : News) (l : list News) :
  Sorted chronological l -> Sorted chronological (insert_by_key news l).
Proof.
  induction 1 as [| other rest Hsorted IH Hhd]; simpl.
  - repeat constructor.
  - destruct (String.leb (sort_key news) (sort_key other)) eqn:Hle.
    + constructor; [constructor; assumption |]. constructor. exact Hle.
    + constructor; [exact IH |].
      apply insert_by_key_head; [| exact Hhd].
      unfold chronological.
      destruct (String.leb_total (sort_key news) (sort_key other)) as [H | H];
        [congruence | exact H].
Qed.

Lemma sorted_sorted (news_data : list News) :
  Sorted chronological (sorted news_data).
Proof.
  induction news_data as [| news rest IH]; simpl.
  - constructor.
  - apply insert_by_key_sorted. exact IH.
Qed.

Lemma halves_append (news_data : list News) :
  first_half news_data ++ second_half news_data = sorted news_data.
Proof. unfold first_half, second_half. apply take_drop. Qed.

Lemma first_half_length (news_data : list News) :
  length (first_half news_data) = (length news_data / 2)%nat.
Proof.
  unfold first_half. rewrite length_take.
  rewrite <- (Permutation_length (sorted_perm news_data)).
  apply Nat.min_l. apply Nat.Div0.div_le_upper_bound. lia.
Qed.

Lemma fold_left_Qplus_from (l : list Q) (a : Q) :
  fold_left Qplus l a == a + fold_right Qplus 0 l.
Proof.
  revert a. induction l as [| x xs IH]; intros a; simpl.
  - ring.
  - rewrite IH. ring.
Qed.

(** On a non-empty list [avg_sentiment] is the mean of the scores. *)
Lemma avg_sentiment_mean (news_list : list News) :
  news_list <> [] ->
  avg_sentiment news_list == mean (map article_score news_list).
Proof.
  destruct news_list as [| news rest]; [congruence |]. intros _.
  unfold avg_sentiment, mean, pysum.
  cbn [map]. rewrite fold_left_Qplus_from.
  rewrite Qplus_0_l. reflexivity.
Qed.

Lemma article_score_positive (news : News) :
  sentiment news = Some "positive"%string -> article_score news = 8 # 10.
Proof. intros H. unfold article_score. rewrite H. reflexivity. Qed.

Lemma article_score_negative (news : News) :
  sentiment news = Some "negative"%string -> article_score news = 2 # 10.
Proof. intros H. unfold article_score. rewrite H. reflexivity. Qed.

Lemma article_score_neutral (news : News) :
  sentiment news = Some "neutral"%string \/ sentiment news = None ->
  article_score news = 5 # 10.
Proof. intros [H | H]; unfold article_score; rewrite H; reflexivity. Qed.

Lemma classify_spec (change : Q) :
  (1 # 10 < change -> classify change = IMPROVING)
  /\ (change < - (1 # 10) -> classify change = DETERIORATING)
  /\ (- (1 # 10) <= change <= 1 # 10 -> classify change = STABLE).
Proof.
  unfold classify.
  destruct (Qlt_le_dec (1 # 10) change) as [Hup | Hnup];
    [| destruct (Qlt_le_dec change (- (1 # 10))) as [Hdown | Hndown]].
  - split; [reflexivity |]. split; intros H.
    + exfalso. apply (Qlt_irrefl change).
      apply Qlt_trans with (- (1 # 10)); [exact H |].
      apply Qlt_trans with (1 # 10); [reflexivity | exact Hup].
    + exfalso. apply (Qlt_irrefl change).
      apply Qle_lt_trans with (1 # 10); [apply H | exact Hup].
  - split; [| split; [reflexivity |]]; intros H.
    + exfalso. apply (Qlt_irrefl change).
      apply Qle_lt_trans with (1 # 10); [exact Hnup | exact H].
    + exfalso. apply (Qlt_irrefl change).
      apply Qlt_le_trans with (- (1 # 10)); [exact Hdown | apply H].
  - split; [| split; [| reflexivity]]; intros H.
    + exfalso. apply (Qlt_irrefl change).
      apply Qle_lt_trans with (1 # 10); [exact Hnup | exact H].
    + exfalso. apply (Qlt_irrefl change).
      apply Qlt_le_trans with (- (1 # 10)); [exact H | exact Hndown].
Qed.

(** The ["trend"] entry is the class of the change between the halves. *)
Lemma trend_entry (news_data : list News) :
  analyze_sentiment_trend news_data !! "trend"%string
  = Some (PyStr (trend_name (classify (sentiment_change news_data)))).
Proof.
  destruct news_data as [| news rest].
  - reflexivity.
  - unfold analyze_sentiment_trend, sentiment_change.
    rewrite !lookup_insert_ne by discriminate.
    rewrite lookup_insert_eq. reflexivity.
Qed.

End SentimentFacts.

(* ================================================================== *)
(** * Sentiment trend *)
(* ================================================================== *)

Module SentimentClaims.
Import PyRat EmotionalAnalysisAgent SentimentSpec SentimentFacts.
Local Open Scope Q_scope.

(** For an empty news list [analyze_sentiment_trend] returns a STABLE
    trend and a change of 0, and no other entry. *)
Lemma empty_news_trend :
  analyze_sentiment_trend [] !! "trend"%string = Some (PyStr "STABLE")
  /\ analyze_sentiment_trend [] !! "change"%string = Some (PyInt 0)
  /\ dom (analyze_sentiment_trend []) = ({[ "trend"%string; "change"%string ]} : gset string).
Proof.
  split; [reflexivity |]. split; [reflexivity |].
  unfold analyze_sentiment_trend.
  rewrite !dom_insert_L, dom_empty_L. set_solver.
Qed.

(** C10.  For a single article the split is at index 0: the first half is
    empty and its average defaults to 0.5, the second half is the article.
    A positive article gives a change of +0.3 and the trend IMPROVING, a
    negative one a change of -0.3 and DETERIORATING, a neutral one a change
    of 0 and STABLE. *)
Theorem single_article_trend (news : News) :
  first_half [news] = []
  /\ second_half [news] = [news]
  /\ avg_sentiment (first_half [news]) = 5 # 10
  /\ (sentiment news = Some "positive"%string ->
      sentiment_change [news] == 3 # 10
      /\ analyze_sentiment_trend [news] !! "trend"%string = Some (PyStr "IMPROVING")
      /\ analyze_sentiment_trend [news] !! "change"%string = Some (PyFloat (30 # 100)))
  /\ (sentiment news = Some "negative"%string ->
      sentiment_change [news] == - (3 # 10)
      /\ analyze_sentiment_trend [news] !! "trend"%string = Some (PyStr "DETERIORATING")
      /\ analyze_sentiment_trend [news] !! "change"%string = Some (PyFloat (-30 # 100)))
  /\ (sentiment news = Some "neutral"%string ->
      sentiment_change [news] == 0
      /\ analyze_sentiment_trend [news] !! "trend"%string = Some (PyStr "STABLE")
      /\ analyze_sentiment_trend [news] !! "change"%string = Some (PyFloat (0 # 100))).
Proof.
  assert (Hchange : forall score, article_score news = score ->
            sentiment_change [news] = (0 + score) / inject_Z 1 - (5 # 10)).
  { intros score Hscore. unfold sentiment_change, second_half, first_half.
    cbn [sorted insert_by_key length Nat.div Nat.divmod fst take drop].
    unfold avg_sentiment, pysum. cbn [map fold_left length]. rewrite Hscore.
    reflexivity. }
  assert (Hentry : analyze_sentiment_trend [news] !! "change"%string
                   = Some (PyFloat (round2 (sentiment_change [news])))).
  { unfold analyze_sentiment_trend, sentiment_change.
    rewrite !lookup_insert_ne by discriminate.
    rewrite lookup_insert_eq. reflexivity. }
  split; [reflexivity |]. split; [reflexivity |]. split; [reflexivity |].
  split; [| split]; intros Hlabel.
  - rewrite Hentry, trend_entry,
      (Hchange _ (article_score_positive news Hlabel)).
    repeat split; reflexivity.
  - rewrite Hentry, trend_entry,
      (Hchange _ (article_score_negative news Hlabel)).
    repeat split; reflexivity.
  - rewrite Hentry, trend_entry,
      (Hchange _ (article_score_neutral news (or_introl Hlabel))).
    repeat split; reflexivity.
Qed.

Lemma single_article_trend_witness :
  sentiment (article "positive" "2025-10-01") = Some "positive"%string
  /\ analyze_sentiment_trend [article "positive" "2025-10-01"] !! "trend"%string
     = Some (PyStr "IMPROVING")
  /\ sentiment (article "negative" "2025-10-01") = Some "negative"%string
  /\ analyze_sentiment_trend [article "negative" "2025-10-01"] !! "trend"%string
     = Some (PyStr "DETERIORATING")
  /\ sentiment (article "neutral" "2025-10-01") = Some "neutral"%string
  /\ analyze_sentiment_trend [article "neutral" "2025-10-01"] !! "trend"%string
     = Some (PyStr "STABLE").
Proof.
  split; [reflexivity |].
  split; [exact (proj1 (proj2 (proj1 (proj2 (proj2 (proj2
            (single_article_trend (article "positive" "2025-10-01")))))
            eq_refl))) |].
  split; [reflexivity |].
  split; [exact (proj1 (proj2 (proj1 (proj2 (proj2 (proj2 (proj2
            (single_article_trend (article "negative" "2025-10-01"))))))
            eq_refl))) |].
  split; [reflexivity |].
  exact (proj1 (proj2 (proj2 (proj2 (proj2 (proj2 (proj2
           (single_article_trend (article "neutral" "2025-10-01"))))))
           eq_refl))).
Defined.

End SentimentClaims.

(* ================================================================== *)
(** * Facts about the alert state machine *)
(* ================================================================== *)

Module AlertFacts.
Import AlertTypes AlertEngine.

Lemma AlertStatus_eqb_eq (a b : AlertStatus) :
  AlertStatus_eqb a b = true <-> a = b.
Proof. destruct a, b; simpl; split; congruence. Qed.

Section Reducer.
Variable config : Config.

(** The bookkeeping of an observation leaves status and requirement alone. *)
Lemma observe_status (alert : Alert) (now : string) (current baseline : Q) :
  status (observe config alert now current baseline) = status alert.
Proof.
  unfold observe.
  destruct (breach_condition _ _ _ _); [reflexivity |].
  destruct (recovery_event _ _ _ _); reflexivity.
Qed.

Lemma observe_required (alert : Alert) (now : string) (current baseline : Q) :
  required_of config (observe config alert now current baseline)
  = required_of config alert.
Proof.
  unfold observe.
  destruct (breach_condition _ _ _ _); [reflexivity |].
  destruct (recovery_event _ _ _ _); reflexivity.
Qed.

Lemma evaluate_count (alert : Alert) (now : string) (current baseline : Q) :
  triggerCount (evaluate config alert now current baseline)
  = count_of (observe config alert now current baseline).
Proof.
  unfold evaluate. cbn [triggerCount].
  destruct (_ && _); reflexivity.
Qed.

Lemma evaluate_new_status (alert : Alert) (now : string) (current baseline : Q) :
  newStatus (evaluate config alert now current baseline)
  = status (updated (evaluate config alert now current baseline)).
Proof. reflexivity. Qed.

Lemma evaluate_fires_iff (alert : Alert) (now : string) (current baseline : Q) :
  fires (evaluate config alert now current baseline) = true
  <-> status alert = PENDING
      /\ (required_of config alert
          <= triggerCount (evaluate config alert now current baseline))%Z.
Proof.
  rewrite evaluate_count. unfold fires, evaluate.
  cbn [previousStatus newStatus].
  rewrite observe_required, observe_status.
  destruct (Z.leb_spec (required_of config alert)
              (count_of (observe config alert now current baseline)))
    as [Hle | Hlt];
    destruct (status alert) eqn:Hstatus; cbn;
    try rewrite observe_status, Hstatus; cbn;
    split; try congruence; try (intros [? ?]; congruence || lia); auto.
Qed.

Lemma evaluate_cycle_new_status (alert : Alert) (cycle : Cycle) :
  newStatus (evaluate_cycle config alert cycle)
  = status (updated (evaluate_cycle config alert cycle)).
Proof. unfold evaluate_cycle. destruct (cycle_price cycle); reflexivity. Qed.

Lemma evaluate_cycle_previous (alert : Alert) (cycle : Cycle) :
  previousStatus (evaluate_cycle config alert cycle) = status alert.
Proof. unfold evaluate_cycle. destruct (cycle_price cycle); reflexivity. Qed.

(** An alert that is not PENDING keeps its status and does not fire. *)
Lemma evaluate_cycle_settled (alert : Alert) (cycle : Cycle) :
  status alert <> PENDING ->
  fires (evaluate_cycle config alert cycle) = false
  /\ status (updated (evaluate_cycle config alert cycle)) = status alert.
Proof.
  intros Hsettled. split.
  - unfold fires. rewrite evaluate_cycle_previous.
    destruct (status alert); [congruence | reflexivity | reflexivity].
  - unfold evaluate_cycle. destruct (cycle_price cycle) as [current |]; [| reflexivity].
    unfold evaluate. cbn [updated]. rewrite observe_status.
    destruct (status alert) eqn:Hstatus; [congruence | |];
      rewrite Bool.andb_false_r; rewrite observe_status; exact Hstatus.
Qed.

(** A cycle that fires leaves the alert TRIGGERED. *)
Lemma evaluate_cycle_fired (alert : Alert) (cycle : Cycle) :
  fires (evaluate_cycle config alert cycle) = true ->
  status (updated (evaluate_cycle config alert cycle)) = TRIGGERED.
Proof.
  unfold fires. rewrite evaluate_cycle_new_status.
  intros H. apply andb_prop in H as [_ H].
  apply AlertStatus_eqb_eq. exact H.
Qed.

Lemma run_settled (cycles : list Cycle) (alert : Alert) :
  status alert <> PENDING ->
  fire_count (run config alert cycles) = 0%nat
  /\ status (final config alert cycles) = status alert.
Proof.
  revert alert. induction cycles as [| cycle rest IH]; intros alert Hsettled.
  - split; reflexivity.
  - destruct (evaluate_cycle_settled alert cycle Hsettled) as [Hquiet Hsame].
    assert (Hnext : status (updated (evaluate_cycle config alert cycle)) <> PENDING)
      by (rewrite Hsame; exact Hsettled).
    destruct (IH _ Hnext) as [Hcount Hfinal].
    unfold fire_count in *. cbn [run final List.filter]. rewrite Hquiet.
    split; [exact Hcount | rewrite Hfinal; exact Hsame].
Qed.

Lemma run_fires_at_most_once (cycles : list Cycle) (alert : Alert) :
  (fire_count (run config alert cycles) <= 1)%nat.
Proof.
  revert alert. induction cycles as [| cycle rest IH]; intros alert.
  - unfold fire_count. simpl. lia.
  - unfold fire_count in *. cbn [run List.filter].
    destruct (fires (evaluate_cycle config alert cycle)) eqn:Hfires.
    + apply evaluate_cycle_fired in Hfires.
      assert (Hnext : status (updated (evaluate_cycle config alert cycle)) <> PENDING)
        by (rewrite Hfires; discriminate).
      destruct (run_settled rest _ Hnext) as [Hcount _].
      unfold fire_count in Hcount. cbn [length]. rewrite Hcount. lia.
    + apply IH.
Qed.

End Reducer.

End AlertFacts.

(* ================================================================== *)
(** * Alert life cycle *)
(* ================================================================== *)

Module AlertClaims.
Import AlertTypes AlertEngine AlertSamples AlertFacts.

(** C1.  An evaluation reports the PENDING -> TRIGGERED transition exactly
    when the alert is PENDING and its trigger count has reached the
    required count; over any sequence of cycles the transition is reported
    at most once; and from a TRIGGERED alert no cycle reports it again, the
    alert staying TRIGGERED. *)
Theorem trigger_transition_once (config : Config) (alert : Alert) :
  (forall now current baseline,
     fires (evaluate config alert now current baseline) = true
     <-> status alert = PENDING
         /\ (required_of config alert
             <= triggerCount (evaluate config alert now current baseline))%Z)
  /\ (forall cycles, (fire_count (run config alert cycles) <= 1)%nat)
  /\ (forall cycles,
        status alert = TRIGGERED ->
        fire_count (run config alert cycles) = 0%nat
        /\ status (final config alert cycles) = TRIGGERED).
Proof.
  split; [apply evaluate_fires_iff |].
  split; [intros cycles; apply run_fires_at_most_once |].
  intros cycles Htriggered.
  destruct (run_settled config cycles alert) as [Hcount Hfinal].
  - rewrite Htriggered. discriminate.
  - split; [exact Hcount | rewrite Hfinal; exact Htriggered].
Qed.

Lemma trigger_transition_once_witness :
  fire_count (run price_config drop_alert three_breaches) = 1%nat
  /\ status triggered_alert = TRIGGERED
  /\ fire_count (run price_config triggered_alert three_breaches) = 0%nat
  /\ status (final price_config triggered_alert three_breaches) = TRIGGERED.
Proof.
  assert (Htriggered : status triggered_alert = TRIGGERED) by reflexivity.
  split; [reflexivity |]. split; [exact Htriggered |].
  exact (proj2 (proj2 (trigger_transition_once price_config triggered_alert))
           three_breaches Htriggered).
Defined.

(** The scenario of the specification: baseline 100, threshold -5 percent,
    three breaches required, prices 95, 94 and 93.  After the third
    evaluation the alert is TRIGGERED with a trigger count of 3. *)
Example three_breaches_trigger :
  map (fun t => (previousStatus t, newStatus t, triggerCount t))
    (run price_config drop_alert three_breaches)
  = [(PENDING, PENDING, 1%Z); (PENDING, PENDING, 2%Z); (PENDING, TRIGGERED, 3%Z)]
  /\ status triggered_alert = TRIGGERED
  /\ trigger_count triggered_alert = Some 3%Z
  /\ triggered_at triggered_alert = Some "2025-10-29T12:00:00"%string.
Proof. repeat split; reflexivity. Qed.

(** C2.  [acknowledge] raises InvalidStateTransitionError on a PENDING
    alert; on a TRIGGERED alert it succeeds, moving it to ACKNOWLEDGED and
    stamping [acknowledged_at], and every further call on the result
    raises InvalidStateTransitionError. *)
Theorem acknowledge_once (alert : Alert) (now : string) :
  (status alert = PENDING ->
   raises (acknowledge alert now) InvalidStateTransitionError)
  /\ (status alert = TRIGGERED ->
      exists acknowledged,
        acknowledge alert now = Ok acknowledged
        /\ status acknowledged = ACKNOWLEDGED
        /\ acknowledged_at acknowledged = Some now
        /\ forall later,
             raises (acknowledge acknowledged later) InvalidStateTransitionError).
Proof.
  unfold raises, acknowledge. split; intros Hstatus; rewrite Hstatus.
  - reflexivity.
  - exists (set_acknowledged alert now). repeat split.
Qed.

Lemma acknowledge_once_witness :
  (status drop_alert = PENDING
   /\ raises (acknowledge drop_alert "2025-10-29T13:00:00")
        InvalidStateTransitionError)
  /\ (status triggered_alert = TRIGGERED
      /\ exists acknowledged,
           acknowledge triggered_alert "2025-10-29T13:00:00" = Ok acknowledged
           /\ status acknowledged = ACKNOWLEDGED
           /\ acknowledged_at acknowledged = Some "2025-10-29T13:00:00"%string
           /\ forall later,
                raises (acknowledge acknowledged later) InvalidStateTransitionError).
Proof.
  split.
  - split; [reflexivity |].
    exact (proj1 (acknowledge_once drop_alert "2025-10-29T13:00:00") eq_refl).
  - split; [reflexivity |].
    exact (proj2 (acknowledge_once triggered_alert "2025-10-29T13:00:00") eq_refl).
Defined.

(** The alert page offers the acknowledge button on TRIGGERED alerts only,
    and a rejected request surfaces as an error toast. *)
Example acknowledge_on_page :
  acknowledge_button_shown drop_alert = false
  /\ acknowledge_button_shown triggered_alert = true
  /\ handleAcknowledge (acknowledge drop_alert "2025-10-29T13:00:00")
     = ToastError "Failed to acknowledge alert"
  /\ handleAcknowledge (acknowledge triggered_alert "2025-10-29T13:00:00")
     = ToastSuccess "Alert acknowledged".
Proof. repeat split; reflexivity. Qed.

End AlertClaims.

(* ================================================================== *)
(** * More on the risk agent *)
(* ================================================================== *)

Module RiskExtras.
Import PyReal PyRealFacts RiskAnalysisAgent RiskFacts SharpeFacts RiskInputs.
Local Open Scope R_scope.

Ltac eval_bind := cbn [mbind result_bind mret result_ret].

Lemma round_half_even_mono (x y : R) :
  x <= y -> (round_half_even x <= round_half_even y)%Z.
Proof.
  intros Hxy.
  destruct (Z_le_gt_dec (round_half_even x) (round_half_even y)) as [Hle | Hgt];
    [exact Hle | exfalso].
  pose proof (round_half_even_near x) as [_ Hx].
  pose proof (round_half_even_near y) as [Hy _].
  assert (Hstep : (round_half_even y + 1 <= round_half_even x)%Z) by lia.
  apply IZR_le in Hstep. rewrite plus_IZR in Hstep.
  assert (Heq : x = y) by lra.
  subst y. lia.
Qed.

Lemma round2_mono (x y : R) : x <= y -> round2 x <= round2 y.
Proof.
  intros Hxy. unfold round2.
  assert (H : (round_half_even (x * 100) <= round_half_even (y * 100))%Z)
    by (apply round_half_even_mono; lra).
  apply IZR_le in H. lra.
Qed.

Lemma calculate_max_drawdown_nonpositive (stock_data : StockData) :
  exists v, calculate_max_drawdown stock_data = Ok v /\ v <= 0.
Proof.
  unfold calculate_max_drawdown.
  destruct (Nat.ltb _ 10); [exists 0; split; [reflexivity | lra] |].
  destruct (Nat.ltb _ 2); [exists 0; split; [reflexivity | lra] |].
  destruct (drawdown_of_prices _ (closing_prices_nonzero (history stock_data)))
    as (lowest & Heq & Hle & _).
  rewrite Heq. eexists. split; [reflexivity |].
  rewrite <- round2_zero. apply round2_mono. lra.
Qed.

(** X1.  Whatever the input, the maximum drawdown is returned, not raised, and
    it is never above 0. *)
Theorem max_drawdown_never_positive (stock_data : StockData) :
  exists v, calculate_max_drawdown stock_data = Ok v /\ v <= 0.
Proof. apply calculate_max_drawdown_nonpositive. Qed.

(** X2.  For a number of trading days that is not negative, the annualized
    volatility grows with the daily volatility, is 0 for a daily volatility
    of 0 and is not negative for a non-negative one. *)
Theorem annualized_volatility_monotone (v1 v2 : R) (trading_days : Z) :
  (0 <= trading_days)%Z ->
  (v1 <= v2 ->
   calculate_annualized_volatility v1 trading_days
   <= calculate_annualized_volatility v2 trading_days)
  /\ calculate_annualized_volatility 0 trading_days = 0
  /\ (0 <= v1 -> 0 <= calculate_annualized_volatility v1 trading_days).
Proof.
  intros _.
  unfold calculate_annualized_volatility.
  pose proof (sqrt_pos (IZR trading_days)) as Hsqrt.
  split; [| split].
  - intros Hle. apply round2_mono. nra.
  - rewrite Rmult_0_l. apply round2_zero.
  - intros Hpos. rewrite <- round2_zero. apply round2_mono. nra.
Qed.

Lemma annualized_volatility_monotone_witness :
  (0 <= default_trading_days)%Z
  /\ calculate_annualized_volatility 1 default_trading_days
     <= calculate_annualized_volatility 2 default_trading_days
  /\ 0 <= calculate_annualized_volatility 1 default_trading_days.
Proof.
  assert (Hdays : (0 <= default_trading_days)%Z)
    by (unfold default_trading_days; lia).
  split; [exact Hdays |]. split.
  - apply (proj1 (annualized_volatility_monotone 1 2 default_trading_days Hdays)).
    lra.
  - apply (proj2 (proj2 (annualized_volatility_monotone 1 2 default_trading_days
                           Hdays))).
    lra.
Defined.

(** ** Days without a usable close *)

Lemma closing_prices_app (before after : list Day) :
  closing_prices (before ++ after) = closing_prices before ++ closing_prices after.
Proof.
  induction before as [| day rest IH]; [reflexivity |].
  cbn [app closing_prices]. destruct (close day) as [c |]; [| exact IH].
  destruct (Req_dec_T c 0); [exact IH | cbn [app]; f_equal; exact IH].
Qed.

Lemma closing_prices_skip (before after : list Day) (day : Day) :
  close_is_falsy day ->
  closing_prices (before ++ day :: after) = closing_prices (before ++ after).
Proof.
  intros Hfalsy. rewrite !closing_prices_app. f_equal.
  cbn [closing_prices]. destruct Hfalsy as [H | H]; rewrite H; [reflexivity |].
  destruct (Req_dec_T 0 0); [reflexivity | contradiction].
Qed.

(** X5.  In a history that has ten days without it, a day whose close is
    missing or zero changes neither the maximum drawdown nor the Sharpe
    ratio, wherever it stands. *)
Theorem falsy_close_ignored
    (stock_data : StockData) (before after : list Day) (day : Day)
    (risk_free_rate : R) :
  close_is_falsy day ->
  (10 <= length (before ++ after))%nat ->
  calculate_max_drawdown (with_history stock_data (before ++ day :: after))
    = calculate_max_drawdown (with_history stock_data (before ++ after))
  /\ calculate_sharpe_ratio (with_history stock_data (before ++ day :: after))
       risk_free_rate
    = calculate_sharpe_ratio (with_history stock_data (before ++ after))
       risk_free_rate.
Proof.
  intros Hfalsy Hlong.
  unfold calculate_max_drawdown, calculate_sharpe_ratio.
  change (history (with_history stock_data (before ++ day :: after)))
    with (before ++ day :: after).
  change (history (with_history stock_data (before ++ after)))
    with (before ++ after).
  rewrite (closing_prices_skip _ _ _ Hfalsy).
  assert (H1 : Nat.ltb (length (before ++ after)) 10 = false)
    by (apply Nat.ltb_ge; exact Hlong).
  assert (H2 : Nat.ltb (length (before ++ day :: after)) 10 = false).
  { apply Nat.ltb_ge. rewrite length_app in *. cbn [length]. lia. }
  rewrite H1, H2. split; reflexivity.
Qed.

Lemma falsy_close_ignored_witness :
  close_is_falsy {| close := None |}
  /\ calculate_max_drawdown
       (with_history (Samples.stock_of_closes [])
          (map Samples.day_of_close [100; 80; 90]
           ++ {| close := None |}
              :: map Samples.day_of_close [100; 110; 120; 130; 140; 150; 160]))
     = calculate_max_drawdown
         (with_history (Samples.stock_of_closes [])
            (map Samples.day_of_close [100; 80; 90]
             ++ map Samples.day_of_close [100; 110; 120; 130; 140; 150; 160])).
Proof.
  assert (Hfalsy : close_is_falsy {| close := None |}) by (left; reflexivity).
  split; [exact Hfalsy |].
  apply (falsy_close_ignored (Samples.stock_of_closes []) _ _ _ 0 Hfalsy).
  simpl. lia.
Defined.

End RiskExtras.

(* ================================================================== *)
(** * More on the recommendations and the risk report *)
(* ================================================================== *)

Module RecommendationExtras.
Import PyReal PyRealFacts RiskAnalysisAgent RiskFacts SharpeFacts RiskExtras.
Local Open Scope R_scope.

Lemma In_existsb (x : string) (l : list string) :
  In x l <-> existsb (String.eqb x) l = true.
Proof.
  rewrite existsb_exists. split.
  - intros H. exists x. split; [exact H | apply String.eqb_refl].
  - intros (y & Hy & Heq). apply String.eqb_eq in Heq. subst. exact Hy.
Qed.

Ltac split_rules :=
  repeat match goal with
  | |- context [Rgt_dec ?a ?b] => destruct (Rgt_dec a b)
  | |- context [Rlt_dec ?a ?b] => destruct (Rlt_dec a b)
  end.

Ltac decide_membership :=
  repeat match goal with
  | |- context [existsb ?f ?l] =>
      let b := eval vm_compute in (existsb f l) in change (existsb f l) with b
  end.

Ltac settle_rule :=
  split; intros;
  first [reflexivity | discriminate | lra | tauto | exfalso; lra | exfalso; tauto].

(** Which recommendation is given when: one equivalence per text. *)
Lemma recommendations_membership (volatility max_drawdown beta sharpe : R)
    (risk_metrics : gmap string R) :
  metric risk_metrics "volatility" 0 = volatility ->
  metric risk_metrics "max_drawdown" 0 = max_drawdown ->
  metric risk_metrics "beta" 1 = beta ->
  metric risk_metrics "sharpe_ratio" 0 = sharpe ->
  let recs := generate_risk_recommendations risk_metrics in
  (In high_volatility_caution recs <-> volatility > 30)
  /\ (In large_drawdown_caution recs <-> max_drawdown < -30)
  /\ (In high_beta_caution recs <-> beta > 15 / 10)
  /\ (In low_beta_note recs <-> beta < 5 / 10)
  /\ (In negative_sharpe_flag recs <-> sharpe < 0)
  /\ (In good_sharpe_note recs <-> sharpe > 1)
  /\ (In within_normal_range recs <->
      ~ volatility > 30 /\ ~ max_drawdown < -30 /\ ~ beta > 15 / 10
      /\ ~ beta < 5 / 10 /\ ~ sharpe < 0 /\ ~ sharpe > 1).
Proof.
  intros Hv Hd Hb Hs recs. subst recs.
  unfold generate_risk_recommendations. rewrite Hv, Hd, Hb, Hs.
  rewrite !In_existsb.
  split_rules; cbn [app]; decide_membership; repeat split; intros;
    first [reflexivity | discriminate | lra | tauto
          | exfalso; lra | exfalso; tauto | intuition lra].
Qed.

(** X6.  Each recommendation is given exactly when its threshold test holds,
    the two beta notes and the two Sharpe notes exclude each other, and
    the normal-range text is given exactly when no test holds. *)
Theorem recommendations_characterised (risk_metrics : gmap string R) :
  let recs := generate_risk_recommendations risk_metrics in
  (In high_volatility_caution recs <-> metric risk_metrics "volatility" 0 > 30)
  /\ (In large_drawdown_caution recs <-> metric risk_metrics "max_drawdown" 0 < -30)
  /\ (In high_beta_caution recs <-> metric risk_metrics "beta" 1 > 15 / 10)
  /\ (In low_beta_note recs <-> metric risk_metrics "beta" 1 < 5 / 10)
  /\ (In negative_sharpe_flag recs <-> metric risk_metrics "sharpe_ratio" 0 < 0)
  /\ (In good_sharpe_note recs <-> metric risk_metrics "sharpe_ratio" 0 > 1)
  /\ (In within_normal_range recs <-> no_rule_fires risk_metrics).
Proof.
  apply (recommendations_membership _ _ _ _ risk_metrics); reflexivity.
Qed.

(** X7.  The recommendations come in a fixed order, volatility, drawdown, beta,
    Sharpe, with at most one text for each, so there are between one and
    four of them and none is repeated; or they are the normal-range text
    alone. *)
Theorem recommendations_shape (risk_metrics : gmap string R) :
  let recs := generate_risk_recommendations risk_metrics in
  (recs = [within_normal_range]
   \/ sublist recs [high_volatility_caution; large_drawdown_caution;
                    high_beta_caution; low_beta_note;
                    negative_sharpe_flag; good_sharpe_note])
  /\ (1 <= length recs <= 4)%nat
  /\ NoDup recs.
Proof.
  cbv zeta. unfold generate_risk_recommendations.
  split_rules; cbn [app];
    (split;
     [ first [left; reflexivity
             | right; solve [repeat constructor]]
     | split; [cbn [length]; lia
              | apply (bool_decide_unpack _); vm_compute; exact I] ]).
Qed.

Lemma report_metric_lookups (volatility max_drawdown beta sharpe : R) :
  let risk_metrics : gmap string R :=
    <["sharpe_ratio"%string := sharpe]>
      (<["beta"%string := beta]>
        (<["max_drawdown"%string := max_drawdown]>
          (<["volatility"%string := volatility]> ∅))) in
  metric risk_metrics "volatility" 0 = volatility
  /\ metric risk_metrics "max_drawdown" 0 = max_drawdown
  /\ metric risk_metrics "beta" 1 = beta
  /\ metric risk_metrics "sharpe_ratio" 0 = sharpe.
Proof.
  cbv zeta. unfold metric.
  repeat split;
    repeat (rewrite lookup_insert_eq || rewrite lookup_insert_ne by discriminate);
    reflexivity.
Qed.

(** X8.  The methods of the agent whose bodies are not in the sources are
    parameters, taken to return a number (a level, for
    [assess_risk_level]).  For a [stock_data] that carries a symbol, a
    current price or a history, [execute_task] then returns a report that
    hangs together: the reported drawdown is never above 0, the risk level
    is the level of the score of the daily volatility, beta and VaR, and
    the recommendations are those of the reported figures, each of the six
    texts being given exactly when its test holds of the reported figure
    (the volatility test being made on the annualized volatility) and the
    normal-range text exactly when none does. *)
Theorem risk_report_consistent
    (calculate_volatility : StockData -> R)
    (calculate_beta : StockData -> gmap string R -> R)
    (calculate_var : StockData -> R)
    (calculate_risk_score : R -> R -> R -> R)
    (assess_risk_level : R -> string)
    (stock_data : StockData) (market_data : gmap string R) (utcnow : string) :
  stock_data_empty stock_data = false ->
  exists report,
    execute_task calculate_volatility calculate_beta calculate_var
      calculate_risk_score assess_risk_level stock_data market_data utcnow
    = Ok report
    /\ report_max_drawdown report <= 0
    /\ report_risk_level report
       = assess_risk_level
           (calculate_risk_score (volatility_daily report) (report_beta report)
              (report_var report))
    /\ report_recommendations report <> []
    /\ (In high_volatility_caution (report_recommendations report)
        <-> volatility_annualized report > 30)
    /\ (In large_drawdown_caution (report_recommendations report)
        <-> report_max_drawdown report < -30)
    /\ (In high_beta_caution (report_recommendations report)
        <-> report_beta report > 15 / 10)
    /\ (In low_beta_note (report_recommendations report)
        <-> report_beta report < 5 / 10)
    /\ (In negative_sharpe_flag (report_recommendations report)
        <-> report_sharpe_ratio report < 0)
    /\ (In good_sharpe_note (report_recommendations report)
        <-> report_sharpe_ratio report > 1)
    /\ (In within_normal_range (report_recommendations report)
        <-> ~ volatility_annualized report > 30
            /\ ~ report_max_drawdown report < -30
            /\ ~ report_beta report > 15 / 10
            /\ ~ report_beta report < 5 / 10
            /\ ~ report_sharpe_ratio report < 0
            /\ ~ report_sharpe_ratio report > 1).
Proof.
  intros Hkeys. unfold execute_task. rewrite Hkeys.
  destruct (calculate_max_drawdown_nonpositive stock_data) as (dd & Hdd & Hle).
  destruct (calculate_sharpe_ratio_total stock_data default_risk_free_rate)
    as [sh Hsh].
  rewrite Hdd. eval_bind. rewrite Hsh. eval_bind.
  eexists. split; [reflexivity |].
  cbn [report_max_drawdown report_risk_level volatility_daily report_beta
       report_var report_recommendations volatility_annualized
       report_sharpe_ratio].
  destruct (report_metric_lookups
              (calculate_annualized_volatility (calculate_volatility stock_data)
                 default_trading_days)
              dd (calculate_beta stock_data market_data) sh)
    as (Hv & Hd & Hb & Hs).
  destruct (recommendations_membership _ _ _ _ _ Hv Hd Hb Hs)
    as (Hhigh & Hdrop & Hbeta & Hlow & Hneg & Hgood & Hnormal).
  split; [exact Hle |]. split; [reflexivity |].
  split.
  { intros Hempty. rewrite Hempty in *. cbn [In] in *.
    destruct (Rgt_dec (calculate_annualized_volatility
                         (calculate_volatility stock_data) default_trading_days) 30);
      [tauto |].
    destruct (Rlt_dec dd (-30)); [tauto |].
    destruct (Rgt_dec (calculate_beta stock_data market_data) (15 / 10)); [tauto |].
    destruct (Rlt_dec (calculate_beta stock_data market_data) (5 / 10)); [tauto |].
    destruct (Rlt_dec sh 0); [tauto |].
    destruct (Rgt_dec sh 1); tauto. }
  split; [exact Hhigh |]. split; [exact Hdrop |]. split; [exact Hbeta |].
  split; [exact Hlow |]. split; [exact Hneg |]. split; [exact Hgood |].
  exact Hnormal.
Qed.

Lemma recommendations_characterised_witness :
  metric Samples.risky_metrics "volatility" 0 > 30
  /\ In high_volatility_caution (generate_risk_recommendations Samples.risky_metrics)
  /\ ~ In within_normal_range (generate_risk_recommendations Samples.risky_metrics).
Proof.
  assert (Heq : metric Samples.risky_metrics "volatility" 0 = 35).
  { unfold metric, Samples.risky_metrics.
    rewrite lookup_insert_ne by discriminate. rewrite lookup_insert_eq.
    reflexivity. }
  assert (Hvol : metric Samples.risky_metrics "volatility" 0 > 30)
    by (rewrite Heq; lra).
  destruct (recommendations_characterised Samples.risky_metrics)
    as (Hhigh & _ & _ & _ & _ & _ & Hnormal).
  split; [exact Hvol |]. split; [apply Hhigh; exact Hvol |].
  intros Hin. apply Hnormal in Hin. destruct Hin as [Hno _]. exact (Hno Hvol).
Defined.

Lemma risk_report_consistent_witness :
  stock_data_empty (Samples.stock_of_closes Samples.dipping_closes) = false
  /\ exists report,
       execute_task (fun _ => 2) (fun _ _ => 1) (fun _ => 0) (fun _ _ _ => 0)
         (fun _ => "LOW"%string)
         (Samples.stock_of_closes Samples.dipping_closes) ∅ "2025-10-29T00:00:00"
       = Ok report
       /\ report_max_drawdown report = -20
       /\ In high_volatility_caution (report_recommendations report)
       /\ ~ In within_normal_range (report_recommendations report).
Proof.
  assert (Hkeys : stock_data_empty (Samples.stock_of_closes Samples.dipping_closes)
                  = false) by reflexivity.
  split; [exact Hkeys |].
  destruct (risk_report_consistent (fun _ => 2) (fun _ _ => 1) (fun _ => 0)
              (fun _ _ _ => 0) (fun _ => "LOW"%string)
              (Samples.stock_of_closes Samples.dipping_closes) ∅
              "2025-10-29T00:00:00" Hkeys)
    as (report & Hreport & _ & _ & _ & Hhigh & _ & _ & _ & _ & _ & Hnormal).
  exists report. split; [exact Hreport |].
  unfold execute_task in Hreport. rewrite Hkeys in Hreport.
  rewrite RiskEvaluation.dipping_closes_drawdown in Hreport.
  cbn [mbind result_bind] in Hreport.
  destruct (calculate_sharpe_ratio_total
              (Samples.stock_of_closes Samples.dipping_closes)
              default_risk_free_rate) as [sh Hsh].
  rewrite Hsh in Hreport. cbn [mbind result_bind mret result_ret] in Hreport.
  injection Hreport as Hreport.
  assert (Hvol : volatility_annualized report > 30).
  { rewrite <- Hreport. cbn [volatility_annualized].
    unfold calculate_annualized_volatility, default_trading_days.
    pose proof (round2_near (2 * sqrt 252)) as Hnear.
    pose proof RiskEvaluation.sqrt_252_bounds as [Hlo _].
    unfold Rabs in Hnear.
    destruct (Rcase_abs (round2 (2 * sqrt 252) - 2 * sqrt 252)); lra. }
  split; [rewrite <- Hreport; reflexivity |].
  split; [apply Hhigh; exact Hvol |].
  intros Hin. apply Hnormal in Hin. destruct Hin as [Hno _]. exact (Hno Hvol).
Defined.

End RecommendationExtras.

(* ================================================================== *)
(** * Facts about the rational-number helpers *)
(* ================================================================== *)

Module PyRatFacts.
Import PyRat.
Local Open Scope Q_scope.

(** Rounding moves to the floor or to the integer above it. *)
Lemma round_half_even_floor (x : Q) :
  (Qfloor x <= round_half_even x <= Qfloor x + 1)%Z.
Proof.
  unfold round_half_even.
  destruct (Qcompare (x - inject_Z (Qfloor x)) (1 # 2));
    [destruct (Z.even (Qfloor x)) | |]; lia.
Qed.

(** It never crosses an integer: bounds by integers are kept. *)
Lemma round_half_even_lower (x : Q) (a : Z) :
  inject_Z a <= x -> (a <= round_half_even x)%Z.
Proof.
  intros Hle. apply Qfloor_resp_le in Hle. rewrite Qfloor_Z in Hle.
  pose proof (round_half_even_floor x). lia.
Qed.

Lemma round_half_even_upper (x : Q) (b : Z) :
  x <= inject_Z b -> (round_half_even x <= b)%Z.
Proof.
  intros Hle.
  pose proof (Qfloor_resp_le _ _ Hle) as Hfloor. rewrite Qfloor_Z in Hfloor.
  destruct (Z.eq_dec (Qfloor x) b) as [Heq | Hne].
  - assert (Hfrac : x - inject_Z (Qfloor x) < 1 # 2).
    { rewrite Heq. generalize dependent (inject_Z b). intros y Hy. Lqa.lra. }
    unfold round_half_even. rewrite Qlt_alt in Hfrac. rewrite Hfrac. lia.
  - pose proof (round_half_even_floor x). lia.
Qed.

Lemma hundredths_lower (x : Q) (a : Z) : a # 100 <= x -> inject_Z a <= x * 100.
Proof.
  unfold Qle. cbn [Qnum Qden Qmult inject_Z]. intros H.
  rewrite Pos2Z.inj_mul. lia.
Qed.

Lemma hundredths_upper (x : Q) (b : Z) : x <= b # 100 -> x * 100 <= inject_Z b.
Proof.
  unfold Qle. cbn [Qnum Qden Qmult inject_Z]. intros H.
  rewrite Pos2Z.inj_mul. lia.
Qed.

(** [round(x, 2)] keeps bounds by hundredths. *)
Lemma round2_within (x : Q) (a b : Z) :
  a # 100 <= x -> x <= b # 100 -> a # 100 <= round2 x /\ round2 x <= b # 100.
Proof.
  intros Hlo Hhi.
  pose proof (round_half_even_lower _ _ (hundredths_lower _ _ Hlo)) as Ha.
  pose proof (round_half_even_upper _ _ (hundredths_upper _ _ Hhi)) as Hb.
  unfold round2, Qle. cbn [Qnum Qden]. lia.
Qed.

(** A number of hundredths is its own rounding. *)
Lemma round2_exact (x : Q) (a : Z) : x == a # 100 -> round2 x = a # 100.
Proof.
  intros Heq.
  assert (Hlo : a # 100 <= x) by (rewrite Heq; apply Qle_refl).
  assert (Hhi : x <= a # 100) by (rewrite Heq; apply Qle_refl).
  pose proof (round_half_even_lower _ _ (hundredths_lower _ _ Hlo)) as Ha.
  pose proof (round_half_even_upper _ _ (hundredths_upper _ _ Hhi)) as Hb.
  unfold round2. f_equal. lia.
Qed.

End PyRatFacts.

(* ================================================================== *)
(** * More on the sentiment trend *)
(* ================================================================== *)

Module SentimentExtras.
Import PyRat PyRatFacts EmotionalAnalysisAgent SentimentSpec SentimentFacts NewsSamples.
Local Open Scope Q_scope.

Lemma article_score_bounds (news : News) :
  2 # 10 <= article_score news <= 8 # 10.
Proof.
  unfold article_score.
  destruct (String.eqb _ "positive"); [split; discriminate |].
  destruct (String.eqb _ "negative"); split; discriminate.
Qed.

Lemma count_succ (n : nat) :
  inject_Z (Z.of_nat (S n)) == inject_Z (Z.of_nat n) + 1.
Proof. rewrite Nat2Z.inj_succ. unfold Z.succ. rewrite inject_Z_plus. reflexivity. Qed.

Lemma count_positive (n : nat) : n <> O -> 0 < inject_Z (Z.of_nat n).
Proof.
  intros Hn. replace 0 with (inject_Z 0) by reflexivity.
  rewrite <- Zlt_Qlt. lia.
Qed.

(** A sum of scores between [lo] and [hi] lies between [lo] and [hi]
    times their number. *)
Lemma sum_bounds (lo hi : Q) (scores : list Q) :
  Forall (fun x => lo <= x <= hi) scores ->
  lo * inject_Z (Z.of_nat (length scores)) <= fold_right Qplus 0 scores
  /\ fold_right Qplus 0 scores <= hi * inject_Z (Z.of_nat (length scores)).
Proof.
  induction 1 as [| x rest [Hlo Hhi] _ [IHlo IHhi]].
  - cbn. split; ring_simplify; apply Qle_refl.
  - cbn [length fold_right]. rewrite count_succ.
    generalize dependent (inject_Z (Z.of_nat (length rest))).
    generalize (fold_right Qplus 0 rest).
    intros total n IHlo IHhi. split; Lqa.lra.
Qed.

Lemma mean_bounds (lo hi : Q) (scores : list Q) :
  scores <> [] ->
  Forall (fun x => lo <= x <= hi) scores ->
  lo <= mean scores <= hi.
Proof.
  intros Hne Hall. destruct (sum_bounds lo hi scores Hall) as [Hlo Hhi].
  assert (Hn : 0 < inject_Z (Z.of_nat (length scores))).
  { apply count_positive. destruct scores; [congruence | discriminate]. }
  unfold mean. split.
  - apply Qle_shift_div_l; assumption.
  - apply Qle_shift_div_r; assumption.
Qed.

Lemma avg_sentiment_bounds (news_list : list News) :
  2 # 10 <= avg_sentiment news_list <= 8 # 10.
Proof.
  destruct news_list as [| news rest].
  - split; discriminate.
  - rewrite avg_sentiment_mean by discriminate.
    apply mean_bounds; [discriminate |].
    apply Forall_forall. intros x Hx. apply list_elem_of_In in Hx.
    apply in_map_iff in Hx as (n & <- & _). apply article_score_bounds.
Qed.

(** Over exact rationals the change between the halves lies between -0.6
    and 0.6. *)
Lemma sentiment_change_within (news_data : list News) :
  - (6 # 10) <= sentiment_change news_data <= 6 # 10.
Proof.
  unfold sentiment_change.
  pose proof (avg_sentiment_bounds (first_half news_data)) as [H1 H2].
  pose proof (avg_sentiment_bounds (second_half news_data)) as [H3 H4].
  split; Lqa.lra.
Qed.

(** The three rounded entries of the result for a non-empty news list. *)
Lemma rounded_entries (news_data : list News) :
  news_data <> [] ->
  analyze_sentiment_trend news_data !! "first_half_sentiment"%string
    = Some (PyFloat (round2 (avg_sentiment (first_half news_data))))
  /\ analyze_sentiment_trend news_data !! "second_half_sentiment"%string
    = Some (PyFloat (round2 (avg_sentiment (second_half news_data))))
  /\ analyze_sentiment_trend news_data !! "change"%string
    = Some (PyFloat (round2 (sentiment_change news_data))).
Proof.
  intros Hne. destruct news_data as [| news rest]; [contradiction |].
  unfold analyze_sentiment_trend, sentiment_change.
  repeat split;
    repeat (rewrite lookup_insert_eq || rewrite lookup_insert_ne by discriminate);
    reflexivity.
Qed.

(** X9.  For a non-empty news list, the two half averages reported lie
    between 0.2 and 0.8 and the change reported between -0.6 and 0.6,
    all three being rounded to two decimals. *)
Theorem sentiment_entries_bounds (news_data : list News) :
  news_data <> [] ->
  exists first second change : Q,
    analyze_sentiment_trend news_data !! "first_half_sentiment"%string
      = Some (PyFloat first)
    /\ analyze_sentiment_trend news_data !! "second_half_sentiment"%string
      = Some (PyFloat second)
    /\ analyze_sentiment_trend news_data !! "change"%string
      = Some (PyFloat change)
    /\ 2 # 10 <= first <= 8 # 10
    /\ 2 # 10 <= second <= 8 # 10
    /\ - (6 # 10) <= change <= 6 # 10.
Proof.
  intros Hne.
  destruct (rounded_entries news_data Hne) as (Hfirst & Hsecond & Hchange).
  exists (round2 (avg_sentiment (first_half news_data))),
         (round2 (avg_sentiment (second_half news_data))),
         (round2 (sentiment_change news_data)).
  split; [exact Hfirst |]. split; [exact Hsecond |]. split; [exact Hchange |].
  pose proof (avg_sentiment_bounds (first_half news_data)) as [H1 H2].
  pose proof (avg_sentiment_bounds (second_half news_data)) as [H3 H4].
  pose proof (sentiment_change_within news_data) as [H5 H6].
  destruct (round2_within (avg_sentiment (first_half news_data)) 20 80)
    as [R1 R2]; [Lqa.lra | Lqa.lra |].
  destruct (round2_within (avg_sentiment (second_half news_data)) 20 80)
    as [R3 R4]; [Lqa.lra | Lqa.lra |].
  destruct (round2_within (sentiment_change news_data) (-60) 60)
    as [R5 R6]; [Lqa.lra | Lqa.lra |].
  repeat split; Lqa.lra.
Qed.

Lemma sentiment_entries_bounds_witness :
  improving_news <> []
  /\ exists change : Q,
       analyze_sentiment_trend improving_news !! "change"%string
         = Some (PyFloat change)
       /\ - (6 # 10) <= change <= 6 # 10.
Proof.
  assert (Hne : improving_news <> []) by discriminate.
  split; [exact Hne |].
  destruct (sentiment_entries_bounds improving_news Hne)
    as (first & second & change & _ & _ & Hchange & _ & _ & Hbounds).
  exists change. split; [exact Hchange | exact Hbounds].
Defined.

(** ** News that all carry one label *)

Lemma article_score_of_label (label : string) (news : News) :
  default "neutral"%string (sentiment news) = label ->
  article_score news =
    (if String.eqb label "positive" then 8 # 10
     else if String.eqb label "negative" then 2 # 10 else 5 # 10).
Proof. intros <-. reflexivity. Qed.

Lemma avg_sentiment_uniform (score : Q) (news_list : list News) :
  news_list <> [] ->
  Forall (fun news => article_score news = score) news_list ->
  avg_sentiment news_list == score.
Proof.
  intros Hne Hall. rewrite (avg_sentiment_mean _ Hne).
  assert (Hb : score <= mean (map article_score news_list) <= score).
  { apply mean_bounds.
    - destruct news_list; [congruence | discriminate].
    - apply Forall_forall. intros x Hx. apply list_elem_of_In in Hx.
      apply in_map_iff in Hx as (n & <- & Hn).
      rewrite Forall_forall in Hall. rewrite (Hall n) by (apply list_elem_of_In; exact Hn).
      split; apply Qle_refl. }
  apply Qle_antisym; apply Hb.
Qed.

Lemma halves_within (news_data : list News) (news : News) :
  In news (first_half news_data) \/ In news (second_half news_data) ->
  In news news_data.
Proof.
  intros H. apply (Permutation_in _ (Permutation_sym (sorted_perm news_data))).
  rewrite <- halves_append. apply in_or_app. exact H.
Qed.

Lemma halves_not_empty (news_data : list News) :
  (2 <= length news_data)%nat ->
  first_half news_data <> [] /\ second_half news_data <> [].
Proof.
  intros Hlen.
  assert (Hsorted : length (sorted news_data) = length news_data)
    by (symmetry; apply Permutation_length, sorted_perm).
  assert (Hhalf : (1 <= length news_data / 2)%nat)
    by (apply Nat.div_le_lower_bound; lia).
  assert (Hupper : (length news_data / 2 < length news_data)%nat)
    by (apply Nat.div_lt; lia).
  split; intros Hempty; apply (f_equal length) in Hempty; cbn [length] in Hempty.
  - rewrite first_half_length in Hempty. lia.
  - unfold second_half in Hempty. rewrite length_drop, Hsorted in Hempty. lia.
Qed.

(** Over exact rationals, two or more articles that all carry the same
    label give a change of 0. *)
Lemma uniform_news_change (label : string) (news_data : list News) :
  (2 <= length news_data)%nat ->
  all_labelled label news_data ->
  sentiment_change news_data == 0.
Proof.
  intros Hlen Hall.
  destruct (halves_not_empty news_data Hlen) as [Hfirst Hsecond].
  set (score := if String.eqb label "positive" then 8 # 10
                else if String.eqb label "negative" then 2 # 10 else 5 # 10).
  assert (Hscore : forall news, In news news_data -> article_score news = score).
  { intros news Hin. unfold all_labelled in Hall. rewrite Forall_forall in Hall.
    apply article_score_of_label. apply Hall. apply list_elem_of_In. exact Hin. }
  unfold sentiment_change.
  rewrite (avg_sentiment_uniform score (first_half news_data) Hfirst),
          (avg_sentiment_uniform score (second_half news_data) Hsecond).
  - ring.
  - apply Forall_forall. intros n Hn. apply list_elem_of_In in Hn.
    apply Hscore, halves_within. right. exact Hn.
  - apply Forall_forall. intros n Hn. apply list_elem_of_In in Hn.
    apply Hscore, halves_within. left. exact Hn.
Qed.

(** X10.  Two or more articles that all carry the same label give a STABLE
    trend (a single article does not: see C10). *)
Theorem uniform_news_stable (label : string) (news_data : list News) :
  (2 <= length news_data)%nat ->
  all_labelled label news_data ->
  analyze_sentiment_trend news_data !! "trend"%string = Some (PyStr "STABLE").
Proof.
  intros Hlen Hall.
  pose proof (uniform_news_change label news_data Hlen Hall) as Hchange.
  rewrite trend_entry.
  destruct (classify_spec (sentiment_change news_data)) as (_ & _ & Hstable).
  rewrite Hstable; [reflexivity |].
  rewrite Hchange. split; discriminate.
Qed.

Lemma uniform_news_stable_witness :
  (2 <= length cheerful_news)%nat
  /\ all_labelled "positive" cheerful_news
  /\ analyze_sentiment_trend cheerful_news !! "trend"%string = Some (PyStr "STABLE").
Proof.
  assert (Hlen : (2 <= length cheerful_news)%nat) by (simpl; lia).
  assert (Hall : all_labelled "positive" cheerful_news)
    by (repeat constructor).
  split; [exact Hlen |]. split; [exact Hall |].
  exact (uniform_news_stable "positive" cheerful_news Hlen Hall).
Defined.

(** ** The order the news are given in *)

Lemma string_compare_trans (a b c : string) :
  String.compare a b <> Gt -> String.compare b c <> Gt -> String.compare a c <> Gt.
Proof.
  revert b c. induction a as [| x a IH]; intros [| y b] [| z c]; simpl;
    try congruence.
  unfold Ascii.compare.
  destruct (N.compare_spec (Ascii.N_of_ascii x) (Ascii.N_of_ascii y));
    destruct (N.compare_spec (Ascii.N_of_ascii y) (Ascii.N_of_ascii z));
    destruct (N.compare_spec (Ascii.N_of_ascii x) (Ascii.N_of_ascii z));
    intros Hfirst Hsecond; try congruence; try lia.
  apply (IH b c); assumption.
Qed.

Lemma string_leb_iff (a b : string) :
  String.leb a b = true <-> String.compare a b <> Gt.
Proof.
  unfold String.leb. destruct (String.compare a b); split; congruence.
Qed.

Lemma chronological_trans (a b c : News) :
  chronological a b -> chronological b c -> chronological a c.
Proof.
  unfold chronological. rewrite !string_leb_iff. apply string_compare_trans.
Qed.

Lemma sorted_strongly (news_data : list News) :
  StronglySorted chronological (sorted news_data).
Proof.
  apply Sorted_StronglySorted.
  - intros a b c. apply chronological_trans.
  - apply sorted_sorted.
Qed.

(** Two sorted arrangements of the same articles coincide when no two
    articles share a publication time. *)
Lemma sorted_arrangement_unique (l1 l2 : list News) :
  StronglySorted chronological l1 -> StronglySorted chronological l2 ->
  Permutation l1 l2 -> NoDup (map sort_key l1) -> l1 = l2.
Proof.
  intros Hs1. revert l2.
  induction Hs1 as [| a t1 Hs1 IH Ha]; intros l2 Hs2 Hperm Hnodup.
  - apply Permutation_nil in Hperm. subst. reflexivity.
  - destruct l2 as [| b t2].
    { apply Permutation_sym, Permutation_nil in Hperm. discriminate. }
    inversion Hs2 as [| ? ? Hs2' Hb]; subst.
    cbn [map] in Hnodup. apply NoDup_cons in Hnodup as [Hfresh Hnodup].
    assert (Hab : a = b).
    { assert (Hina : In a (b :: t2))
        by (apply (Permutation_in _ Hperm); left; reflexivity).
      assert (Hinb : In b (a :: t1))
        by (apply (Permutation_in _ (Permutation_sym Hperm)); left; reflexivity).
      destruct Hina as [Heq | Hina]; [symmetry; exact Heq |].
      destruct Hinb as [Heq | Hinb]; [exact Heq |].
      exfalso. apply Hfresh.
      rewrite Forall_forall in Ha, Hb.
      assert (Hle1 : chronological a b) by (apply Ha, list_elem_of_In; exact Hinb).
      assert (Hle2 : chronological b a) by (apply Hb, list_elem_of_In; exact Hina).
      assert (Hkey : sort_key a = sort_key b)
        by exact (String.leb_antisym _ _ Hle1 Hle2).
      rewrite Hkey.
      apply list_elem_of_In, in_map. exact Hinb. }
    subst b. f_equal.
    apply IH; [exact Hs2' | exact (Permutation_cons_inv Hperm) | exact Hnodup].
Qed.

Lemma sorted_order_independent (l1 l2 : list News) :
  Permutation l1 l2 -> NoDup (map sort_key l1) -> sorted l1 = sorted l2.
Proof.
  intros Hperm Hnodup.
  apply sorted_arrangement_unique; try apply sorted_strongly.
  - apply perm_trans with l1; [apply Permutation_sym, sorted_perm |].
    apply perm_trans with l2; [exact Hperm | apply sorted_perm].
  - rewrite <- (Permutation_map sort_key (sorted_perm l1)). exact Hnodup.
Qed.

(** X11.  When no two articles share a publication time, the whole result of
    [analyze_sentiment_trend] is the same in whatever order the articles
    are given. *)
Theorem trend_order_independent (l1 l2 : list News) :
  Permutation l1 l2 ->
  NoDup (map sort_key l1) ->
  analyze_sentiment_trend l1 = analyze_sentiment_trend l2.
Proof.
  intros Hperm Hnodup.
  pose proof (sorted_order_independent l1 l2 Hperm Hnodup) as Hsorted.
  destruct l1 as [| a t1]; destruct l2 as [| b t2].
  - reflexivity.
  - apply Permutation_nil in Hperm. discriminate.
  - apply Permutation_sym, Permutation_nil in Hperm. discriminate.
  - unfold analyze_sentiment_trend, first_half, second_half.
    rewrite Hsorted. reflexivity.
Qed.

Lemma trend_order_independent_witness :
  Permutation improving_news (rev improving_news)
  /\ NoDup (map sort_key improving_news)
  /\ analyze_sentiment_trend improving_news
     = analyze_sentiment_trend (rev improving_news).
Proof.
  assert (Hperm : Permutation improving_news (rev improving_news))
    by apply Permutation_rev.
  assert (Hnodup : NoDup (map sort_key improving_news))
    by (apply (bool_decide_unpack _); vm_compute; exact I).
  split; [exact Hperm |]. split; [exact Hnodup |].
  exact (trend_order_independent _ _ Hperm Hnodup).
Defined.

(** Articles published at the same time keep the order they are given
    in, and then the order decides the trend. *)
Example same_time_order_matters :
  Permutation same_day_up same_day_down
  /\ analyze_sentiment_trend same_day_up !! "trend"%string
     = Some (PyStr "IMPROVING")
  /\ analyze_sentiment_trend same_day_down !! "trend"%string
     = Some (PyStr "DETERIORATING").
Proof.
  split; [apply perm_swap |]. split; reflexivity.
Qed.

End SentimentExtras.

(* ================================================================== *)
(** * Sentiment by news category *)
(* ================================================================== *)

Module CategoryFacts.
Import PyRat EmotionalAnalysisAgent NewsCategories.
Local Open Scope Z_scope.

Lemma accepted_label_cases (key : string) :
  accepted_label key = true <->
  key = "positive"%string \/ key = "negative"%string
  \/ key = "neutral"%string \/ key = "total"%string.
Proof.
  unfold accepted_label. rewrite !Bool.orb_true_iff, !String.eqb_eq. tauto.
Qed.

Lemma fresh_four_keys : four_keys fresh_counts.
Proof.
  intros key. rewrite accepted_label_cases.
  destruct (String.eqb_spec key "positive") as [-> | Hpositive];
    [split; [tauto | intros _; exists 0; reflexivity] |].
  destruct (String.eqb_spec key "negative") as [-> | Hnegative];
    [split; [tauto | intros _; exists 0; reflexivity] |].
  destruct (String.eqb_spec key "neutral") as [-> | Hneutral];
    [split; [tauto | intros _; exists 0; reflexivity] |].
  destruct (String.eqb_spec key "total") as [-> | Htotal];
    [split; [tauto | intros _; exists 0; reflexivity] |].
  unfold fresh_counts. rewrite !lookup_insert_ne by congruence.
  rewrite lookup_empty. split; [intros [v Hv]; discriminate | tauto].
Qed.

Lemma fresh_counts_zero (key : string) :
  accepted_label key = true -> fresh_counts !!! key = 0.
Proof.
  rewrite accepted_label_cases.
  intros [-> | [-> | [-> | ->]]]; reflexivity.
Qed.

Lemma increment_rejected (key : string) (counts : gmap string Z) :
  four_keys counts -> accepted_label key = false ->
  increment key counts = KeyError key.
Proof.
  intros Hkeys Hrej. unfold increment.
  destruct (counts !! key) eqn:Hlook; [| reflexivity].
  assert (Hacc : accepted_label key = true) by (apply Hkeys; eauto).
  congruence.
Qed.

Lemma increment_accepted (key : string) (counts : gmap string Z) :
  four_keys counts -> accepted_label key = true ->
  exists counted,
    increment key counts = Returned counted
    /\ four_keys counted
    /\ forall k, counted !!! k = counts !!! k + bump (String.eqb k key).
Proof.
  intros Hkeys Hacc. unfold increment.
  destruct (proj2 (Hkeys key) Hacc) as [v Hv]. rewrite Hv.
  exists (<[key := v + 1]> counts). split; [reflexivity |]. split.
  - intros k. rewrite <- (Hkeys k). rewrite lookup_insert.
    case_decide; subst; [| tauto]. split; intros _; eauto.
  - intros k. unfold bump. destruct (String.eqb_spec k key) as [-> | Hne].
    + rewrite lookup_total_insert_eq. rewrite (lookup_total_correct _ _ _ Hv). reflexivity.
    + rewrite lookup_total_insert_ne by congruence. lia.
Qed.

Lemma default_four_keys (categories : gmap string (gmap string Z)) (c : string) :
  all_four_keys categories ->
  four_keys (default fresh_counts (categories !! c)).
Proof.
  intros Hall. destruct (categories !! c) as [counts |] eqn:Hc; cbn.
  - exact (Hall c counts Hc).
  - exact fresh_four_keys.
Qed.

Lemma default_tally (categories : gmap string (gmap string Z)) (c key : string) :
  accepted_label key = true ->
  default fresh_counts (categories !! c) !!! key = tally categories c key.
Proof.
  intros Hacc. unfold tally. destruct (categories !! c); cbn;
    [reflexivity | apply fresh_counts_zero; exact Hacc].
Qed.

Lemma count_article_rejected (categories : gmap string (gmap string Z)) (news : News) :
  all_four_keys categories -> accepted_label (label_of news) = false ->
  count_article categories news = KeyError (label_of news).
Proof.
  intros Hall Hrej. unfold count_article.
  rewrite (increment_rejected _ _ (default_four_keys _ _ Hall) Hrej). reflexivity.
Qed.

(** An accepted label adds one to its own count and one to the total of
    the article's category, and touches nothing else. *)
Lemma count_article_accepted (categories : gmap string (gmap string Z)) (news : News) :
  all_four_keys categories -> accepted_label (label_of news) = true ->
  exists counted,
    count_article categories news = Returned counted
    /\ all_four_keys counted
    /\ (forall c, is_Some (counted !! c)
                  <-> is_Some (categories !! c) \/ c = category_of news)
    /\ forall c key, accepted_label key = true ->
         tally counted c key
         = tally categories c key
           + bump (String.eqb (category_of news) c && String.eqb (label_of news) key)
           + bump (String.eqb (category_of news) c && String.eqb "total" key).
Proof.
  intros Hall Hacc. unfold count_article.
  destruct (increment_accepted _ _ (default_four_keys _ (category_of news) Hall) Hacc)
    as (counted & Hinc1 & Hkeys1 & Hread1).
  rewrite Hinc1.
  destruct (increment_accepted "total" counted Hkeys1 eq_refl)
    as (totalled & Hinc2 & Hkeys2 & Hread2).
  rewrite Hinc2. eexists. split; [reflexivity |]. split; [| split].
  - intros c counts. rewrite lookup_insert. case_decide; subst.
    + intros [= <-]. exact Hkeys2.
    + apply Hall.
  - intros c. rewrite lookup_insert. case_decide; subst.
    + split; [intros _; right; reflexivity | intros _; eauto].
    + split; [intros H'; left; exact H' | intros [H' | H']; [exact H' | congruence]].
  - intros c key Hkey. unfold tally at 1. rewrite lookup_insert.
    destruct (String.eqb_spec (category_of news) c) as [Hc | Hc].
    + rewrite decide_True by exact Hc. subst c.
      rewrite Hread2, Hread1, (default_tally _ _ _ Hkey). cbn [andb].
      rewrite (String.eqb_sym key (label_of news)), (String.eqb_sym key "total").
      lia.
    + rewrite decide_False by exact Hc. fold (tally categories c key).
      cbn [andb bump]. lia.
Qed.

Lemma filter_length_cons {A : Type} (f : A -> bool) (x : A) (l : list A) :
  Z.of_nat (length (List.filter f (x :: l)))
  = bump (f x) + Z.of_nat (length (List.filter f l)).
Proof.
  cbn [List.filter]. destruct (f x); cbn [length bump]; lia.
Qed.

(** The first loop on accepted labels: every count is what it was plus
    the articles of the category with that label, the total taking one
    more for each article of the category. *)
Lemma count_articles_accepted (news_data : list News)
    (categories : gmap string (gmap string Z)) :
  all_four_keys categories ->
  Forall (fun news => accepted_label (label_of news) = true) news_data ->
  exists counted,
    count_articles news_data categories = Returned counted
    /\ all_four_keys counted
    /\ (forall c, is_Some (counted !! c)
                  <-> is_Some (categories !! c) \/ in_category c news_data <> 0)
    /\ forall c key, accepted_label key = true ->
         tally counted c key
         = tally categories c key
           + in_category_with c key news_data
           + (if String.eqb "total" key then in_category c news_data else 0).
Proof.
  revert categories.
  induction news_data as [| news rest IH]; intros categories Hall Hlabels.
  - exists categories. split; [reflexivity |]. split; [exact Hall |]. split.
    + intros c. split; [intros H; left; exact H
               | intros [H | H]; [exact H | exfalso; apply H; reflexivity]].
    + intros c key _. unfold in_category_with, in_category.
      cbn [List.filter length].
      destruct (String.eqb "total" key); lia.
  - apply Forall_cons in Hlabels as [Hlabel Hrest].
    destruct (count_article_accepted categories news Hall Hlabel)
      as (first & Hfirst & Hall1 & Hdom1 & Hread1).
    destruct (IH first Hall1 Hrest) as (counted & Hcounted & Hall2 & Hdom2 & Hread2).
    exists counted. cbn [count_articles]. rewrite Hfirst.
    split; [exact Hcounted |]. split; [exact Hall2 |]. split.
    + intros c. rewrite Hdom2, Hdom1. unfold in_category.
      rewrite filter_length_cons.
      destruct (String.eqb_spec (category_of news) c) as [Hc | Hc]; cbn [bump].
      * split; [intros _; right; lia | intros _; left; right; congruence].
      * split; [intros [[H | H] | H]; [left; exact H | congruence | right; lia]
               | intros [H | H]; [left; left; exact H | right; lia]].
    + intros c key Hkey. rewrite (Hread2 c key Hkey), (Hread1 c key Hkey).
      unfold in_category_with, in_category. rewrite !filter_length_cons.
      destruct (String.eqb (category_of news) c);
        destruct (String.eqb "total" key); cbn [andb bump]; lia.
Qed.

(** The first loop stops at the first label it does not accept. *)
Lemma count_articles_outcome (news_data : list News)
    (categories : gmap string (gmap string Z)) :
  all_four_keys categories ->
  match List.find (fun news => negb (accepted_label (label_of news))) news_data with
  | Some news => count_articles news_data categories = KeyError (label_of news)
  | None => exists counted, count_articles news_data categories = Returned counted
  end.
Proof.
  revert categories.
  induction news_data as [| news rest IH]; intros categories Hall.
  - exists categories. reflexivity.
  - cbn [List.find count_articles].
    destruct (accepted_label (label_of news)) eqn:Hlabel; cbn [negb].
    + destruct (count_article_accepted categories news Hall Hlabel)
        as (first & Hfirst & Hall1 & _).
      rewrite Hfirst. apply IH. exact Hall1.
    + rewrite (count_article_rejected categories news Hall Hlabel). reflexivity.
Qed.

Lemma empty_all_four_keys : all_four_keys ∅.
Proof. intros c counts H. rewrite lookup_empty in H. discriminate. Qed.

(** The second loop only reads counts that are there. *)
Lemma counted_keys_present (news_data : list News)
    (counted : gmap string (gmap string Z)) :
  count_articles news_data ∅ = Returned counted -> all_four_keys counted.
Proof.
  intros Hcounted.
  pose proof (count_articles_outcome news_data ∅ empty_all_four_keys) as Hout.
  destruct (List.find _ news_data) as [bad |] eqn:Hfind.
  - rewrite Hout in Hcounted. discriminate.
  - assert (Hlabels : Forall (fun news => accepted_label (label_of news) = true) news_data).
    { apply Forall_forall. intros news Hin. apply list_elem_of_In in Hin.
      pose proof (find_none _ _ Hfind news Hin) as Hnone. cbn in Hnone.
      destruct (accepted_label (label_of news)); [reflexivity | discriminate]. }
    destruct (count_articles_accepted news_data ∅ empty_all_four_keys Hlabels)
      as (counted' & Heq & Hall & _).
    rewrite Heq in Hcounted. injection Hcounted as <-. exact Hall.
Qed.

End CategoryFacts.

Module CategoryClaims.
Import PyRat EmotionalAnalysisAgent NewsCategories CategoryFacts.
Local Open Scope Z_scope.

(** X12.  [categorize_news_sentiment] raises a KeyError at the first article
    whose label is not a key of the count dict (positive, negative,
    neutral, total), with that label as the key, and returns when there is
    no such article. *)
Theorem categorize_key_error (news_data : list News) :
  match List.find (fun news => negb (accepted_label (label_of news))) news_data with
  | Some news => categorize_news_sentiment news_data = KeyError (label_of news)
  | None => exists categories, categorize_news_sentiment news_data = Returned categories
  end.
Proof.
  unfold categorize_news_sentiment.
  pose proof (count_articles_outcome news_data ∅ empty_all_four_keys) as Hout.
  destruct (List.find _ news_data) as [bad |].
  - rewrite Hout. reflexivity.
  - destruct Hout as [counted Hcounted]. rewrite Hcounted. eauto.
Qed.

Lemma sentiment_label_accepted (label : string) :
  sentiment_label label = true -> accepted_label label = true.
Proof.
  unfold sentiment_label, accepted_label. intros ->. reflexivity.
Qed.

Lemma no_total_label (c : string) (news_data : list News) :
  Forall (fun news => sentiment_label (label_of news) = true) news_data ->
  in_category_with c "total" news_data = 0.
Proof.
  unfold in_category_with. induction 1 as [| news rest Hlabel _ IH].
  - reflexivity.
  - rewrite filter_length_cons, IH.
    assert (Hne : String.eqb (label_of news) "total" = false).
    { unfold sentiment_label in Hlabel.
      destruct (String.eqb_spec (label_of news) "total") as [Heq | Hne];
        [rewrite Heq in Hlabel; discriminate | reflexivity]. }
    rewrite Hne, Bool.andb_false_r. reflexivity.
Qed.

Lemma labels_split (c : string) (news_data : list News) :
  Forall (fun news => sentiment_label (label_of news) = true) news_data ->
  in_category c news_data
  = in_category_with c "positive" news_data
    + in_category_with c "negative" news_data
    + in_category_with c "neutral" news_data.
Proof.
  unfold in_category, in_category_with. induction 1 as [| news rest Hlabel _ IH].
  - reflexivity.
  - rewrite !filter_length_cons, IH.
    unfold sentiment_label in Hlabel.
    destruct (String.eqb (category_of news) c); cbn [andb bump]; [| lia].
    destruct (String.eqb_spec (label_of news) "positive") as [Hp | Hp];
      destruct (String.eqb_spec (label_of news) "negative") as [Hn | Hn];
      destruct (String.eqb_spec (label_of news) "neutral") as [Hu | Hu];
      cbn [bump orb] in *;
      first [lia | discriminate Hlabel | exfalso; congruence].
Qed.

Lemma in_category_with_nonneg (c label : string) (news_data : list News) :
  0 <= in_category_with c label news_data.
Proof. unfold in_category_with. lia. Qed.

(** The counts the first loop leaves for each category. *)
Lemma counted_category (news_data : list News) :
  Forall (fun news => sentiment_label (label_of news) = true) news_data ->
  exists counted,
    count_articles news_data ∅ = Returned counted
    /\ forall c,
         (in_category c news_data = 0 -> counted !! c = None)
         /\ (in_category c news_data <> 0 ->
             exists counts,
               counted !! c = Some counts
               /\ four_keys counts
               /\ counts !!! "positive"%string = in_category_with c "positive" news_data
               /\ counts !!! "negative"%string = in_category_with c "negative" news_data
               /\ counts !!! "neutral"%string = in_category_with c "neutral" news_data
               /\ counts !!! "total"%string = in_category c news_data).
Proof.
  intros Hlabels.
  assert (Haccepted : Forall (fun news => accepted_label (label_of news) = true) news_data).
  { eapply Forall_impl; [exact Hlabels |]. intros news. apply sentiment_label_accepted. }
  destruct (count_articles_accepted news_data ∅ empty_all_four_keys Haccepted)
    as (counted & Hcounted & Hall & Hdom & Hread).
  exists counted. split; [exact Hcounted |]. intros c. split.
  - intros Hnone. destruct (counted !! c) eqn:Hc; [| reflexivity].
    exfalso. destruct (proj1 (Hdom c)) as [[x Hx] | Hx]; [eauto | |].
    + rewrite lookup_empty in Hx. discriminate.
    + apply Hx. exact Hnone.
  - intros Hsome. destruct (proj2 (Hdom c) (or_intror Hsome)) as [counts Hcounts].
    exists counts. split; [exact Hcounts |]. split; [exact (Hall c counts Hcounts) |].
    pose proof (Hread c "positive"%string eq_refl) as Hp.
    pose proof (Hread c "negative"%string eq_refl) as Hn.
    pose proof (Hread c "neutral"%string eq_refl) as Hu.
    pose proof (Hread c "total"%string eq_refl) as Ht.
    unfold tally in Hp, Hn, Hu, Ht.
    rewrite Hcounts, lookup_empty in Hp, Hn, Hu, Ht.
    rewrite (no_total_label c news_data Hlabels) in Ht.
    cbn in Hp, Hn, Hu, Ht.
    repeat split; lia.
Qed.

Lemma summarize_count (counts : gmap string Z) (key : string) :
  four_keys counts -> accepted_label key = true ->
  summarize counts !! key = Some (PyInt (counts !!! key)).
Proof.
  intros Hkeys Hkey.
  destruct (proj2 (Hkeys key) Hkey) as [v Hv].
  rewrite (lookup_total_correct _ _ _ Hv).
  assert (Hdata : (PyInt <$> counts : gmap string pyval) !! key = Some (PyInt v))
    by (rewrite lookup_fmap, Hv; reflexivity).
  apply accepted_label_cases in Hkey.
  unfold summarize. destruct (0 <? counts !!! "total"%string); [| exact Hdata].
  rewrite !lookup_insert_ne; [exact Hdata | |];
    destruct Hkey as [-> | [-> | [-> | ->]]]; discriminate.
Qed.

Lemma summarize_score (counts : gmap string Z) :
  0 < counts !!! "total"%string ->
  summarize counts !! "sentiment_score"%string
    = Some (PyFloat (round2 (avg_score counts)))
  /\ summarize counts !! "overall_sentiment"%string
    = Some (PyStr (overall_sentiment (avg_score counts))).
Proof.
  intros Htotal. unfold summarize.
  apply Z.ltb_lt in Htotal. rewrite Htotal. split.
  - apply lookup_insert_eq.
  - rewrite lookup_insert_ne by discriminate. apply lookup_insert_eq.
Qed.

Lemma category_entries (news_data : list News) :
  Forall (fun news => sentiment_label (label_of news) = true) news_data ->
  exists categories,
    categorize_news_sentiment news_data = Returned categories
    /\ forall c,
         (in_category c news_data = 0 -> categories !! c = None)
         /\ (in_category c news_data <> 0 ->
             exists data,
               categories !! c = Some data
               /\ data !! "positive"%string
                  = Some (PyInt (in_category_with c "positive" news_data))
               /\ data !! "negative"%string
                  = Some (PyInt (in_category_with c "negative" news_data))
               /\ data !! "neutral"%string
                  = Some (PyInt (in_category_with c "neutral" news_data))
               /\ data !! "total"%string = Some (PyInt (in_category c news_data))
               /\ in_category c news_data
                  = in_category_with c "positive" news_data
                    + in_category_with c "negative" news_data
                    + in_category_with c "neutral" news_data).
Proof.
  intros Hlabels.
  destruct (counted_category news_data Hlabels) as (counted & Hcounted & Hentries).
  unfold categorize_news_sentiment. rewrite Hcounted.
  eexists. split; [reflexivity |]. intros c.
  destruct (Hentries c) as [Hnone Hsome]. split.
  - intros Hzero. rewrite lookup_fmap, (Hnone Hzero). reflexivity.
  - intros Hnonzero.
    destruct (Hsome Hnonzero) as (counts & Hc & Hkeys & Hp & Hn & Hu & Ht).
    exists (summarize counts). rewrite lookup_fmap, Hc.
    split; [reflexivity |].
    rewrite <- Hp, <- Hn, <- Hu, <- Ht.
    repeat split; try (apply summarize_count; [exact Hkeys | reflexivity]).
    rewrite Ht, Hp, Hn, Hu. apply labels_split. exact Hlabels.
Qed.

(** X13.  When every article carries one of the three sentiment labels, the
    call returns; a category without articles has no entry, and the entry
    of any other category counts its positive, negative and neutral
    articles, with a total that is their sum and the number of articles of
    the category. *)
Theorem category_counts (news_data : list News) :
  Forall (fun news => sentiment_label (label_of news) = true) news_data ->
  exists categories,
    categorize_news_sentiment news_data = Returned categories
    /\ forall c,
         (in_category c news_data = 0 -> categories !! c = None)
         /\ (in_category c news_data <> 0 ->
             exists data,
               categories !! c = Some data
               /\ data !! "positive"%string
                  = Some (PyInt (in_category_with c "positive" news_data))
               /\ data !! "negative"%string
                  = Some (PyInt (in_category_with c "negative" news_data))
               /\ data !! "neutral"%string
                  = Some (PyInt (in_category_with c "neutral" news_data))
               /\ data !! "total"%string = Some (PyInt (in_category c news_data))
               /\ in_category c news_data
                  = in_category_with c "positive" news_data
                    + in_category_with c "negative" news_data
                    + in_category_with c "neutral" news_data).
Proof. apply category_entries. Qed.

Lemma category_counts_witness :
  Forall (fun news => sentiment_label (label_of news) = true) filed_news
  /\ exists categories data,
       categorize_news_sentiment filed_news = Returned categories
       /\ categories !! "earnings"%string = Some data
       /\ data !! "positive"%string = Some (PyInt 2)
       /\ data !! "total"%string = Some (PyInt 2)
       /\ categories !! "markets"%string = None.
Proof.
  assert (Hlabels : Forall (fun news => sentiment_label (label_of news) = true) filed_news)
    by (repeat constructor).
  split; [exact Hlabels |].
  destruct (category_counts filed_news Hlabels) as (categories & Hreturned & Hentries).
  destruct (Hentries "earnings"%string) as [_ Hearnings].
  destruct Hearnings as (data & Hdata & Hpositive & _ & _ & Htotal & _);
    [discriminate |].
  destruct (Hentries "markets"%string) as [Hmarkets _].
  exists categories, data. split; [exact Hreturned |]. split; [exact Hdata |].
  split; [exact Hpositive |]. split; [exact Htotal |].
  apply Hmarkets. reflexivity.
Defined.

End CategoryClaims.

Module CategoryScores.
Import PyRat PyRatFacts EmotionalAnalysisAgent NewsCategories CategoryFacts CategoryClaims.
Local Open Scope Q_scope.

Lemma overall_sentiment_spec (score : Q) :
  (6 # 10 < score -> overall_sentiment score = "POSITIVE"%string)
  /\ (score < 4 # 10 -> overall_sentiment score = "NEGATIVE"%string)
  /\ (4 # 10 <= score <= 6 # 10 -> overall_sentiment score = "NEUTRAL"%string).
Proof.
  unfold overall_sentiment.
  destruct (Qlt_le_dec (6 # 10) score) as [Hup | Hnup];
    [| destruct (Qlt_le_dec score (4 # 10)) as [Hdown | Hndown]];
    repeat split; intros; first [reflexivity | exfalso; Lqa.lra].
Qed.

(** A weighted mean of 0.8, 0.2 and 0.5 lies between 0.2 and 0.8. *)
Lemma weighted_score_bounds (p n u : Z) :
  (0 <= p)%Z -> (0 <= n)%Z -> (0 <= u)%Z -> (0 < p + n + u)%Z ->
  2 # 10
  <= (inject_Z p * (8 # 10) + inject_Z n * (2 # 10) + inject_Z u * (5 # 10))
     / inject_Z (p + n + u)
  <= 8 # 10.
Proof.
  intros Hp Hn Hu Ht.
  assert (Hsum : inject_Z (p + n + u) == inject_Z p + inject_Z n + inject_Z u)
    by (rewrite !inject_Z_plus; reflexivity).
  assert (Hpos : 0 < inject_Z (p + n + u))
    by (replace 0 with (inject_Z 0) by reflexivity; rewrite <- Zlt_Qlt; exact Ht).
  assert (Hp' : 0 <= inject_Z p)
    by (replace 0 with (inject_Z 0) by reflexivity; rewrite <- Zle_Qle; exact Hp).
  assert (Hn' : 0 <= inject_Z n)
    by (replace 0 with (inject_Z 0) by reflexivity; rewrite <- Zle_Qle; exact Hn).
  assert (Hu' : 0 <= inject_Z u)
    by (replace 0 with (inject_Z 0) by reflexivity; rewrite <- Zle_Qle; exact Hu).
  split.
  - apply Qle_shift_div_l; [exact Hpos |]. rewrite Hsum.
    generalize dependent (inject_Z p). generalize dependent (inject_Z n).
    generalize dependent (inject_Z u). intros. Lqa.lra.
  - apply Qle_shift_div_r; [exact Hpos |]. rewrite Hsum.
    generalize dependent (inject_Z p). generalize dependent (inject_Z n).
    generalize dependent (inject_Z u). intros. Lqa.lra.
Qed.

(** The weighted mean of a category whose articles all carry one label
    is the score of that label. *)
Lemma score_of_one_label (total : Z) (a b c : Q) :
  (0 < total)%Z ->
  (inject_Z total * a + inject_Z 0 * b + inject_Z 0 * c) / inject_Z total == a
  /\ (inject_Z 0 * a + inject_Z total * b + inject_Z 0 * c) / inject_Z total == b
  /\ (inject_Z 0 * a + inject_Z 0 * b + inject_Z total * c) / inject_Z total == c.
Proof.
  intros Htotal.
  assert (Hne : ~ inject_Z total == 0).
  { intros Heq. assert (Hpos : 0 < inject_Z total).
    { replace 0 with (inject_Z 0) by reflexivity. rewrite <- Zlt_Qlt. exact Htotal. }
    rewrite Heq in Hpos. discriminate Hpos. }
  change (inject_Z 0) with 0.
  repeat split; field; exact Hne.
Qed.

Lemma overall_sentiment_labels (score : Q) :
  overall_sentiment score = "POSITIVE"%string
  \/ overall_sentiment score = "NEGATIVE"%string
  \/ overall_sentiment score = "NEUTRAL"%string.
Proof.
  unfold overall_sentiment.
  destruct (Qlt_le_dec (6 # 10) score); [left; reflexivity |].
  destruct (Qlt_le_dec score (4 # 10)); [right; left | right; right]; reflexivity.
Qed.

(** X14.  When every article carries one of the three sentiment labels, every
    category of the result has a score and an overall label: the score,
    rounded to two decimals, lies between 0.2 and 0.8, and the label is
    POSITIVE, NEGATIVE or NEUTRAL.  A category whose articles are all
    positive scores 0.8 and is POSITIVE, one whose articles are all
    negative scores 0.2 and is NEGATIVE, and one whose articles are all
    neutral scores 0.5 and is NEUTRAL. *)
Theorem category_score (news_data : list News)
    (categories : gmap string (gmap string pyval))
    (c : string) (data : gmap string pyval) :
  Forall (fun news => sentiment_label (label_of news) = true) news_data ->
  categorize_news_sentiment news_data = Returned categories ->
  categories !! c = Some data ->
  (exists (score : Q) (label : string),
     data !! "sentiment_score"%string = Some (PyFloat score)
     /\ data !! "overall_sentiment"%string = Some (PyStr label)
     /\ 2 # 10 <= score <= 8 # 10
     /\ (label = "POSITIVE"%string \/ label = "NEGATIVE"%string
         \/ label = "NEUTRAL"%string))
  /\ (in_category_with c "positive" news_data = in_category c news_data ->
      data !! "sentiment_score"%string = Some (PyFloat (80 # 100))
      /\ data !! "overall_sentiment"%string = Some (PyStr "POSITIVE"))
  /\ (in_category_with c "negative" news_data = in_category c news_data ->
      data !! "sentiment_score"%string = Some (PyFloat (20 # 100))
      /\ data !! "overall_sentiment"%string = Some (PyStr "NEGATIVE"))
  /\ (in_category_with c "neutral" news_data = in_category c news_data ->
      data !! "sentiment_score"%string = Some (PyFloat (50 # 100))
      /\ data !! "overall_sentiment"%string = Some (PyStr "NEUTRAL")).
Proof.
  intros Hlabels Hreturned Hdata.
  destruct (counted_category news_data Hlabels) as (counted & Hcounted & Hentries).
  unfold categorize_news_sentiment in Hreturned. rewrite Hcounted in Hreturned.
  injection Hreturned as <-.
  rewrite lookup_fmap in Hdata.
  destruct (Hentries c) as [Hnone Hsome].
  destruct (Z.eq_dec (in_category c news_data) 0%Z) as [Hzero | Hnonzero].
  { rewrite (Hnone Hzero) in Hdata. discriminate. }
  destruct (Hsome Hnonzero) as (counts & Hc & Hkeys & Hp & Hn & Hu & Ht).
  rewrite Hc in Hdata. injection Hdata as <-.
  assert (Hpos : (0 < in_category c news_data)%Z)
    by (unfold in_category in *; lia).
  assert (Htotal : (0 < counts !!! "total"%string)%Z) by (rewrite Ht; exact Hpos).
  destruct (summarize_score counts Htotal) as [Hs Ho].
  pose proof (labels_split c news_data Hlabels) as Hsplit.
  pose proof (in_category_with_nonneg c "positive" news_data) as Hp0.
  pose proof (in_category_with_nonneg c "negative" news_data) as Hn0.
  pose proof (in_category_with_nonneg c "neutral" news_data) as Hu0.
  assert (Hscore : avg_score counts
    = (inject_Z (in_category_with c "positive" news_data) * (8 # 10)
       + inject_Z (in_category_with c "negative" news_data) * (2 # 10)
       + inject_Z (in_category_with c "neutral" news_data) * (5 # 10))
      / inject_Z (in_category c news_data)).
  { unfold avg_score. rewrite Hp, Hn, Hu, Ht. reflexivity. }
  destruct (score_of_one_label (in_category c news_data)
              (8 # 10) (2 # 10) (5 # 10) Hpos) as (Hall_p & Hall_n & Hall_u).
  split; [| split; [| split]].
  - exists (round2 (avg_score counts)), (overall_sentiment (avg_score counts)).
    split; [exact Hs |]. split; [exact Ho |].
    split; [| apply overall_sentiment_labels].
    assert (Hbounds : 2 # 10 <= avg_score counts <= 8 # 10).
    { rewrite Hscore, Hsplit.
      apply weighted_score_bounds; try assumption. rewrite <- Hsplit. exact Hpos. }
    destruct Hbounds as [Hlo Hhi].
    destruct (round2_within (avg_score counts) 20 80) as [R1 R2];
      [Lqa.lra | Lqa.lra |].
    split; Lqa.lra.
  - intros Hall.
    assert (Hvalue : avg_score counts == 80 # 100).
    { rewrite Hscore.
      replace (in_category_with c "negative" news_data) with 0%Z by lia.
      replace (in_category_with c "neutral" news_data) with 0%Z by lia.
      rewrite Hall, Hall_p. reflexivity. }
    rewrite Hs, Ho, (round2_exact _ _ Hvalue).
    destruct (overall_sentiment_spec (avg_score counts)) as (Hup & _ & _).
    rewrite Hup by (rewrite Hvalue; reflexivity). split; reflexivity.
  - intros Hall.
    assert (Hvalue : avg_score counts == 20 # 100).
    { rewrite Hscore.
      replace (in_category_with c "positive" news_data) with 0%Z by lia.
      replace (in_category_with c "neutral" news_data) with 0%Z by lia.
      rewrite Hall, Hall_n. reflexivity. }
    rewrite Hs, Ho, (round2_exact _ _ Hvalue).
    destruct (overall_sentiment_spec (avg_score counts)) as (_ & Hdown & _).
    rewrite Hdown by (rewrite Hvalue; reflexivity). split; reflexivity.
  - intros Hall.
    assert (Hvalue : avg_score counts == 50 # 100).
    { rewrite Hscore.
      replace (in_category_with c "positive" news_data) with 0%Z by lia.
      replace (in_category_with c "negative" news_data) with 0%Z by lia.
      rewrite Hall, Hall_u. reflexivity. }
    rewrite Hs, Ho, (round2_exact _ _ Hvalue).
    destruct (overall_sentiment_spec (avg_score counts)) as (_ & _ & Hmid).
    rewrite Hmid by (rewrite Hvalue; split; discriminate). split; reflexivity.
Qed.

Lemma category_score_witness :
  exists categories data,
    categorize_news_sentiment filed_news = Returned categories
    /\ categories !! "product"%string = Some data
    /\ in_category_with "product" "negative" filed_news
       = in_category "product" filed_news
    /\ data !! "overall_sentiment"%string = Some (PyStr "NEGATIVE")
    /\ data !! "sentiment_score"%string = Some (PyFloat (20 # 100)).
Proof.
  assert (Hlabels : Forall (fun news => sentiment_label (label_of news) = true) filed_news)
    by (repeat constructor).
  assert (Hall : in_category_with "product" "negative" filed_news
                 = in_category "product" filed_news) by reflexivity.
  destruct (category_entries filed_news Hlabels) as (categories & Hreturned & Hentries).
  destruct (Hentries "product"%string) as [_ Hproduct].
  destruct Hproduct as (data & Hdata & _); [discriminate |].
  exists categories, data. split; [exact Hreturned |]. split; [exact Hdata |].
  split; [exact Hall |].
  destruct (category_score filed_news categories "product" data
              Hlabels Hreturned Hdata) as (_ & _ & Hnegative & _).
  destruct (Hnegative Hall) as [Hscore Hoverall].
  split; [exact Hoverall | exact Hscore].
Defined.

End CategoryScores.

(* ================================================================== *)
(** * The alert page *)
(* ================================================================== *)

Module AlertsPageFacts.
Import AlertTypes AlertsPage.

(** X18.  The two colour maps never give two alert types, or two statuses, the
    same colour. *)
Theorem colours_distinguish :
  (forall a b : AlertType, getAlertTypeColor a = getAlertTypeColor b -> a = b)
  /\ (forall a b : AlertStatus, getStatusColor a = getStatusColor b -> a = b).
Proof.
  split; intros [] []; cbn; intros H; first [reflexivity | discriminate H].
Qed.

Lemma colours_distinguish_witness :
  getStatusColor TRIGGERED <> getStatusColor ACKNOWLEDGED.
Proof.
  intros H. apply (proj2 colours_distinguish) in H. discriminate H.
Defined.

Lemma tables_permutation (alerts : list Alert) :
  Permutation alerts
    (triggeredAlerts alerts ++ pendingAlerts alerts ++ acknowledgedAlerts alerts).
Proof.
  unfold triggeredAlerts, pendingAlerts, acknowledgedAlerts.
  induction alerts as [| a rest IH]; [apply perm_nil |].
  cbn [List.filter]. destruct (status a); cbn [AlertStatus_eqb].
  - apply Permutation_cons_app. rewrite app_assoc.
    apply Permutation_trans with (1 := IH). rewrite <- app_assoc. reflexivity.
  - cbn [app]. apply perm_skip. exact IH.
  - rewrite app_assoc. apply Permutation_cons_app. rewrite <- app_assoc. exact IH.
Qed.

(** X19.  The three tables of the page share out the alerts: together they hold
    every alert exactly once, an alert is in the table of its status and in
    no other, and the acknowledge button is offered on the rows of the
    triggered table and on no other row. *)
Theorem tables_partition (alerts : list Alert) :
  Permutation alerts
    (triggeredAlerts alerts ++ pendingAlerts alerts ++ acknowledgedAlerts alerts)
  /\ length alerts
     = (length (triggeredAlerts alerts) + length (pendingAlerts alerts)
        + length (acknowledgedAlerts alerts))%nat
  /\ (forall a,
        (In a (triggeredAlerts alerts) <-> In a alerts /\ status a = TRIGGERED)
        /\ (In a (pendingAlerts alerts) <-> In a alerts /\ status a = PENDING)
        /\ (In a (acknowledgedAlerts alerts)
            <-> In a alerts /\ status a = ACKNOWLEDGED))
  /\ (forall a, In a alerts ->
        (acknowledge_button_shown a = true <-> In a (triggeredAlerts alerts))).
Proof.
  split; [apply tables_permutation |]. split.
  { rewrite (Permutation_length (tables_permutation alerts)) at 1.
    rewrite !length_app. lia. }
  assert (Hstatus : forall a s, AlertStatus_eqb (status a) s = true <-> status a = s)
    by (intros a s; destruct (status a), s; cbn; split; congruence).
  split.
  - intros a. unfold triggeredAlerts, pendingAlerts, acknowledgedAlerts.
    rewrite !filter_In, !Hstatus. tauto.
  - intros a Hin. unfold acknowledge_button_shown, triggeredAlerts.
    rewrite filter_In, !Hstatus. tauto.
Qed.

Lemma tables_partition_witness :
  In (page_alert TRIGGERED 5 5) page_alerts
  /\ acknowledge_button_shown (page_alert TRIGGERED 5 5) = true
  /\ In (page_alert TRIGGERED 5 5) (triggeredAlerts page_alerts).
Proof.
  assert (Hin : In (page_alert TRIGGERED 5 5) page_alerts)
    by (right; left; reflexivity).
  split; [exact Hin |]. split; [reflexivity |].
  apply (proj2 (proj2 (proj2 (tables_partition page_alerts))) _ Hin).
  reflexivity.
Defined.

Local Open Scope Q_scope.

Lemma percentage_at_least (count required : Z) (bound : Q) :
  (0 < required)%Z ->
  (bound <= inject_Z count / inject_Z required * 100
   <-> bound * inject_Z required <= inject_Z count * 100).
Proof.
  intros Hreq.
  assert (Hpos : 0 < inject_Z required)
    by (replace 0 with (inject_Z 0) by reflexivity; rewrite <- Zlt_Qlt; exact Hreq).
  assert (Heq : inject_Z count / inject_Z required * 100
                == inject_Z count * 100 / inject_Z required)
    by (field; intros H; rewrite H in Hpos; discriminate Hpos).
  rewrite Heq. split; intros H.
  - apply (Qmult_le_r _ _ (/ inject_Z required)); [apply Qinv_lt_0_compat; exact Hpos |].
    rewrite <- Qmult_assoc, Qmult_inv_r, Qmult_1_r;
      [exact H | intros H0; rewrite H0 in Hpos; discriminate Hpos].
  - apply Qle_shift_div_l; assumption.
Qed.

(** X20.  For a requirement above 0 the count tag and the percentage beside it
    agree: the tag is red exactly when the percentage is 100 or more, and
    then the percentage is written in the red of 80 percent and beyond; and
    the tag has the default colour exactly when no percentage is written. *)
Theorem count_tag_agrees_with_percentage (record : Alert) :
  (0 < shown_required record)%Z ->
  (count_tag_color record = "red"%string <-> 100 <= count_percentage record)
  /\ (count_tag_color record = "red"%string ->
      percentage_color record = Some "#ff4d4f"%string)
  /\ (count_tag_color record = "default"%string <-> percentage_color record = None).
Proof.
  intros Hreq.
  assert (Hhundred : 100 <= count_percentage record
                     <-> (shown_required record <= shown_count record)%Z).
  { unfold count_percentage. rewrite (percentage_at_least _ _ 100 Hreq).
    rewrite Zle_Qle. split; intros H; Lqa.lra. }
  assert (Heighty : (shown_required record <= shown_count record)%Z ->
                    Qle_bool 80 (count_percentage record) = true).
  { intros Hle. apply Qle_bool_iff. apply Hhundred in Hle. Lqa.lra. }
  unfold count_tag_color, percentage_color. rewrite Hhundred.
  destruct (Z.leb_spec (shown_required record) (shown_count record)) as [Hle | Hlt].
  - assert (Hcount : (0 <? shown_count record)%Z = true) by (apply Z.ltb_lt; lia).
    rewrite Hcount, (Heighty Hle).
    split; [tauto |]. split; [reflexivity |]. split; discriminate.
  - destruct (Z.ltb_spec 0 (shown_count record)) as [Hcount | Hcount].
    + split; [split; [discriminate | lia] |]. split; [discriminate |].
      split; [discriminate |].
      destruct (Qle_bool 80 _); [discriminate |].
      destruct (Qle_bool 50 _); discriminate.
    + split; [split; [discriminate | lia] |]. split; [discriminate |].
      split; reflexivity.
Qed.

Lemma count_tag_agrees_with_percentage_witness :
  (0 < shown_required (page_alert TRIGGERED 5 5))%Z
  /\ count_tag_color (page_alert TRIGGERED 5 5) = "red"%string
  /\ percentage_color (page_alert TRIGGERED 5 5) = Some "#ff4d4f"%string.
Proof.
  assert (Hreq : (0 < shown_required (page_alert TRIGGERED 5 5))%Z) by reflexivity.
  split; [exact Hreq |]. split; [reflexivity |].
  apply (proj1 (proj2 (count_tag_agrees_with_percentage _ Hreq))). reflexivity.
Defined.

End AlertsPageFacts.

(* ================================================================== *)
(** * Key topics *)
(* ================================================================== *)

Module KeyTopicsFacts.
Import EmotionalAnalysisAgent KeyTopics.

Lemma add_word_keys (w k : string) (counts : list (string * nat)) :
  In k (keys (add_word w counts)) <-> k = w \/ In k (keys counts).
Proof.
  unfold keys. induction counts as [| [w' n] rest IH]; cbn [add_word map In fst].
  - intuition congruence.
  - destruct (String.eqb_spec w w') as [-> | Hne]; cbn [map In fst].
    + intuition congruence.
    + rewrite IH. intuition congruence.
Qed.

Lemma add_word_nodup (w : string) (counts : list (string * nat)) :
  List.NoDup (keys counts) -> List.NoDup (keys (add_word w counts)).
Proof.
  induction counts as [| [w' n] rest IH]; cbn [add_word]; intros Hnodup.
  - repeat constructor. intros [].
  - destruct (String.eqb_spec w w') as [-> | Hne]; [exact Hnodup |].
    inversion Hnodup as [| ? ? Hfresh Hrest]; subst.
    change (List.NoDup (w' :: keys (add_word w rest))).
    constructor; [| exact (IH Hrest)].
    rewrite add_word_keys. intros [-> | Hin]; [congruence | exact (Hfresh Hin)].
Qed.

Lemma add_word_count (w k : string) (counts : list (string * nat)) :
  entry_count k (add_word w counts)
  = (entry_count k counts + (if String.eqb k w then 1 else 0))%nat.
Proof.
  unfold entry_count.
  induction counts as [| [w' n] rest IH]; cbn [add_word List.find fst snd].
  - destruct (String.eqb k w); reflexivity.
  - destruct (String.eqb_spec w w') as [-> | Hne]; cbn [List.find fst snd].
    + destruct (String.eqb k w'); cbn [snd]; lia.
    + destruct (String.eqb_spec k w') as [-> | Hk]; cbn [snd].
      * destruct (String.eqb_spec w' w); [congruence | lia].
      * exact IH.
Qed.

(** A Counter has one entry for each word seen, and the entry holds how
    often the word was seen. *)
Lemma counter_from (words : list string) (counts : list (string * nat)) :
  List.NoDup (keys counts) ->
  let result := fold_left (fun counts w => add_word w counts) words counts in
  List.NoDup (keys result)
  /\ (forall k, In k (keys result) <-> In k (keys counts) \/ In k words)
  /\ (forall k, entry_count k result = (entry_count k counts + frequency k words)%nat).
Proof.
  revert counts. induction words as [| w rest IH]; intros counts Hnodup; cbn zeta.
  - cbn [fold_left]. split; [exact Hnodup |]. split.
    + intros k. cbn [In]. tauto.
    + intros k. unfold frequency. cbn. lia.
  - cbn [fold_left].
    destruct (IH (add_word w counts) (add_word_nodup w counts Hnodup))
      as (Hnd & Hkeys & Hcount).
    split; [exact Hnd |]. split.
    + intros k. rewrite Hkeys, add_word_keys. cbn [In]. intuition congruence.
    + intros k. rewrite Hcount, add_word_count. unfold frequency.
      cbn [List.filter]. destruct (String.eqb k w); cbn [length]; lia.
Qed.

Lemma entry_count_of_entry (counts : list (string * nat)) (k : string) (n : nat) :
  List.NoDup (keys counts) -> In (k, n) counts -> entry_count k counts = n.
Proof.
  unfold entry_count.
  induction counts as [| [w' m] rest IH]; intros Hnodup Hin; [destruct Hin |].
  inversion Hnodup as [| ? ? Hfresh Hrest]; subst.
  cbn [List.find fst]. destruct Hin as [Heq | Hin].
  - injection Heq as -> ->. rewrite String.eqb_refl. reflexivity.
  - destruct (String.eqb_spec k w') as [-> | Hne].
    + exfalso. apply Hfresh. apply (in_map fst) in Hin. exact Hin.
    + apply IH; assumption.
Qed.

Lemma counter_entries (words : list string) :
  List.NoDup (keys (Counter words))
  /\ (forall k, In k (keys (Counter words)) <-> In k words)
  /\ (forall k n, In (k, n) (Counter words) -> n = frequency k words).
Proof.
  destruct (counter_from words [] (List.NoDup_nil _)) as (Hnd & Hkeys & Hcount).
  fold (Counter words) in Hnd, Hkeys, Hcount.
  split; [exact Hnd |]. split.
  - intros k. rewrite Hkeys. cbn [keys map In]. tauto.
  - intros k n Hin. rewrite <- (entry_count_of_entry _ _ _ Hnd Hin), Hcount.
    reflexivity.
Qed.

Lemma insert_by_count_perm (entry : string * nat) (entries : list (string * nat)) :
  Permutation (entry :: entries) (insert_by_count entry entries).
Proof.
  induction entries as [| other rest IH]; cbn [insert_by_count].
  - apply Permutation_refl.
  - destruct (snd other <=? snd entry)%nat; [apply Permutation_refl |].
    apply perm_trans with (other :: entry :: rest); [apply perm_swap |].
    apply perm_skip. exact IH.
Qed.

Lemma sort_by_count_perm (entries : list (string * nat)) :
  Permutation entries (sort_by_count entries).
Proof.
  induction entries as [| entry rest IH]; cbn [sort_by_count]; [apply perm_nil |].
  apply perm_trans with (entry :: sort_by_count rest);
    [apply perm_skip; exact IH | apply insert_by_count_perm].
Qed.

Lemma insert_by_count_sorted (entry : string * nat) (entries : list (string * nat)) :
  StronglySorted more_common entries ->
  StronglySorted more_common (insert_by_count entry entries).
Proof.
  induction 1 as [| other rest Hsorted IH Hall]; cbn [insert_by_count].
  - repeat constructor.
  - destruct (Nat.leb_spec (snd other) (snd entry)) as [Hle | Hlt].
    + constructor; [constructor; assumption |].
      constructor; [exact Hle |].
      eapply Forall_impl; [exact Hall |]. unfold more_common. intros x Hx. cbn in Hx. lia.
    + constructor; [exact IH |].
      apply Forall_forall. intros x Hx. apply list_elem_of_In in Hx.
      apply (Permutation_in _ (Permutation_sym (insert_by_count_perm entry rest))) in Hx.
      destruct Hx as [<- | Hx]; [unfold more_common; lia |].
      rewrite Forall_forall in Hall. apply Hall, list_elem_of_In. exact Hx.
Qed.

Lemma sort_by_count_sorted (entries : list (string * nat)) :
  StronglySorted more_common (sort_by_count entries).
Proof.
  induction entries as [| entry rest IH]; cbn [sort_by_count]; [constructor |].
  apply insert_by_count_sorted. exact IH.
Qed.

Lemma sorted_front_dominates (front back : list (string * nat)) :
  StronglySorted more_common (front ++ back) ->
  forall a b, In a front -> In b back -> more_common a b.
Proof.
  induction front as [| x rest IH]; intros Hsorted a b Ha Hb; [destruct Ha |].
  cbn [app] in Hsorted. inversion Hsorted as [| ? ? Hrest Hall]; subst.
  destruct Ha as [<- | Ha].
  - rewrite Forall_forall in Hall. apply Hall, list_elem_of_In, in_or_app.
    right. exact Hb.
  - apply (IH Hrest a b Ha Hb).
Qed.

Lemma sorted_front (front back : list (string * nat)) :
  StronglySorted more_common (front ++ back) -> StronglySorted more_common front.
Proof.
  induction front as [| x rest IH]; intros Hsorted; [constructor |].
  cbn [app] in Hsorted. inversion Hsorted as [| ? ? Hrest Hall]; subst.
  constructor; [exact (IH Hrest) |].
  rewrite Forall_forall in Hall |- *. intros y Hy. apply Hall.
  apply list_elem_of_In, in_or_app. left. apply list_elem_of_In. exact Hy.
Qed.

Lemma sorted_map_fst (words : list string) (entries : list (string * nat)) :
  (forall k n, In (k, n) entries -> n = frequency k words) ->
  StronglySorted more_common entries ->
  StronglySorted (fun a b => (frequency b words <= frequency a words)%nat)
    (map fst entries).
Proof.
  intros Hfreq. induction 1 as [| [k n] rest Hsorted IH Hall]; cbn [map fst].
  - constructor.
  - constructor.
    + apply IH. intros k' n' Hin. apply Hfreq. right. exact Hin.
    + apply Forall_forall. intros w Hw. apply list_elem_of_In in Hw.
      apply in_map_iff in Hw as ([k' n'] & <- & Hin). cbn [fst].
      rewrite Forall_forall in Hall.
      pose proof (Hall (k', n') (proj2 (list_elem_of_In _ _) Hin)) as Hle.
      unfold more_common in Hle. cbn [snd] in Hle.
      rewrite <- (Hfreq k n (or_introl eq_refl)).
      rewrite <- (Hfreq k' n' (or_intror Hin)). exact Hle.
Qed.

Section Builtins.
Variable lower : string -> string.
Variable split : string -> list string.

Local Abbreviation words news_data := (all_words lower split news_data).
Local Abbreviation ranked news_data :=
  (sort_by_count (Counter (all_words lower split news_data))).

Lemma ranked_entries (news_data : list News) :
  List.NoDup (keys (ranked news_data))
  /\ (forall k, In k (keys (ranked news_data)) <-> In k (words news_data))
  /\ (forall k n, In (k, n) (ranked news_data) -> n = frequency k (words news_data)).
Proof.
  destruct (counter_entries (words news_data)) as (Hnd & Hkeys & Hfreq).
  pose proof (sort_by_count_perm (Counter (words news_data))) as Hperm.
  split; [| split].
  - apply (Permutation_NoDup (Permutation_map fst Hperm)). exact Hnd.
  - intros k. rewrite <- Hkeys. unfold keys. split; intros Hin.
    + exact (Permutation_in _ (Permutation_sym (Permutation_map fst Hperm)) Hin).
    + exact (Permutation_in _ (Permutation_map fst Hperm) Hin).
  - intros k n Hin. apply Hfreq.
    exact (Permutation_in _ (Permutation_sym Hperm) Hin).
Qed.

Lemma topics_split (news_data : list News) :
  keys (ranked news_data)
  = extract_key_topics lower split news_data ++ keys (drop 5 (ranked news_data)).
Proof.
  unfold extract_key_topics, most_common, keys. rewrite <- map_app, take_drop. reflexivity.
Qed.

(** What is selected.  At most five topics are returned and none twice;
    each is a word of some title (lowered and split) that is no stop word
    and has more than three characters; and when fewer than five topics are
    returned, every such word is among them. *)
Lemma key_topics_selected (news_data : list News) :
  let topics := extract_key_topics lower split news_data in
  (length topics <= 5)%nat
  /\ List.NoDup topics
  /\ (forall w, In w topics ->
        kept w = true
        /\ exists news, In news news_data
             /\ In w (split (lower (default ""%string (title news)))))
  /\ ((length topics < 5)%nat ->
      forall w, In w (all_words lower split news_data) -> In w topics).
Proof.
  cbv zeta.
  destruct (ranked_entries news_data) as (Hnd & Hkeys & _).
  pose proof (topics_split news_data) as Hsplit.
  split; [| split; [| split]].
  - unfold extract_key_topics, most_common. rewrite length_map, length_take. lia.
  - rewrite Hsplit in Hnd. exact (List.NoDup_app_remove_r _ _ Hnd).
  - intros w Hw.
    assert (Hin : In w (words news_data)).
    { apply Hkeys. rewrite Hsplit. apply in_or_app. left. exact Hw. }
    unfold all_words in Hin. apply in_flat_map in Hin as (news & Hnews & Hword).
    unfold title_words in Hword. apply filter_In in Hword as [Hword Hkept].
    split; [exact Hkept |]. exists news. split; assumption.
  - intros Hshort w Hw.
    assert (Hall : extract_key_topics lower split news_data = keys (ranked news_data)).
    { unfold extract_key_topics, most_common, keys in *.
      rewrite length_map, length_take in Hshort.
      rewrite take_ge by lia. reflexivity. }
    rewrite Hall. apply Hkeys. exact Hw.
Qed.

(** What comes first.  The topics are in order of decreasing frequency,
    and no word left out is more frequent than a topic. *)
Lemma key_topics_ranked (news_data : list News) :
  let all := all_words lower split news_data in
  let topics := extract_key_topics lower split news_data in
  StronglySorted (fun a b => (frequency b all <= frequency a all)%nat) topics
  /\ (forall w w', In w topics -> In w' all -> ~ In w' topics ->
        (frequency w' all <= frequency w all)%nat).
Proof.
  cbv zeta.
  destruct (ranked_entries news_data) as (Hnd & Hkeys & Hfreq).
  pose proof (sort_by_count_sorted (Counter (words news_data))) as Hsorted.
  rewrite <- (take_drop 5 (ranked news_data)) in Hsorted.
  assert (Htake : forall e, In e (take 5 (ranked news_data)) -> In e (ranked news_data)).
  { intros e He. rewrite <- (take_drop 5 (ranked news_data)).
    apply in_or_app. left. exact He. }
  split.
  - unfold extract_key_topics, most_common.
    apply sorted_map_fst; [| exact (sorted_front _ _ Hsorted)].
    intros k n Hin. apply Hfreq, Htake. exact Hin.
  - intros w w' Hw Hw' Hout.
    unfold extract_key_topics, most_common in Hw, Hout.
    apply in_map_iff in Hw as ([k n] & Hk & Hin). cbn [fst] in Hk. subst k.
    assert (Hkey' : In w' (keys (ranked news_data))) by (apply Hkeys; exact Hw').
    unfold keys in Hkey'. apply in_map_iff in Hkey' as ([k' n'] & Hk' & Hin').
    cbn [fst] in Hk'. subst k'.
    rewrite <- (take_drop 5 (ranked news_data)) in Hin'.
    apply in_app_or in Hin' as [Hin' | Hin'].
    { exfalso. apply Hout. apply in_map_iff. exists (w', n'). split; [reflexivity | exact Hin']. }
    pose proof (sorted_front_dominates _ _ Hsorted _ _ Hin Hin') as Hle.
    unfold more_common in Hle. cbn [snd] in Hle.
    rewrite <- (Hfreq w n (Htake _ Hin)).
    assert (Hin'' : In (w', n') (ranked news_data)).
    { rewrite <- (take_drop 5 (ranked news_data)). apply in_or_app. right. exact Hin'. }
    rewrite <- (Hfreq w' n' Hin''). exact Hle.
Qed.

End Builtins.

(** X15.  At most five key topics are returned and none twice; each is a word of
    some title, lowered and split, that is no stop word and has more than
    three characters; and when fewer than five are returned, every such
    word is among them. *)
Theorem key_topics_selection (lower : string -> string)
    (split : string -> list string) (news_data : list News) :
  let topics := extract_key_topics lower split news_data in
  (length topics <= 5)%nat
  /\ List.NoDup topics
  /\ (forall w, In w topics ->
        kept w = true
        /\ exists news, In news news_data
             /\ In w (split (lower (default ""%string (title news)))))
  /\ ((length topics < 5)%nat ->
      forall w, In w (all_words lower split news_data) -> In w topics).
Proof. apply key_topics_selected. Qed.

Lemma key_topics_selection_witness :
  In "tesla"%string (extract_key_topics (fun text => text) (split_on_space "") titled_news)
  /\ kept "tesla" = true.
Proof.
  assert (Hin : In "tesla"%string
                  (extract_key_topics (fun text => text) (split_on_space "") titled_news))
    by (left; reflexivity).
  split; [exact Hin |].
  destruct (key_topics_selection (fun text => text) (split_on_space "") titled_news)
    as (_ & _ & Hkept & _).
  exact (proj1 (Hkept _ Hin)).
Defined.

(** X16.  The key topics are in order of decreasing frequency among the kept
    words, and no kept word that is left out is more frequent than a
    topic. *)
Theorem key_topics_most_frequent (lower : string -> string)
    (split : string -> list string) (news_data : list News) :
  let all := all_words lower split news_data in
  let topics := extract_key_topics lower split news_data in
  StronglySorted (fun a b => (frequency b all <= frequency a all)%nat) topics
  /\ (forall w w', In w topics -> In w' all -> ~ In w' topics ->
        (frequency w' all <= frequency w all)%nat).
Proof. apply key_topics_ranked. Qed.

Lemma key_topics_most_frequent_witness :
  In "tesla"%string (extract_key_topics (fun text => text) (split_on_space "") titled_news)
  /\ In "widens"%string (all_words (fun text => text) (split_on_space "") titled_news)
  /\ (frequency "widens" (all_words (fun text => text) (split_on_space "") titled_news)
      <= frequency "tesla" (all_words (fun text => text) (split_on_space "") titled_news))%nat.
Proof.
  assert (Hin : In "tesla"%string
                  (extract_key_topics (fun text => text) (split_on_space "") titled_news))
    by (left; reflexivity).
  assert (Hword : In "widens"%string
                    (all_words (fun text => text) (split_on_space "") titled_news))
    by (apply (proj1 (list_elem_of_In _ _)); apply (bool_decide_unpack _);
        vm_compute; exact I).
  split; [exact Hin |]. split; [exact Hword |].
  apply (proj2 (key_topics_most_frequent (fun text => text) (split_on_space "")
                  titled_news) _ _ Hin Hword).
  intros Hout.
  apply (proj2 (list_elem_of_In _ _)) in Hout.
  revert Hout. apply (bool_decide_unpack _). vm_compute. exact I.
Defined.

End KeyTopicsFacts.

(* ================================================================== *)
(** * The task of the sentiment agent *)
(* ================================================================== *)

Module EmotionalTaskFacts.
Import EmotionalAnalysisAgent NewsCategories KeyTopics EmotionalTask.
Import CategoryFacts.

Section ExecuteTask.
Variables NewsSentiment MarketSentiment FearGreed Signal StockInfo : Type.
Variable analyze_news_sentiment : list News -> NewsSentiment.
Variable analyze_market_sentiment : StockInfo -> MarketSentiment.
Variable calculate_fear_greed_index : NewsSentiment -> MarketSentiment -> FearGreed.
Variable generate_emotional_signal : FearGreed -> Signal.
Variable symbol_of : StockInfo -> string.
Variable lower : string -> string.
Variable split : string -> list string.

Local Abbreviation run_task :=
  (execute_task NewsSentiment MarketSentiment FearGreed Signal StockInfo
     analyze_news_sentiment analyze_market_sentiment
     calculate_fear_greed_index generate_emotional_signal symbol_of lower split).

Lemma execute_task_outcome (news_data : list News) (stock_data : StockInfo)
    (utcnow : string) :
  match List.find (fun news => negb (accepted_label (label_of news))) news_data with
  | Some news =>
      run_task (Some news_data) stock_data utcnow = KeyError (label_of news)
  | None =>
      exists report,
        run_task (Some news_data) stock_data utcnow = Returned report
        /\ sentiment_trend _ _ _ _ report = analyze_sentiment_trend news_data
        /\ categorize_news_sentiment news_data
           = Returned (categorized_sentiment _ _ _ _ report)
        /\ key_topics _ _ _ _ report = extract_key_topics lower split news_data
        /\ emotional_signal _ _ _ _ report
           = generate_emotional_signal
               (calculate_fear_greed_index (analyze_news_sentiment news_data)
                  (analyze_market_sentiment stock_data))
  end.
Proof.
  unfold execute_task. cbv zeta.
  change (default [] (Some news_data)) with news_data.
  unfold categorize_news_sentiment.
  pose proof (count_articles_outcome news_data ∅ empty_all_four_keys) as Hout.
  destruct (List.find _ news_data) as [bad |].
  - rewrite Hout. reflexivity.
  - destruct Hout as [counted Hcounted]. rewrite Hcounted.
    eexists. split; [reflexivity |]. repeat split.
Qed.

End ExecuteTask.

(** X17.  One label that the count dict does not know makes the whole task of
    the agent raise a KeyError with that label, although the trend alone
    would score the article as neutral; without such a label the task
    returns, and its trend, categories, topics and signal are those of the
    parts on the same news. *)
Theorem emotional_task_outcome
    (NewsSentiment MarketSentiment FearGreed Signal StockInfo : Type)
    (analyze_news_sentiment : list News -> NewsSentiment)
    (analyze_market_sentiment : StockInfo -> MarketSentiment)
    (calculate_fear_greed_index : NewsSentiment -> MarketSentiment -> FearGreed)
    (generate_emotional_signal : FearGreed -> Signal)
    (symbol_of : StockInfo -> string)
    (lower : string -> string) (split : string -> list string)
    (news_data : list News) (stock_data : StockInfo) (utcnow : string) :
  match List.find (fun news => negb (accepted_label (label_of news))) news_data with
  | Some news =>
      execute_task NewsSentiment MarketSentiment FearGreed Signal StockInfo
        analyze_news_sentiment analyze_market_sentiment
        calculate_fear_greed_index generate_emotional_signal symbol_of lower split
        (Some news_data) stock_data utcnow
      = KeyError (label_of news)
      /\ article_score news = 5 # 10
  | None =>
      exists report,
        execute_task NewsSentiment MarketSentiment FearGreed Signal StockInfo
          analyze_news_sentiment analyze_market_sentiment
          calculate_fear_greed_index generate_emotional_signal symbol_of lower split
          (Some news_data) stock_data utcnow
        = Returned report
        /\ sentiment_trend _ _ _ _ report = analyze_sentiment_trend news_data
        /\ categorize_news_sentiment news_data
           = Returned (categorized_sentiment _ _ _ _ report)
        /\ key_topics _ _ _ _ report = extract_key_topics lower split news_data
        /\ emotional_signal _ _ _ _ report
           = generate_emotional_signal
               (calculate_fear_greed_index (analyze_news_sentiment news_data)
                  (analyze_market_sentiment stock_data))
  end.
Proof.
  pose proof (execute_task_outcome NewsSentiment MarketSentiment FearGreed Signal
                StockInfo analyze_news_sentiment analyze_market_sentiment
                calculate_fear_greed_index generate_emotional_signal symbol_of
                lower split news_data stock_data utcnow) as Hout.
  destruct (List.find _ news_data) as [bad |] eqn:Hfind; [| exact Hout].
  split; [exact Hout |].
  apply find_some in Hfind as [_ Hbad].
  unfold article_score. fold (label_of bad).
  unfold accepted_label in Hbad.
  destruct (String.eqb (label_of bad) "positive"); [discriminate Hbad |].
  destruct (String.eqb (label_of bad) "negative"); [discriminate Hbad |].
  reflexivity.
Qed.

(** On the news with an article labelled "mixed" the trend is computed,
    the categories are not. *)
Example mixed_label :
  analyze_sentiment_trend mixed_news !! "trend"%string = Some (PyStr "DETERIORATING")
  /\ categorize_news_sentiment mixed_news = KeyError "mixed".
Proof. split; reflexivity. Qed.

End EmotionalTaskFacts.

(* ================================================================== *)
(** * The requests about alerts *)
(* ================================================================== *)

Module AlertRequestFacts.
Import AlertRequests.

Lemma append_length (a b : string) :
  String.length (a ++ b)%string = (String.length a + String.length b)%nat.
Proof.
  induction a as [| c a IH]; simpl; [reflexivity | rewrite IH; reflexivity].
Qed.

Lemma append_inv_tail (a b tail : string) :
  (a ++ tail)%string = (b ++ tail)%string -> a = b.
Proof.
  revert b. induction a as [| c a IH]; intros [| d b] Heq.
  - reflexivity.
  - apply (f_equal String.length) in Heq.
    rewrite !append_length in Heq. simpl in Heq. lia.
  - apply (f_equal String.length) in Heq.
    rewrite !append_length in Heq. simpl in Heq. lia.
  - simpl in Heq. injection Heq as -> Heq. f_equal. apply IH. exact Heq.
Qed.

Lemma append_inv_head (head a b : string) :
  (head ++ a)%string = (head ++ b)%string -> a = b.
Proof.
  induction head as [| c head IH]; simpl; intros Heq; [exact Heq |].
  injection Heq as Heq. apply IH. exact Heq.
Qed.

Lemma alert_url_inj (i j : Z) (suffix : string) :
  alert_url i suffix = alert_url j suffix -> i = j.
Proof.
  unfold alert_url. intros Heq.
  apply append_inv_head, append_inv_tail in Heq.
  apply (inj pretty) in Heq. exact Heq.
Qed.

(** X21.  The page and the service acknowledge an alert at the same address but
    not with the same method, PUT on the page and POST in the service; and
    each request about one alert is about that alert only: two ids give two
    addresses. *)
Theorem acknowledge_requests (i j : Z) :
  url (handleAcknowledge_request i) = url (acknowledgeAlert_request i)
  /\ method (handleAcknowledge_request i) = PUT
  /\ method (acknowledgeAlert_request i) = POST
  /\ (handleAcknowledge_request i = handleAcknowledge_request j -> i = j)
  /\ (handleDelete_request i = handleDelete_request j -> i = j)
  /\ (handleAnalyze_request i = handleAnalyze_request j -> i = j)
  /\ (acknowledgeAlert_request i = acknowledgeAlert_request j -> i = j)
  /\ (updateAlertThreshold_request i = updateAlertThreshold_request j -> i = j).
Proof.
  split; [reflexivity |]. split; [reflexivity |]. split; [reflexivity |].
  repeat split; intros Heq; apply (f_equal url) in Heq; cbn [url] in Heq;
    exact (alert_url_inj _ _ _ Heq).
Qed.

Lemma acknowledge_requests_witness :
  handleDelete_request 7 <> handleDelete_request 8.
Proof.
  intros Heq.
  destruct (acknowledge_requests 7 8) as (_ & _ & _ & _ & Hdelete & _).
  apply Hdelete in Heq. discriminate Heq.
Defined.

End AlertRequestFacts.

(* ================================================================== *)
(** * The Sharpe ratio over any float arithmetic *)
(* ================================================================== *)

Module RiskAnalysisFloatFacts.
Import FloatArith RiskAnalysisFloat.

Ltac eval_float_bind := cbn [mbind result_bind mret result_ret].

Section Arithmetic.

Variable A : Arith.
Variable P : Powers A.

(** No kept close is zero. *)
Lemma float_closing_prices_nonzero (hist : list (option (num A))) :
  Forall (fun c => is_zero A c = false) (closing_prices A hist).
Proof.
  induction hist as [| day rest IH]; [constructor |].
  cbn [closing_prices]. destruct day as [c |]; [| exact IH].
  destruct (is_zero A c) eqn:Hc; [exact IH |].
  constructor; assumption.
Qed.

(** So every daily return is computed, one per consecutive pair. *)
Lemma float_daily_returns_ok (prices : list (num A)) :
  Forall (fun c => is_zero A c = false) prices ->
  exists returns,
    daily_returns A prices = Ok returns
    /\ length returns = Nat.pred (length prices).
Proof.
  induction prices as [| p rest IH]; intros Hnz.
  - exists []. split; reflexivity.
  - destruct rest as [| q rest'].
    + exists []. split; reflexivity.
    + inversion Hnz as [| ? ? Hp Hrest]; subst.
      destruct (IH Hrest) as (rs & Hrs & Hlen).
      exists (fdiv A (fsub A q p) p :: rs). split.
      * change (daily_returns A (p :: q :: rest'))
          with (r ← pydiv A (fsub A q p) p;
                rs ← daily_returns A (q :: rest');
                mret (r :: rs)).
        unfold pydiv. rewrite Hp. eval_float_bind.
        rewrite Hrs. reflexivity.
      * cbn [length Nat.pred] in *. rewrite Hlen. reflexivity.
Qed.

(** A division by the length of a non-empty list is computed. *)
Lemma float_pydiv_len_ok (x : num A) (n : nat) :
  n <> 0%nat ->
  pydiv_len A x n = Ok (fdiv A x (of_int A (Z.of_nat n))).
Proof.
  intros Hn. unfold pydiv_len.
  destruct (Nat.eqb_spec n 0) as [Heq | _]; [contradiction | reflexivity].
Qed.

(** With two prices or more the annualized deviation is computed. *)
Lemma float_annual_std_ok (prices : list (num A)) :
  Forall (fun c => is_zero A c = false) prices ->
  (2 <= length prices)%nat ->
  exists returns avg std,
    daily_returns A prices = Ok returns
    /\ avg_return A returns = Ok avg
    /\ std_return A P returns avg = Ok std
    /\ annual_std_of_prices A P prices = Ok (annual_std A P std).
Proof.
  intros Hnz Hlen.
  destruct (float_daily_returns_ok prices Hnz) as (returns & Hrs & Hn).
  assert (Hne : length returns <> 0%nat) by lia.
  exists returns.
  exists (fdiv A (pysum A returns) (of_int A (Z.of_nat (length returns)))).
  eexists.
  assert (Havg : avg_return A returns
                 = Ok (fdiv A (pysum A returns)
                         (of_int A (Z.of_nat (length returns)))))
    by (apply float_pydiv_len_ok; exact Hne).
  assert (Hstd : forall avg,
            std_return A P returns avg
            = Ok (froot P (fdiv A (pysum A (map (fun r => fsquare P (fsub A r avg))
                                                returns))
                             (of_int A (Z.of_nat (length returns)))))).
  { intros avg. unfold std_return.
    rewrite (float_pydiv_len_ok _ _ Hne). reflexivity. }
  split; [exact Hrs |]. split; [exact Havg |]. split; [apply Hstd |].
  unfold annual_std_of_prices. rewrite Hrs. eval_float_bind.
  rewrite Havg. eval_float_bind. rewrite Hstd. reflexivity.
Qed.

(** [calculate_sharpe_ratio] raises on no input. *)
Lemma float_sharpe_total (historical_data : option (list (option (num A))))
    (risk_free_rate : num A) :
  returns_value (calculate_sharpe_ratio A P historical_data risk_free_rate).
Proof.
  unfold calculate_sharpe_ratio, returns_value. cbv zeta.
  destruct (Nat.ltb (length (default [] historical_data)) 10);
    [eexists; reflexivity |].
  destruct (Nat.ltb_spec
              (length (closing_prices A (default [] historical_data))) 2)
    as [_ | Hlen]; [eexists; reflexivity |].
  destruct (float_annual_std_ok _
              (float_closing_prices_nonzero (default [] historical_data)) Hlen)
    as (returns & avg & std & Hrs & Havg & Hstd & _).
  rewrite Hrs. eval_float_bind. rewrite Havg. eval_float_bind.
  rewrite Hstd. eval_float_bind.
  destruct (is_zero A (annual_std A P std)) eqn:Hz; [eexists; reflexivity |].
  unfold pydiv. rewrite Hz. eval_float_bind. eexists; reflexivity.
Qed.

(** When the [annual_std] reached tests equal to 0, the result is 0.0. *)
Lemma float_sharpe_zero_guard (historical_data : option (list (option (num A))))
    (risk_free_rate annual : num A) :
  annual_std_of_prices A P (closing_prices A (default [] historical_data))
    = Ok annual ->
  is_zero A annual = true ->
  calculate_sharpe_ratio A P historical_data risk_free_rate = Ok (literal A 0).
Proof.
  intros Hannual Hzero.
  unfold calculate_sharpe_ratio. cbv zeta.
  destruct (Nat.ltb (length (default [] historical_data)) 10); [reflexivity |].
  destruct (Nat.ltb
              (length (closing_prices A (default [] historical_data))) 2);
    [reflexivity |].
  unfold annual_std_of_prices in Hannual.
  destruct (daily_returns A (closing_prices A (default [] historical_data)))
    as [returns | e]; [| discriminate Hannual].
  eval_float_bind. cbn [mbind result_bind] in Hannual.
  destruct (avg_return A returns) as [avg | e]; [| discriminate Hannual].
  eval_float_bind. cbn [mbind result_bind] in Hannual.
  destruct (std_return A P returns avg) as [std | e]; [| discriminate Hannual].
  eval_float_bind. cbn [mbind result_bind mret result_ret] in Hannual.
  injection Hannual as Hannual. rewrite Hannual, Hzero. reflexivity.
Qed.

End Arithmetic.

Local Open Scope R_scope.

(** Over exact reals the definitions above are those of
    [RiskAnalysisAgent]. *)
Lemma real_pydiv (x y : R) :
  pydiv real_arith x y = PyReal.pydiv x y.
Proof.
  unfold pydiv, PyReal.pydiv. cbn [is_zero real_arith fdiv].
  destruct (Req_dec_T y 0); reflexivity.
Qed.

Lemma real_pydiv_len (x : R) (n : nat) :
  pydiv_len real_arith x n = PyReal.pydiv x (INR n).
Proof.
  unfold pydiv_len, PyReal.pydiv. cbn [of_int real_arith fdiv].
  destruct n as [| m].
  - cbn [Nat.eqb INR]. destruct (Req_dec_T 0 0) as [_ | Hne];
      [reflexivity | contradiction Hne; reflexivity].
  - cbn [Nat.eqb].
    destruct (Req_dec_T (INR (S m)) 0) as [Heq | _].
    + exfalso. revert Heq. apply not_0_INR. discriminate.
    + rewrite INR_IZR_INZ. reflexivity.
Qed.

Lemma real_closing_prices (hist : list RiskAnalysisAgent.Day) :
  closing_prices real_arith (map RiskAnalysisAgent.close hist)
  = RiskAnalysisAgent.closing_prices hist.
Proof.
  induction hist as [| day rest IH]; [reflexivity |].
  cbn [map closing_prices RiskAnalysisAgent.closing_prices].
  destruct (RiskAnalysisAgent.close day) as [c |]; [| exact IH].
  cbn [is_zero real_arith].
  destruct (Req_dec_T c 0); [exact IH | rewrite IH; reflexivity].
Qed.

Lemma real_daily_returns (prices : list R) :
  daily_returns real_arith prices = RiskAnalysisAgent.daily_returns prices.
Proof.
  induction prices as [| p rest IH]; [reflexivity |].
  destruct rest as [| q rest']; [reflexivity |].
  change (daily_returns real_arith (p :: q :: rest'))
    with (r ← pydiv real_arith (q - p) p;
          rs ← daily_returns real_arith (q :: rest');
          mret (r :: rs)).
  change (RiskAnalysisAgent.daily_returns (p :: q :: rest'))
    with (r ← PyReal.pydiv (q - p) p;
          rs ← RiskAnalysisAgent.daily_returns (q :: rest');
          mret (r :: rs)).
  rewrite real_pydiv, IH. reflexivity.
Qed.

Lemma real_avg_return (returns : list R) :
  avg_return real_arith returns = RiskAnalysisAgent.avg_return returns.
Proof.
  unfold avg_return, RiskAnalysisAgent.avg_return.
  rewrite real_pydiv_len. reflexivity.
Qed.

Lemma real_std_return (returns : list R) (avg : R) :
  std_return real_arith real_powers returns avg
  = RiskAnalysisAgent.std_return returns avg.
Proof.
  unfold std_return, RiskAnalysisAgent.std_return.
  rewrite real_pydiv_len. reflexivity.
Qed.

Lemma real_annual_std_of_prices (prices : list R) :
  annual_std_of_prices real_arith real_powers prices
  = RiskAnalysisAgent.annual_std_of_prices prices.
Proof.
  unfold annual_std_of_prices, RiskAnalysisAgent.annual_std_of_prices.
  rewrite real_daily_returns.
  destruct (RiskAnalysisAgent.daily_returns prices) as [returns | e];
    [| reflexivity].
  eval_float_bind. rewrite real_avg_return.
  destruct (RiskAnalysisAgent.avg_return returns) as [avg | e]; [| reflexivity].
  eval_float_bind. rewrite real_std_return. reflexivity.
Qed.

Lemma real_history (stock_data : RiskAnalysisAgent.StockData) :
  default [] (closes_of stock_data)
  = map RiskAnalysisAgent.close (RiskAnalysisAgent.history stock_data).
Proof.
  unfold closes_of, RiskAnalysisAgent.history.
  destruct (RiskAnalysisAgent.historical_data stock_data); reflexivity.
Qed.

Lemma real_literal_zero : literal real_arith 0 = 0.
Proof. cbn [literal real_arith]. unfold Q2R. cbn [Qnum Qden]. lra. Qed.

Lemma real_calculate_sharpe_ratio (stock_data : RiskAnalysisAgent.StockData)
    (risk_free_rate : R) :
  calculate_sharpe_ratio real_arith real_powers (closes_of stock_data) risk_free_rate
  = RiskAnalysisAgent.calculate_sharpe_ratio stock_data risk_free_rate.
Proof.
  unfold calculate_sharpe_ratio, RiskAnalysisAgent.calculate_sharpe_ratio.
  cbv zeta. rewrite real_history, length_map, real_closing_prices.
  rewrite real_literal_zero. change (num real_arith) with R.
  destruct (Nat.ltb (length (RiskAnalysisAgent.history stock_data)) 10);
    [reflexivity |].
  destruct (Nat.ltb (length (RiskAnalysisAgent.closing_prices
                               (RiskAnalysisAgent.history stock_data))) 2);
    [reflexivity |].
  rewrite real_daily_returns.
  destruct (RiskAnalysisAgent.daily_returns _) as [returns | e]; [| reflexivity].
  eval_float_bind. rewrite real_avg_return.
  destruct (RiskAnalysisAgent.avg_return returns) as [avg | e]; [| reflexivity].
  eval_float_bind. rewrite real_std_return.
  destruct (RiskAnalysisAgent.std_return returns avg) as [std | e]; [| reflexivity].
  eval_float_bind.
  change (annual_std real_arith real_powers std)
    with (RiskAnalysisAgent.annual_std std).
  cbn [is_zero real_arith].
  destruct (Req_dec_T (RiskAnalysisAgent.annual_std std) 0) as [Hz | Hnz];
    [reflexivity |].
  rewrite real_pydiv. reflexivity.
Qed.

End RiskAnalysisFloatFacts.

Module RiskAnalysisFloatClaims.
Import FloatArith RiskAnalysisFloat RiskAnalysisFloatFacts.

(** C5, amended.  Whatever the float arithmetic, that of Python's doubles
    included, [calculate_sharpe_ratio] raises on no input, and when the
    [annual_std] it has computed tests equal to 0 it returns 0.0. *)
Theorem sharpe_zero_volatility_returns_zero
    (A : Arith) (P : Powers A)
    (historical_data : option (list (option (num A))))
    (risk_free_rate : num A) :
  returns_value (calculate_sharpe_ratio A P historical_data risk_free_rate)
  /\ (forall annual : num A,
        annual_std_of_prices A P (closing_prices A (default [] historical_data))
          = Ok annual ->
        is_zero A annual = true ->
        calculate_sharpe_ratio A P historical_data risk_free_rate
          = Ok (literal A 0)).
Proof.
  split.
  - apply float_sharpe_total.
  - intros annual. apply float_sharpe_zero_guard.
Qed.

Lemma sharpe_zero_volatility_returns_zero_witness :
  annual_std_of_prices real_arith real_powers
    (closing_prices real_arith
       (default [] (closes_of (Samples.stock_of_closes Samples.flat_closes))))
    = Ok 0%R
  /\ is_zero real_arith 0%R = true
  /\ calculate_sharpe_ratio real_arith real_powers
       (closes_of (Samples.stock_of_closes Samples.flat_closes))
       RiskAnalysisAgent.default_risk_free_rate
     = Ok (literal real_arith 0).
Proof.
  assert (Hannual : annual_std_of_prices real_arith real_powers
            (closing_prices real_arith
               (default [] (closes_of (Samples.stock_of_closes Samples.flat_closes))))
            = Ok 0%R).
  { rewrite real_history, real_closing_prices, real_annual_std_of_prices.
    exact RiskEvaluation.flat_annual_std. }
  assert (Hzero : is_zero real_arith 0%R = true).
  { cbn [is_zero real_arith].
    destruct (Req_dec_T 0 0) as [_ | Hne];
      [reflexivity | contradiction Hne; reflexivity]. }
  split; [exact Hannual |]. split; [exact Hzero |].
  exact (proj2 (sharpe_zero_volatility_returns_zero real_arith real_powers
                  (closes_of (Samples.stock_of_closes Samples.flat_closes))
                  RiskAnalysisAgent.default_risk_free_rate)
           0%R Hannual Hzero).
Defined.

End RiskAnalysisFloatClaims.

(* ================================================================== *)
(** * The sentiment trend over any float arithmetic *)
(* ================================================================== *)

Module EmotionalAnalysisFloatFacts.
Import FloatArith EmotionalAnalysisFloat.
Import EmotionalAnalysisAgent(News, title, published_at, sentiment, category,
  sorted, first_half, second_half, Trend, IMPROVING, DETERIORATING, STABLE,
  trend_name).

Section Arithmetic.

Variable A : Arith.
Variable Pr : Printing A.

Lemma float_article_score_positive (news : News) :
  sentiment news = Some "positive"%string ->
  article_score A news = literal A (8 # 10).
Proof. intros H. unfold article_score. rewrite H. reflexivity. Qed.

Lemma float_article_score_negative (news : News) :
  sentiment news = Some "negative"%string ->
  article_score A news = literal A (2 # 10).
Proof. intros H. unfold article_score. rewrite H. reflexivity. Qed.

Lemma float_article_score_neutral (news : News) :
  sentiment news = Some "neutral"%string \/ sentiment news = None ->
  article_score A news = literal A (5 # 10).
Proof. intros [H | H]; unfold article_score; rewrite H; reflexivity. Qed.

(** On a non-empty list the average is the sum of the scores, added from
    left to right, over their number. *)
Lemma float_avg_sentiment_mean (news_list : list News) :
  news_list <> [] ->
  avg_sentiment A news_list
  = fdiv A (pysum A (map (article_score A) news_list))
           (of_int A (Z.of_nat (length news_list))).
Proof.
  intros Hne. destruct news_list as [| news rest]; [contradiction |].
  unfold avg_sentiment. cbn [map]. cbn [length]. rewrite length_map.
  reflexivity.
Qed.

(** On an empty list it is 0.5. *)
Lemma float_avg_sentiment_empty :
  avg_sentiment A [] = literal A (5 # 10).
Proof. reflexivity. Qed.

(** The ["trend"] entry is the class of the computed change. *)
Lemma float_trend_entry (news_data : list News) :
  news_data <> [] ->
  analyze_sentiment_trend A Pr news_data !! "trend"%string
  = Some (VStr (trend_name (classify A (sentiment_change A news_data)))).
Proof.
  intros Hne. destruct news_data as [| news rest]; [contradiction |].
  unfold analyze_sentiment_trend, sentiment_change.
  rewrite !lookup_insert_ne by discriminate.
  rewrite lookup_insert_eq. reflexivity.
Qed.

(** The cascade, test by test. *)
Lemma float_classify_spec (change : num A) :
  (flt A (literal A (1 # 10)) change = true -> classify A change = IMPROVING)
  /\ (flt A (literal A (1 # 10)) change = false ->
      flt A change (fneg A (literal A (1 # 10))) = true ->
      classify A change = DETERIORATING)
  /\ (flt A (literal A (1 # 10)) change = false ->
      flt A change (fneg A (literal A (1 # 10))) = false ->
      classify A change = STABLE).
Proof.
  unfold classify.
  split; [intros Hup; rewrite Hup; reflexivity |].
  split; intros Hup Hdown; rewrite Hup, Hdown; reflexivity.
Qed.

End Arithmetic.

(** Over exact rationals the cascade is that of
    [EmotionalAnalysisAgent]. *)
Lemma rational_classify (change : Q) :
  classify rational_arith change = EmotionalAnalysisAgent.classify change.
Proof.
  unfold classify, EmotionalAnalysisAgent.classify.
  cbn [flt rational_arith literal fneg].
  destruct (Qlt_le_dec (1 # 10) change); [reflexivity |].
  destruct (Qlt_le_dec change (- (1 # 10))); reflexivity.
Qed.

End EmotionalAnalysisFloatFacts.

Module EmotionalAnalysisFloatClaims.
Import FloatArith EmotionalAnalysisFloat EmotionalAnalysisFloatFacts.
Import EmotionalAnalysisAgent(News, title, published_at, sentiment, category,
  sorted, first_half, second_half, Trend, IMPROVING, DETERIORATING, STABLE,
  trend_name).
Import SentimentSpec(publication_time, chronological, improving_news).



End EmotionalAnalysisFloatClaims.

(* ================================================================== *)
(** * The Sentiment Scoring Engine on an empty news list *)
(* ================================================================== *)

Module SentimentEngineClaims.
Import SentimentEngine.
Import EmotionalAnalysisAgent(News, title, published_at, sentiment, category).
Local Open Scope Q_scope.

(** C8.  For an empty news list the engine returns, and raises nothing:
    the score is 0.5, the label NEUTRAL and the insufficient-data flag is
    set.  For every non-empty list it returns the mean of the per-article
    scores with the flag cleared, so the flag tells the empty case from a
    measured result, a neutral one included. *)
Theorem empty_news_insufficient_data
    (classifySentiment : News -> Q) (label_of_score : Q -> Label) :
  analyze_news_sentiment classifySentiment label_of_score []
  = Ok {| score := 5 # 10; label := NEUTRAL; insufficientData := true |}
  /\ (forall news_data, news_data <> [] ->
        exists measured,
          analyze_news_sentiment classifySentiment label_of_score news_data
          = Ok measured
          /\ insufficientData measured = false
          /\ score measured
             = SentimentSpec.mean (map (per_article_score classifySentiment) news_data)).
Proof.
  split; [reflexivity |].
  intros news_data Hne. destruct news_data as [| news rest]; [contradiction |].
  eexists. split; [reflexivity |]. split; reflexivity.
Qed.

Lemma empty_news_insufficient_data_witness :
  exists measured,
    analyze_news_sentiment (fun _ => 5 # 10) (fun _ => NEUTRAL)
      [SentimentSpec.article "neutral" "2025-10-01"]
    = Ok measured
    /\ insufficientData measured = false
    /\ score measured == 5 # 10
    /\ label measured = NEUTRAL.
Proof.
  assert (Hne : [SentimentSpec.article "neutral" "2025-10-01"] <> [])
    by discriminate.
  destruct (proj2 (empty_news_insufficient_data (fun _ => 5 # 10) (fun _ => NEUTRAL))
              [SentimentSpec.article "neutral" "2025-10-01"] Hne)
    as (measured & Hres & Hflag & Hscore).
  exists measured. split; [exact Hres |]. split; [exact Hflag |].
  split.
  - rewrite Hscore. reflexivity.
  - injection Hres as <-. reflexivity.
Defined.

End SentimentEngineClaims.
